(** * Training-support utilities ([utils.py]): a shallow embedding

    The Python module is a collection of helpers around checkpoints,
    feature files and a few numeric utilities.  Each function is embedded
    as a Rocq function over an explicit state (the object it mutates, or
    the file system), in a small state-and-exception monad: a Python
    statement that raises leaves the mutations made so far in place, so a
    computation returns an [outcome] together with the final state.

    Conventions.
    - [print] writes to standard output only; the text it prints is not
      part of the state, but the evaluation of its arguments is kept
      whenever it can raise.
    - [assert] is the statement of a normal (non [-O]) interpreter.
    - Library calls (torch, numpy, PIL, os) are either section variables
      (serialisation, [load_state_dict], [np.mean], float arithmetic) or
      small executable models of their documented behaviour (the file
      system, [np.fromfile], [reshape], [os.path]). *)

From Stdlib Require Import ZArith QArith Lia.
From Stdlib Require Import Strings.Byte Strings.Ascii Strings.String.
From stdpp Require Import gmap strings list fin_maps pretty.

Local Open Scope Z_scope.

(** ** Exceptions and the state-and-exception monad *)

Inductive exn : Type :=
  | AssertionError (msg : string)
  | ValueError (msg : string)
  | KeyError (key : string)
  | NameError (name : string)
  | TypeError (msg : string)
  | IndexError (msg : string)
  | AttributeError (msg : string)
  | RuntimeError (msg : string)
  | UnpicklingError
  | FileNotFoundError (path : string)
  | FileExistsError (path : string)
  | IsADirectoryError (path : string)
  | NotADirectoryError (path : string)
  | OSError (msg : string).

Inductive outcome (A : Type) : Type :=
  | Return (a : A)
  | Raise (e : exn).
Arguments Return {A} a.
Arguments Raise {A} e.

Definition raised {A} (o : outcome A) : Prop := ∃ e, o = Raise e.

(** A computation over a mutable state [S]: the state survives a raise. *)
Definition Py (S A : Type) : Type := S → outcome A * S.

Definition py_ret {S A} (a : A) : Py S A := λ s, (Return a, s).
Definition py_bind {S A B} (c : Py S A) (k : A → Py S B) : Py S B :=
  λ s, match c s with
       | (Return a, s') => k a s'
       | (Raise e, s') => (Raise e, s')
       end.
Definition py_raise {S A} (e : exn) : Py S A := λ s, (Raise e, s).
Definition py_get {S} : Py S S := λ s, (Return s, s).
Definition py_modify {S} (f : S → S) : Py S unit := λ s, (Return tt, f s).
Definition py_lift {S A} (o : outcome A) : Py S A := λ s, (o, s).
Definition py_assert {S} (b : bool) (msg : string) : Py S unit :=
  if b then py_ret tt else py_raise (AssertionError msg).

(** The monad is used through stdpp's [mret]/[mbind] notations:
    [x ← c; k] and [c;; k]. *)
#[global] Instance Py_ret {S} : MRet (Py S) := λ A, @py_ret S A.
#[global] Instance Py_bind {S} : MBind (Py S) := λ A B k c, @py_bind S A B c k.

#[global] Instance outcome_ret : MRet outcome := λ A, @Return A.
#[global] Instance outcome_bind : MBind outcome := λ A B k o,
  match o with Return a => k a | Raise e => Raise e end.
#[global] Instance outcome_fmap : FMap outcome := λ A B f o,
  match o with Return a => Return (f a) | Raise e => Raise e end.

(** A computation on a local object [l]: its final value is handed back;
    when the computation raises the object is lost with it. *)
Definition py_local {S L A} (c : Py L A) (l : L) : Py S (A * L) :=
  λ s, match c l with
       | (Return a, l') => (Return (a, l'), s)
       | (Raise e, _) => (Raise e, s)
       end.

(** [for x in xs: body x] without [break]. *)
Fixpoint py_for {S A} (xs : list A) (body : A → Py S unit) : Py S unit :=
  match xs with
  | [] => py_ret tt
  | x :: xs' => body x;; py_for xs' body
  end.

(** ** AverageMeter *)

Module AverageMeter.
Section Meter.
(** The values pushed (Python numbers), the integer [0] that [reset]
    stores, and [np.mean]. *)
Context {V : Type}.
Variable zero : V.
Variable np_mean : list V → V.

Record t : Type := Build {
  length : Z;
  history : list V;
  val : V;
  avg : V
}.

Definition set_history (f : list V → list V) (self : t) : t :=
  Build (length self) (f (history self)) (val self) (avg self).
Definition set_val (x : V) (self : t) : t :=
  Build (length self) (history self) x (avg self).
Definition set_avg (x : V) (self : t) : t :=
  Build (length self) (history self) (val self) x.

(** [__init__(self, length)]: store [length], then [reset()]. *)
Definition init (length : Z) : t := Build length [] zero zero.

Definition reset (self : t) : t := Build (length self) [] zero zero.

(** [l[-1]] *)
Definition last_item (l : list V) : outcome V :=
  match last l with
  | Some x => Return x
  | None => Raise (IndexError "list index out of range")
  end.

Definition update (v : V) : Py t unit :=
  py_modify (set_history (λ h, h ++ [v]));;
  self ← py_get;
  (if Z.of_nat (List.length (history self)) >? length self
   then py_modify (set_history (drop 1))
   else mret tt);;
  self ← py_get;
  x ← py_lift (last_item (history self));
  py_modify (set_val x);;
  self ← py_get;
  py_modify (set_avg (np_mean (history self))).

(** The history after one update, as a function of the history before:
    the new value is appended and, when the list got longer than the
    bound, its head is deleted. *)
Definition pushed (L : Z) (h : list V) (v : V) : list V :=
  if Z.of_nat (List.length (h ++ [v])) >? L then drop 1 (h ++ [v]) else h ++ [v].

(** A sequence of updates, oldest value first. *)
Definition updates (vs : list V) : Py t unit := py_for vs update.

End Meter.

Arguments t : clear implicits.

(** An exact instance of [np.mean], over the rationals: the sum divided
    by the number of values. *)
Definition Qmean (l : list Q) : Q :=
  (foldr Qplus 0 l / inject_Z (Z.of_nat (List.length l)))%Q.

End AverageMeter.

(** ** Strings and [os.path] (posixpath) *)

Definition sep : ascii := "/"%char.

(** [s.find(sub)]: the index of the first occurrence, or [-1]. *)
Definition str_find (s sub : string) : Z :=
  match String.index 0 sub s with
  | Some i => Z.of_nat i
  | None => -1
  end.

(** [(p[:i], p[i:])] for [i = p.rfind('/') + 1]. *)
Fixpoint rsplit_sep (p : string) : string * string :=
  match p with
  | EmptyString => (EmptyString, EmptyString)
  | String c p' =>
      let '(h, t) := rsplit_sep p' in
      if bool_decide (h = EmptyString)
      then if bool_decide (c = sep) then (String c EmptyString, t)
           else (EmptyString, String c t)
      else (String c h, t)
  end.

(** [s == '/' * len(s)] *)
Fixpoint all_sep (s : string) : bool :=
  match s with
  | EmptyString => true
  | String c s' => bool_decide (c = sep) && all_sep s'
  end.

(** [s.rstrip('/')] *)
Fixpoint rstrip_sep (s : string) : string :=
  match s with
  | EmptyString => EmptyString
  | String c s' =>
      let r := rstrip_sep s' in
      if bool_decide (r = EmptyString) && bool_decide (c = sep)
      then EmptyString else String c r
  end.

Definition starts_with_sep (s : string) : bool :=
  match s with String c _ => bool_decide (c = sep) | EmptyString => false end.

Definition ends_with_sep (s : string) : bool :=
  starts_with_sep (String.rev s).

(** [os.path.split(p)] *)
Definition os_path_split (p : string) : string * string :=
  let '(head, tail) := rsplit_sep p in
  if negb (bool_decide (head = EmptyString)) && negb (all_sep head)
  then (rstrip_sep head, tail) else (head, tail).

(** [os.path.dirname(p)] *)
Definition os_path_dirname (p : string) : string := (os_path_split p).1.

(** [os.path.join(a, b)] *)
Definition os_path_join (a b : string) : string :=
  if starts_with_sep b then b
  else if bool_decide (a = EmptyString) || ends_with_sep a then a +:+ b
  else a +:+ "/" +:+ b.

(** ** The file system

    A store from path names to directories and regular files.  Paths name
    entries as they are written (no normalisation, links or permissions);
    the current directory is implicit, so a path without a directory part
    is always creatable, and every other directory, the root included, is
    an entry of the store. *)

Inductive node : Type :=
  | Dir
  | File (content : list byte).

Abbreviation filesystem := (gmap string node).

Definition os_path_exists (fs : filesystem) (p : string) : bool :=
  match fs !! p with Some _ => true | None => false end.

Definition os_path_isfile (fs : filesystem) (p : string) : bool :=
  match fs !! p with Some (File _) => true | _ => false end.

Definition os_path_isdir (fs : filesystem) (p : string) : bool :=
  match fs !! p with Some Dir => true | _ => false end.

(** Whether an entry can be created at [p]: its directory part is empty
    or names a directory. *)
Definition parent_check (fs : filesystem) (p : string) : outcome unit :=
  let d := os_path_dirname p in
  if bool_decide (p = EmptyString) then Raise (FileNotFoundError p)
  else if bool_decide (d = EmptyString) then Return tt
  else match fs !! d with
       | Some Dir => Return tt
       | Some (File _) => Raise (NotADirectoryError p)
       | None => Raise (FileNotFoundError p)
       end.

(** [open(p, 'rb').read()] *)
Definition read_file (fs : filesystem) (p : string) : outcome (list byte) :=
  match fs !! p with
  | Some (File bs) => Return bs
  | Some Dir => Raise (IsADirectoryError p)
  | None => Raise (FileNotFoundError p)
  end.

(** [open(p, 'wb').write(bs)]: creates or truncates the file. *)
Definition write_file (p : string) (bs : list byte) : Py filesystem unit :=
  fs ← py_get;
  py_lift (parent_check fs p);;
  if os_path_isdir fs p then py_raise (IsADirectoryError p)
  else py_modify (λ fs, <[p := File bs]> fs).

(** [os.mkdir(name)] *)
Definition os_mkdir (name : string) : Py filesystem unit :=
  fs ← py_get;
  if os_path_exists fs name then py_raise (FileExistsError name)
  else py_lift (parent_check fs name);; py_modify (λ fs, <[name := Dir]> fs).

(** [os.makedirs(name)] ([exist_ok=False]): the recursion of the library
    on the head of [os.path.split], bounded by the length of the name. *)
Fixpoint os_makedirs_aux (fuel : nat) (name : string) : Py filesystem unit :=
  let '(head, tail) := os_path_split name in
  let '(head, tail) :=
    if bool_decide (tail = EmptyString) then os_path_split head else (head, tail) in
  fs ← py_get;
  stop ←
    (if negb (bool_decide (head = EmptyString)) && negb (bool_decide (tail = EmptyString))
        && negb (os_path_exists fs head)
     then
       match fuel with
       | O => py_raise (OSError "path too deep")
       | S fuel' =>
           (λ fs, match os_makedirs_aux fuel' head fs with
                  | (Raise (FileExistsError _), fs') => (Return tt, fs')
                  | r => r
                  end);;
           mret (bool_decide (tail = "."))
       end
     else mret false);
  if stop : bool then mret tt else os_mkdir name.

Definition os_makedirs (name : string) : Py filesystem unit :=
  os_makedirs_aux (String.length name) name.

(** ** numpy arrays and raw feature files *)

(** Arrays of rank one and two, the ranks the module works with: a flat
    buffer in row-major (C) order, with the shape of a matrix. *)
Inductive ndarray (A : Type) : Type :=
  | Vec (data : list A)
  | Mat (rows cols : nat) (data : list A).
Arguments Vec {A} data.
Arguments Mat {A} rows cols data.

Definition data_of {A} (a : ndarray A) : list A :=
  match a with Vec d => d | Mat _ _ d => d end.

(** The fixed-width float types.  An element is represented by its bit
    pattern, an integer below [2^(8 * itemsize)]; a file holds it in
    little-endian byte order. *)
Inductive dtype : Type := float16 | float32 | float64.

Definition itemsize (dt : dtype) : nat :=
  match dt with float16 => 2 | float32 => 4 | float64 => 8 end%nat.

Definition byte_of_Z (x : Z) : byte :=
  default x00 (Byte.of_N (Z.to_N (x mod 256))).

Definition Z_of_byte (b : byte) : Z := Z.of_N (Byte.to_N b).

Fixpoint le_bytes (w : nat) (x : Z) : list byte :=
  match w with
  | O => []
  | S w' => byte_of_Z x :: le_bytes w' (x / 256)
  end.

Fixpoint le_value (bs : list byte) : Z :=
  match bs with
  | [] => 0
  | b :: bs' => Z_of_byte b + 256 * le_value bs'
  end.

Definition elem_ok (dt : dtype) (x : Z) : Prop :=
  0 ≤ x < 2 ^ (8 * Z.of_nat (itemsize dt)).

(** The first [n] groups of [w] bytes. *)
Fixpoint chunks (w n : nat) (bs : list byte) : list (list byte) :=
  match n with
  | O => []
  | S n' => take w bs :: chunks w n' (drop w bs)
  end.

(** [np.fromfile(path, dtype=dt, count=count)]: reads [count] items, or
    every complete item of the file when [count] is negative; a file with
    fewer items yields the items there are, without an error. *)
Definition np_fromfile (fs : filesystem) (path : string) (dt : dtype) (count : Z)
  : outcome (list Z) :=
  match read_file fs path with
  | Raise e => Raise e
  | Return bs =>
      let avail := (List.length bs / itemsize dt)%nat in
      let n := if count <? 0 then avail else Nat.min (Z.to_nat count) avail in
      Return (le_value <$> chunks (itemsize dt) n bs)
  end.

(** [a.tofile(path)]: the elements in C order, no header. *)
Definition tofile (dt : dtype) (a : ndarray Z) (path : string) : Py filesystem unit :=
  write_file path (concat (le_bytes (itemsize dt) <$> data_of a)).

(** [a.reshape(r, c)] of a flat array; [r = -1] is inferred. *)
Definition reshape2 {A} (data : list A) (r c : Z) : outcome (ndarray A) :=
  let n := Z.of_nat (List.length data) in
  if r =? -1 then
    if (0 <? c) && (n mod c =? 0)
    then Return (Mat (Z.to_nat (n / c)) (Z.to_nat c) data)
    else Raise (ValueError "cannot reshape array")
  else
    if (0 <=? r) && (0 <=? c) && (r * c =? n)
    then Return (Mat (Z.to_nat r) (Z.to_nat c) data)
    else Raise (ValueError "cannot reshape array").

(** [read_feat(path, inst_num, feat_dim, dtype)] ([verbose] only prints). *)
Definition read_feat (path : string) (inst_num feat_dim : Z) (dt : dtype)
  : Py filesystem (ndarray Z) :=
  py_assert (((0 <? inst_num) || (inst_num =? -1)) && (0 <? feat_dim)) "";;
  let count := if 0 <? inst_num then inst_num * feat_dim else -1 in
  fs ← py_get;
  probs ← py_lift (np_fromfile fs path dt count);
  if 1 <? feat_dim
  then py_lift (reshape2 probs inst_num feat_dim)
  else mret (Vec probs).

(** [write_feat(ofn, features)], for an array of element type [dt]. *)
Definition write_feat (ofn : string) (dt : dtype) (features : ndarray Z)
  : Py filesystem unit :=
  tofile dt features ofn.

(** A matrix of shape [(n, d)] whose elements are of type [dt]. *)
Definition is_matrix (dt : dtype) (n d : Z) (M : ndarray Z) : Prop :=
  ∃ data, M = Mat (Z.to_nat n) (Z.to_nat d) data
        ∧ Z.of_nat (List.length data) = n * d
        ∧ Forall (elem_ok dt) data.

(** ** normalize *)

Section Normalize.
(** Floating-point numbers and their operations. *)
Context {F : Type}.
Variables (fzero : F) (fadd fmul fdiv : F → F → F) (fsqrt : F → F).

(** [np.linalg.norm] of a vector: the square root of the sum of squares
    (summed left to right). *)
Definition l2norm (v : list F) : F :=
  fsqrt (foldl fadd fzero ((λ x, fmul x x) <$> v)).

(** Row [i] and column [j] of a row-major buffer with [cols] columns. *)
Definition row_of (cols : nat) (d : list F) (i : nat) : list F :=
  take cols (drop (i * cols) d).
Definition col_of (rows cols : nat) (d : list F) (j : nat) : list F :=
  (λ i, default fzero (d !! (i * cols + j)%nat)) <$> seq 0 rows.

(** [np.linalg.norm(feat, axis=0)] and [np.linalg.norm(feat, axis=1)] *)
Definition norms_axis0 (rows cols : nat) (d : list F) : list F :=
  (λ j, l2norm (col_of rows cols d j)) <$> seq 0 cols.
Definition norms_axis1 (rows cols : nat) (d : list F) : list F :=
  (λ i, l2norm (row_of cols d i)) <$> seq 0 rows.

(** [normalize(feat, axis)]; [None] is the value of a call that falls off
    the end of the function. *)
Definition normalize (feat : ndarray F) (axis : Z) : outcome (option (ndarray F)) :=
  match feat with
  | Vec v => Return (Some (Vec ((λ x, fdiv x (l2norm v)) <$> v)))
  | Mat rows cols d =>
      if axis =? 0 then
        let ns := norms_axis0 rows cols d in
        Return (Some (Mat rows cols
          (imap (λ p x, fdiv x (default fzero (ns !! (p mod cols)%nat))) d)))
      else if axis =? 1 then
        let ns := norms_axis1 rows cols d in
        Return (Some (Mat rows cols
          (imap (λ p x, fdiv x (default fzero (ns !! (p / cols)%nat))) d)))
      else Return None
  end.

End Normalize.

(** ** save_imgs *)

(** The names bound at module level by [utils.py]. *)
Definition module_names : list string :=
  ["np"; "torch"; "dist"; "os"; "io"; "sys"; "pickle"; "Image"; "mp";
   "init_processes"; "AverageMeter"; "accuracy"; "save_ckpt"; "load_ckpt";
   "simplify_ckpt"; "normalize"; "pil_loader"; "bin_loader"; "save_imgs";
   "mkdir_if_no_exist"; "read_feat"; "write_feat"].

(** Evaluating a name that is not a local variable: the text of the
    object bound at module level, or [NameError]. *)
Definition load_global (x : string) : outcome string :=
  if bool_decide (x ∈ module_names)
  then Return ("<" +:+ x +:+ ">")
  else Raise (NameError x).

Section SaveImgs.
(** PIL images and their JPEG encoding ([img.save] fails on an image
    that cannot be encoded). *)
Context {Image : Type}.
Variable jpeg_encode : Image → outcome (list byte).

(** [img.save(opath, "JPEG")] *)
Definition img_save (img : Image) (opath : string) : Py filesystem unit :=
  bs ← py_lift (jpeg_encode img);
  write_file opath bs.

(** [enumerate(imgs)] *)
Definition enumerate {A} (l : list A) : list (nat * A) := imap (λ i x, (i, x)) l.

(** [save_imgs(imgs, ofolder)].  The loop has no [break], so the [else]
    clause of the [for] runs whenever the loop runs to its end; it
    evaluates the name [axis], which the function never binds. *)
Definition save_imgs (imgs : list Image) (ofolder : string) : Py filesystem unit :=
  py_for (enumerate imgs) (λ '(i, img),
    let opath := os_path_join ofolder (pretty i +:+ ".jpg") in
    fs ← py_get;
    (if negb (os_path_exists fs (os_path_dirname opath))
     then os_makedirs (os_path_dirname opath)
     else mret tt);;
    img_save img opath);;
  axis ← py_lift (load_global "axis");
  py_raise (TypeError
    ("axis value should be 0 or 1(cannot handel axis " +:+ axis +:+ ")")).

End SaveImgs.

(** ** Checkpoints *)

(** Python dictionaries with string keys: [d[k]] and [del d[k]] raise
    [KeyError] on a missing key. *)
Definition getitem {V} (d : gmap string V) (k : string) : outcome V :=
  match d !! k with
  | Some v => Return v
  | None => Raise (KeyError k)
  end.

Definition delitem {V} (k : string) : Py (gmap string V) unit :=
  d ← py_get;
  match d !! k with
  | Some _ => py_modify (delete k)
  | None => py_raise (KeyError k)
  end.

Section Torch.
(** Tensors, other picklable Python objects (optimizer state, scores),
    the live model and the optimizer. *)
Context {Tensor PyObj Model Optim : Type}.

(** The values a checkpoint maps its keys to. *)
Inductive value : Type :=
  | VStateDict (sd : gmap string Tensor)
  | VInt (n : Z)
  | VObj (o : PyObj).

Abbreviation checkpoint := (gmap string value).

(** The torch interface: (de)serialisation of a checkpoint,
    [model.load_state_dict(sd, strict)] and
    [optimizer.load_state_dict(state)]. *)
Variable torch_loads : list byte → outcome checkpoint.
Variable torch_dumps : checkpoint → list byte.
Variable model_load_state_dict : gmap string Tensor → bool → Py Model unit.
Variable optimizer_load_state_dict : value → Py Optim unit.

(** The objects [load_ckpt] is handed and mutates in place;
    [optimizer = None] is the default argument. *)
Record objects : Type := Objects {
  model : Model;
  optimizer : option Optim
}.

Definition on_model {A} (c : Py Model A) : Py objects A :=
  λ o, let '(r, m) := c (model o) in (r, Objects m (optimizer o)).

Definition on_optimizer {A} (c : Py Optim A) : Py objects A :=
  λ o, match optimizer o with
       | Some opt => let '(r, opt') := c opt in (r, Objects (model o) (Some opt'))
       | None =>
           (Raise (AttributeError "'NoneType' object has no attribute 'load_state_dict'"), o)
       end.

(** [torch.load(path)] *)
Definition torch_load (fs : filesystem) (path : string) : outcome checkpoint :=
  bs ← read_file fs path; torch_loads bs.

(** [torch.save(obj, path)] *)
Definition torch_save (obj : checkpoint) (path : string) : Py filesystem unit :=
  write_file path (torch_dumps obj).

(** [checkpoint['state_dict']], used as a dictionary. *)
Definition state_dict_of (ckpt : checkpoint) : outcome (gmap string Tensor) :=
  v ← getitem ckpt "state_dict";
  match v with
  | VStateDict sd => Return sd
  | _ => Raise (AttributeError "object has no attribute 'keys'")
  end.

(** [del checkpoint['state_dict'][ignore]]: the inner dictionary is
    changed in place, so the checkpoint sees the deletion. *)
Definition del_state_dict_item (ignore : string) : Py checkpoint unit :=
  ckpt ← py_get;
  sd ← py_lift (state_dict_of ckpt);
  '(_, sd') ← py_local (delitem ignore) sd;
  py_modify (λ ckpt, <["state_dict" := VStateDict sd']> ckpt).

(** The body of the loop over [ignores] in [load_ckpt]; [keys] is the
    set of names taken before the loop. *)
Definition ignore_or_raise (keys : gset string) (ignore : string) : Py checkpoint unit :=
  if bool_decide (ignore ∈ keys)
  then del_state_dict_item ignore
  else py_raise (ValueError ("cannot find " +:+ ignore +:+ " in load_path")).

(** The body of the loop over [ignores] in [simplify_ckpt].  Before it
    raises for a name that is not found, it prints the shape of every key
    whose name does not contain [base], looking each one up in the state
    dictionary as it is now; the keys are those of the set taken before
    the loop (iterated here in the order of [elements]). *)
Definition print_shape (k : string) : Py checkpoint unit :=
  if str_find k "base" <? 0 then
    ckpt ← py_get;
    sd ← py_lift (state_dict_of ckpt);
    _ ← py_lift (getitem sd k);
    mret tt
  else mret tt.

Definition ignore_or_report (keys : gset string) (ignore : string) : Py checkpoint unit :=
  if bool_decide (ignore ∈ keys)
  then del_state_dict_item ignore
  else
    py_for (elements keys) print_shape;;
    py_raise (ValueError ("cannot find " +:+ ignore +:+ " in load_path")).

(** The body of the first loop of [simplify_ckpt]: every key but
    [state_dict] is deleted. *)
Definition keep_state_dict (key : string) : Py checkpoint unit :=
  if bool_decide (key = "state_dict") then mret tt else delitem key.

(** A state dictionary without the names of [ignores]. *)
Definition without (ignores : list string) (sd : gmap string Tensor)
  : gmap string Tensor :=
  foldl (λ d k, delete k d) sd ignores.

(** [load_ckpt(path, model, ignores, strict, optimizer)]; the result is
    [Some (epoch, best_prec1)] for the returned tuple and [None] when the
    function falls off its end.  The block under [if not strict] only
    prints. *)
Definition load_ckpt (fs : filesystem) (path : string) (ignores : list string)
    (strict : bool) : Py objects (option (value * value)) :=
  if os_path_isfile fs path then
    checkpoint ← py_lift (torch_load fs path);
    self ← py_get;
    checkpoint ←
      (if (0 <? List.length ignores)%nat then
         py_assert (bool_decide (optimizer self = None)) "";;
         keys ← py_lift (dom <$> state_dict_of checkpoint);
         '(_, checkpoint) ← py_local (py_for ignores (ignore_or_raise keys)) checkpoint;
         mret checkpoint
       else mret checkpoint);
    sd ← py_lift (state_dict_of checkpoint);
    on_model (model_load_state_dict sd strict);;
    self ← py_get;
    if negb (bool_decide (optimizer self = None)) then
      py_assert (List.length ignores =? 0)%nat "";;
      state ← py_lift (getitem checkpoint "optimizer");
      on_optimizer (optimizer_load_state_dict state);;
      epoch ← py_lift (getitem checkpoint "epoch");
      best_prec1 ← py_lift (getitem checkpoint "best_prec1");
      mret (Some (epoch, best_prec1))
    else mret None
  else
    py_raise (AssertionError ("=> no checkpoint found at '" +:+ path +:+ "'")).

(** [if opath == '': opath = path + '_simplified'] *)
Definition output_path (path opath : string) : string :=
  if bool_decide (opath = "") then path +:+ "_simplified" else opath.

(** [simplify_ckpt(path, opath, ignores)]; [len(ignores) >= 0] always
    holds, so the loop over [ignores] is always entered. *)
Definition simplify_ckpt (path opath : string) (ignores : list string)
  : Py filesystem unit :=
  fs ← py_get;
  if os_path_isfile fs path then
    checkpoint ← py_lift (torch_load fs path);
    '(_, checkpoint) ← py_local
      (let keys := (map_to_list checkpoint).*1 in
       py_for keys keep_state_dict;;
       if (0 <=? List.length ignores)%nat then
         ckpt ← py_get;
         keys ← py_lift (dom <$> state_dict_of ckpt);
         py_for ignores (ignore_or_report keys)
       else mret tt)
      checkpoint;
    let opath := output_path path opath in
    torch_save checkpoint opath
  else
    py_raise (AssertionError ("=> no checkpoint found at '" +:+ path +:+ "'")).

End Torch.

Arguments value : clear implicits.
Arguments objects : clear implicits.

(** ** A small instance of the external interfaces

    Used to run the functions on concrete inputs: tensors are flat lists
    of integers, a model is the dictionary of its parameters, and a file
    holds one byte that indexes a table of sample checkpoints. *)

Module Sample.

Abbreviation Tensor := (list Z).
Abbreviation val := (value Tensor string).

(** [load_state_dict]: in strict mode the names of the state dictionary
    and of the model must agree; the parameters present on both sides
    are overwritten. *)
Definition model_load_state_dict (sd : gmap string Tensor) (strict : bool)
  : Py (gmap string Tensor) unit :=
  λ m, if strict && negb (bool_decide (dom sd = dom m))
       then (Raise (RuntimeError "Error(s) in loading state_dict"), m)
       else (Return tt, filter (λ kv, kv.1 ∈ dom m) sd ∪ m).

Definition optimizer_load_state_dict (state : val) : Py string unit :=
  match state with
  | VObj o => λ _, (Return tt, o)
  | _ => py_raise (TypeError "optimizer state expected")
  end.

(** A full checkpoint with two parameters, and a checkpoint that is
    already reduced to its weights. *)
Definition full : gmap string val :=
  <["state_dict" := VStateDict (<["fc.weight" := [1; 2]]> (<["base.conv" := [3]]> ∅))]>
  (<["optimizer" := VObj "sgd-state"]>
  (<["epoch" := VInt 7]>
  (<["best_prec1" := VObj "93.5"]> ∅))).

Definition weights_only : gmap string val :=
  <["state_dict" := VStateDict (<["fc.weight" := [1; 2]]> ∅)]> ∅.

Definition table : list (gmap string val) := [full; weights_only].

Definition torch_loads (bs : list byte) : outcome (gmap string val) :=
  match bs with
  | [b] => match table !! Byte.to_nat b with
           | Some c => Return c
           | None => Raise UnpicklingError
           end
  | _ => Raise UnpicklingError
  end.

(** The serialised form only records how many keys there are. *)
Definition torch_dumps (c : gmap string val) : list byte :=
  [byte_of_Z (Z.of_nat (size c))].

Definition disk : filesystem :=
  <["ckpt/full.pth.tar" := File [x00]]>
  (<["ckpt/small.pth.tar" := File [x01]]>
  (<["ckpt" := Dir]> ∅)).

Definition model0 : gmap string Tensor :=
  <["fc.weight" := [0; 0]]> (<["base.conv" := [0]]> ∅).

(** The functions of the module at this instance. *)
Definition load_ckpt :=
  @load_ckpt Tensor string (gmap string Tensor) string
    torch_loads model_load_state_dict optimizer_load_state_dict.

Definition simplify_ckpt :=
  @simplify_ckpt Tensor string torch_loads torch_dumps.

(** Rational "floats" whose square root is exact on squares of
    rationals, for [normalize]. *)
Definition Qsqrt (q : Q) : Q := Z.sqrt (Qnum q) # Pos.sqrt (Qden q).

Definition normalize := @normalize Q 0%Q Qplus Qmult Qdiv Qsqrt.

(** Images are their own JPEG encoding. *)
Definition save_imgs := @save_imgs (list byte) Return.

End Sample.

(** A second serialisation of the sample checkpoints, which records the
    keys of the checkpoint and the names of its state dictionary. *)
Definition dump_names (c : gmap string Sample.val) : list byte :=
  list_byte_of_string
    (String.concat "," (elements (dom c)) +:+ ":" +:+
     match c !! "state_dict" with
     | Some (VStateDict sd) => String.concat "," (elements (dom sd))
     | _ => EmptyString
     end).

(** ** mkdir_if_no_exist *)

(** [mkdir_if_no_exist(path, subdirs)]; the default of [subdirs] is
    [['']]. *)
Definition mkdir_if_no_exist (path : string) (subdirs : list string)
  : Py filesystem unit :=
  if bool_decide (path = EmptyString) then mret tt
  else
    py_for subdirs (λ sd,
      let d := os_path_dirname (os_path_join path sd) in
      fs ← py_get;
      if negb (os_path_exists fs d) then os_makedirs d else mret tt).

(** [fs'] is [fs] with directories added at paths that had no entry. *)
Definition adds_dirs_only (fs fs' : filesystem) : Prop :=
  ∀ p, fs' !! p = fs !! p ∨ (fs !! p = None ∧ fs' !! p = Some Dir).

(** ** bin_loader *)

(** [[f(x) for x in l]] for an [f] that can raise: the elements are
    treated in order and the first exception ends the evaluation. *)
Fixpoint outcome_map {A B} (f : A → outcome B) (l : list A) : outcome (list B) :=
  match l with
  | [] => Return []
  | x :: l' => y ← f x; ys ← outcome_map f l'; Return (y :: ys)
  end.

Section BinLoader.
(** Decoded images and labels.  [pickle_load_pair] stands for
    [pickle.load] (its argument tells whether [encoding='bytes'] is
    passed) followed by the unpacking [bins, lbs = data];
    [image_open_rgb] for [Image.open(buff).convert('RGB')]. *)
Context {PILImage Label : Type}.
Variable pickle_load_pair : bool → list byte → outcome (list (list byte) * list Label).
Variable image_open_rgb : list byte → outcome PILImage.

(** [pil_loader(img_str)] *)
Definition pil_loader (img_str : list byte) : outcome PILImage :=
  image_open_rgb img_str.

(** [bin_loader(path)], run by an interpreter of major version
    [py_major] ([sys.version_info[0]]). *)
Definition bin_loader (py_major : Z) (fs : filesystem) (path : string)
  : outcome (list PILImage * list Label) :=
  bs ← read_file fs path;
  '(bins, lbs) ←
    (if py_major =? 2 then pickle_load_pair false bs
     else if py_major =? 3 then pickle_load_pair true bs
     else Raise (OSError "Only support python 2 or 3"));
  (if (List.length bins =? 2 * List.length lbs)%nat
   then Return tt else Raise (AssertionError ""));;
  imgs ← outcome_map pil_loader bins;
  Return (imgs, lbs).

End BinLoader.

(** ** save_ckpt and symbolic links

    [save_ckpt] replaces a symbolic link, so its state is the file system
    together with the links: a link is an entry of its own, with the text
    of its target, and is followed when it is the path that is opened or
    tested.  A path is a link or a node, not both; directories reached
    through a link are outside the model. *)

Record linkfs : Type := LinkFs {
  nodes : filesystem;
  links : gmap string string
}.

Definition on_nodes {A} (c : Py filesystem A) : Py linkfs A :=
  λ l, let '(r, fs) := c (nodes l) in (r, LinkFs fs (links l)).

(** Where the link at [p] with target text [t] points: a relative target
    is taken from the directory of the link. *)
Definition link_target (p t : string) : string :=
  os_path_join (os_path_dirname p) t.

(** The path reached from [p] by following links, at most [fuel] of them
    (the system gives up after 40). *)
Fixpoint resolve (fuel : nat) (l : linkfs) (p : string) : option string :=
  match links l !! p with
  | None => Some p
  | Some t =>
      match fuel with
      | O => None
      | S fuel' => resolve fuel' l (link_target p t)
      end
  end.

(** [os.path.exists(p)]: follows links, false for a link whose target is
    missing. *)
Definition lfs_exists (l : linkfs) (p : string) : bool :=
  match resolve 40 l p with
  | Some q => os_path_exists (nodes l) q
  | None => false
  end.

(** [os.path.lexists(p)]: an entry of any kind. *)
Definition lfs_lexists (l : linkfs) (p : string) : bool :=
  os_path_exists (nodes l) p || bool_decide (is_Some (links l !! p)).

(** [os.makedirs(name)] *)
Definition lfs_makedirs (name : string) : Py linkfs unit :=
  l ← py_get;
  if bool_decide (is_Some (links l !! name)) then py_raise (FileExistsError name)
  else on_nodes (os_makedirs name).

(** [open(p, 'wb').write(bs)]: a link is written through. *)
Definition lfs_write (p : string) (bs : list byte) : Py linkfs unit :=
  l ← py_get;
  match resolve 40 l p with
  | Some q => on_nodes (write_file q bs)
  | None => py_raise (OSError "Too many levels of symbolic links")
  end.

(** [os.unlink(p)]: removes a link or a regular file. *)
Definition lfs_unlink (p : string) : Py linkfs unit :=
  l ← py_get;
  match links l !! p, nodes l !! p with
  | Some _, _ => py_modify (λ l, LinkFs (nodes l) (delete p (links l)))
  | None, Some (File _) => py_modify (λ l, LinkFs (delete p (nodes l)) (links l))
  | None, Some Dir => py_raise (IsADirectoryError p)
  | None, None => py_raise (FileNotFoundError p)
  end.

(** [os.symlink(src, dst)]: [src] need not exist. *)
Definition lfs_symlink (src dst : string) : Py linkfs unit :=
  l ← py_get;
  if lfs_lexists l dst then py_raise (FileExistsError dst)
  else
    py_lift (parent_check (nodes l) dst);;
    py_modify (λ l, LinkFs (nodes l) (<[dst := src]> (links l))).

(** [os.path.basename(p)] *)
Definition os_path_basename (p : string) : string := (rsplit_sep p).2.

(** The file name [save_ckpt] builds, the path it saves to and the path
    of the link to the best checkpoint. *)
Definition ckpt_name (ckpt : string) (epoch : Z) : string :=
  os_path_basename ckpt +:+ "_epoch_" +:+ pretty epoch +:+ ".pth.tar".

Definition ckpt_file (ckpt : string) (epoch : Z) : string :=
  os_path_join (os_path_dirname ckpt) (ckpt_name ckpt epoch).

Definition best_link (ckpt : string) : string :=
  os_path_join (os_path_dirname ckpt) "model_best.pth.tar".

Section SaveCkpt.
Context {Tensor PyObj : Type}.
Variable torch_dumps : gmap string (value Tensor PyObj) → list byte.

(** [save_ckpt(state, ckpt, epoch, is_best)], for an integer [epoch]. *)
Definition save_ckpt (state : gmap string (value Tensor PyObj)) (ckpt : string)
    (epoch : Z) (is_best : bool) : Py linkfs unit :=
  let folder := os_path_dirname ckpt in
  let fn := os_path_basename ckpt +:+ "_epoch_" +:+ pretty epoch +:+ ".pth.tar" in
  l ← py_get;
  (if negb (bool_decide (folder = EmptyString)) && negb (lfs_exists l folder)
   then lfs_makedirs folder
   else mret tt);;
  let path := os_path_join folder fn in
  lfs_write path (torch_dumps state);;
  if is_best then
    let best_fn := os_path_join folder "model_best.pth.tar" in
    l ← py_get;
    (if lfs_exists l best_fn then lfs_unlink best_fn else mret tt);;
    lfs_symlink fn best_fn
  else mret tt.

End SaveCkpt.

(** Whether a decimal digit occurs in a string. *)
Fixpoint contains_digit (s : string) : bool :=
  match s with
  | EmptyString => false
  | String c s' =>
      bool_decide (c ∈ ["0"; "1"; "2"; "3"; "4"; "5"; "6"; "7"; "8"; "9"]%char)
      || contains_digit s'
  end.

(** ** Names and targets used by the properties *)

(** Whether ['/'] occurs in a string. *)
Fixpoint contains_sep (s : string) : bool :=
  match s with
  | EmptyString => false
  | String c s' => bool_decide (c = sep) || contains_sep s'
  end.

(** The file [save_imgs] writes image number [i] to. *)
Definition img_path (ofolder : string) (i : nat) : string :=
  os_path_join ofolder (pretty i +:+ ".jpg").

(** The file system with the encodings of [imgs] stored as image number
    [k], [k + 1], ... of [ofolder]. *)
Fixpoint with_images {Image} (enc : Image → list byte) (ofolder : string) (k : nat)
    (imgs : list Image) (fs : filesystem) : filesystem :=
  match imgs with
  | [] => fs
  | img :: rest =>
      with_images enc ofolder (S k) rest (<[img_path ofolder k := File (enc img)]> fs)
  end.

(** A sample disk with links: the folder [ckpt], an earlier checkpoint
    and the link to it. *)
Definition sample_linkfs : linkfs :=
  LinkFs (<["ckpt/res50_epoch_1.pth.tar" := File [x00]]> (<["ckpt" := Dir]> ∅))
         (<["ckpt/model_best.pth.tar" := "res50_epoch_1.pth.tar"]> ∅).


(** * Properties *)

(** ** Generic facts about the monad *)

Lemma py_bind_return {S A B} (c : Py S A) (k : A → Py S B) s a s' :
  c s = (Return a, s') → (x ← c; k x) s = k a s'.
Proof. intros H. unfold mbind, Py_bind, py_bind. by rewrite H. Qed.

Lemma py_bind_raise {S A B} (c : Py S A) (k : A → Py S B) s e s' :
  c s = (Raise e, s') → (x ← c; k x) s = (Raise e, s').
Proof. intros H. unfold mbind, Py_bind, py_bind. by rewrite H. Qed.

(** ** AverageMeter: the sliding window *)

Section MeterFacts.
Context {V : Type} (zero : V) (np_mean : list V → V).
Import AverageMeter.

#[local] Abbreviation update := (AverageMeter.update np_mean).
#[local] Abbreviation updates := (AverageMeter.updates np_mean).

Lemma pushed_last (L : Z) (h : list V) (v : V) : 1 ≤ L → last (pushed L h v) = Some v.
Proof.
  intros HL. unfold pushed.
  destruct (Z.gtb_spec (Z.of_nat (List.length (h ++ [v]))) L) as [Hgt|Hle].
  - destruct h as [|x h]; [simpl in Hgt; lia|].
    change (drop 1 ((x :: h) ++ [v])) with (h ++ [v]). by rewrite last_snoc.
  - by rewrite last_snoc.
Qed.

Lemma pushed_length (L : Z) (h : list V) (v : V) :
  Z.of_nat (List.length h) ≤ L → Z.of_nat (List.length (pushed L h v)) ≤ L.
Proof.
  intros Hh. unfold pushed.
  destruct (Z.gtb_spec (Z.of_nat (List.length (h ++ [v]))) L) as [Hgt|Hle]; [|lia].
  rewrite length_drop, length_app. simpl. lia.
Qed.

Lemma pushed_drop (L : Z) (h : list V) (v : V) :
  1 ≤ L → Z.of_nat (List.length h) ≤ L →
  pushed L h v = drop (List.length (h ++ [v]) - Z.to_nat L) (h ++ [v]).
Proof.
  intros HL Hh. unfold pushed.
  destruct (Z.gtb_spec (Z.of_nat (List.length (h ++ [v]))) L) as [Hgt|Hle].
  - f_equal. rewrite length_app in *. simpl in *. lia.
  - replace (_ - _)%nat with 0%nat by lia. done.
Qed.

Lemma update_step (m : t V) (v : V) :
  1 ≤ length m →
  update v m =
    (Return tt,
     Build (length m) (pushed (length m) (history m) v) v
           (np_mean (pushed (length m) (history m) v))).
Proof.
  intros HL. destruct m as [L h x a]. simpl in *.
  pose proof (pushed_last L h v HL) as Hlast.
  unfold AverageMeter.update, pushed in *.
  unfold mbind, Py_bind, py_bind, py_modify, py_get, py_lift, mret, Py_ret, py_ret,
    set_history, set_val, set_avg, last_item. simpl.
  destruct (Z.of_nat (List.length (h ++ [v])) >? L); simpl;
    rewrite Hlast; reflexivity.
Qed.

Lemma update_history_bound (m : t V) (v : V) :
  Z.of_nat (List.length (history m)) ≤ length m →
  Z.of_nat (List.length (history (update v m).2)) ≤ length (update v m).2.
Proof.
  intros Hh. destruct m as [L h x a]. simpl in *.
  pose proof (pushed_length L h v Hh) as Hp.
  unfold AverageMeter.update, pushed in *.
  unfold mbind, Py_bind, py_bind, py_modify, py_get, py_lift, mret, Py_ret, py_ret,
    set_history, set_val, set_avg, last_item. simpl.
  destruct (Z.of_nat (List.length (h ++ [v])) >? L); simpl;
    match goal with |- context [last ?l] => destruct (last l) end; simpl; exact Hp.
Qed.

Lemma updates_run (vs : list V) : ∀ m : t V,
  1 ≤ length m → Z.of_nat (List.length (history m)) ≤ length m →
  ∃ m', updates vs m = (Return tt, m')
      ∧ length m' = length m
      ∧ history m' =
          drop (List.length (history m ++ vs) - Z.to_nat (length m)) (history m ++ vs)
      ∧ (vs ≠ [] → last vs = Some (val m') ∧ avg m' = np_mean (history m')).
Proof.
  induction vs as [|v vs IH]; intros m HL Hh.
  - exists m. split; [done|]. split; [done|]. split; [|done].
    rewrite app_nil_r. replace (_ - _)%nat with 0%nat by lia. done.
  - pose proof (update_step m v HL) as Hst.
    set (m1 := Build (length m) (pushed (length m) (history m) v) v
                 (np_mean (pushed (length m) (history m) v))) in *.
    destruct (IH m1) as (m' & Hrun & HLm' & Hhist & Hlast).
    { done. } { simpl. by apply pushed_length. }
    exists m'. split.
    { unfold AverageMeter.updates. simpl.
      erewrite py_bind_return by exact Hst. exact Hrun. }
    split; [done|]. split.
    + rewrite Hhist. simpl. rewrite pushed_drop by done.
      set (d := (List.length (history m ++ [v]) - Z.to_nat (length m))%nat).
      assert (Hd : (d ≤ List.length (history m ++ [v]))%nat) by (unfold d; lia).
      rewrite <- (drop_app_le _ vs) by exact Hd.
      rewrite drop_drop, <- (assoc_L (++)). simpl. f_equal.
      subst d. rewrite length_drop, !length_app. simpl.
      rewrite length_app in Hd. simpl in Hd. lia.
    + intros _. destruct vs as [|w vs].
      * unfold AverageMeter.updates in Hrun. simpl in Hrun.
        injection Hrun as <-. simpl. done.
      * destruct Hlast as [Hl Ha]; [done|]. split; [|done].
        rewrite <- Hl. done.
Qed.

(** C8. With [length >= 1], after [length + k] updates the history holds
    exactly [length] entries, namely the last [length] values pushed;
    [val] is the last value pushed and [avg] is [np.mean] of the last
    [length] values.  Moreover every update, from any state, keeps the
    history within [length] entries. *)
Theorem AverageMeter_sliding_window (len : Z) (k : nat) (vs : list V) :
  1 ≤ len →
  List.length vs = (Z.to_nat len + k)%nat →
  (∃ m : t V,
      updates vs (init zero len) = (Return tt, m)
      ∧ List.length (history m) = Z.to_nat len
      ∧ history m = drop k vs
      ∧ last vs = Some (val m)
      ∧ avg m = np_mean (drop k vs))
  ∧ (∀ (m : t V) (v : V),
      Z.of_nat (List.length (history m)) ≤ length m →
      Z.of_nat (List.length (history (update v m).2)) ≤ length (update v m).2).
Proof.
  intros Hlen Hvs. split; [|apply update_history_bound].
  destruct (updates_run vs (init zero len)) as (m & Hrun & HL & Hh & Hlast).
  { done. } { simpl. lia. }
  simpl in Hh. replace (List.length vs - Z.to_nat len)%nat with k in Hh by lia.
  assert (vs ≠ []) as Hne by (intros ->; simpl in Hvs; lia).
  destruct (Hlast Hne) as [Hv Ha].
  exists m. repeat split; try done.
  - rewrite Hh, length_drop. lia.
  - by rewrite Ha, Hh.
Qed.

End MeterFacts.

Lemma AverageMeter_sliding_window_witness :
  (∃ m : AverageMeter.t Q,
      AverageMeter.updates AverageMeter.Qmean [1; 2; 3]%Q (AverageMeter.init 0%Q 2)
        = (Return tt, m)
      ∧ List.length (AverageMeter.history m) = Z.to_nat 2
      ∧ AverageMeter.history m = drop 1 [1; 2; 3]%Q
      ∧ last [1; 2; 3]%Q = Some (AverageMeter.val m)
      ∧ AverageMeter.avg m = AverageMeter.Qmean (drop 1 [1; 2; 3]%Q))
  ∧ (∀ (m : AverageMeter.t Q) (v : Q),
      Z.of_nat (List.length (AverageMeter.history m)) ≤ AverageMeter.length m →
      Z.of_nat (List.length
                  (AverageMeter.history (AverageMeter.update AverageMeter.Qmean v m).2))
        ≤ AverageMeter.length (AverageMeter.update AverageMeter.Qmean v m).2).
Proof.
  apply (AverageMeter_sliding_window 0%Q AverageMeter.Qmean 2 1 [1; 2; 3]%Q);
    [lia | reflexivity].
Defined.

(** The meter on a concrete run: a window of two over 1, 2, 3 keeps 2 and 3
    and averages them to 5/2. *)
Example AverageMeter_run_123 :
  AverageMeter.updates AverageMeter.Qmean [1; 2; 3]%Q (AverageMeter.init 0%Q 2)
  = (Return tt, AverageMeter.Build 2 [2; 3]%Q 3%Q (AverageMeter.Qmean [2; 3]%Q))
  ∧ Qeq (AverageMeter.Qmean [2; 3]%Q) (5 # 2).
Proof. split; reflexivity. Qed.

(** With a bound of zero the value just appended is deleted again and
    [history[-1]] raises. *)
Example AverageMeter_zero_length :
  AverageMeter.update AverageMeter.Qmean 1%Q (AverageMeter.init 0%Q 0)
  = (Raise (IndexError "list index out of range"), AverageMeter.init 0%Q 0).
Proof. reflexivity. Qed.


(** ** Feature files: writing and reading back *)

Lemma Z_of_byte_of_Z (x : Z) : Z_of_byte (byte_of_Z x) = x mod 256.
Proof.
  unfold Z_of_byte, byte_of_Z.
  assert (0 ≤ x mod 256 < 256) as Hm by (apply Z.mod_pos_bound; lia).
  destruct (Byte.of_N (Z.to_N (x mod 256))) as [b|] eqn:Hb.
  - apply Byte.to_of_N in Hb. simpl. rewrite Hb. lia.
  - apply Byte.of_N_None_iff in Hb. lia.
Qed.

Lemma le_bytes_length (w : nat) : ∀ x, List.length (le_bytes w x) = w.
Proof. induction w as [|w IH]; intros x; simpl; [done|]. by rewrite IH. Qed.

Lemma le_value_le_bytes (w : nat) : ∀ x,
  0 ≤ x < 2 ^ (8 * Z.of_nat w) → le_value (le_bytes w x) = x.
Proof.
  induction w as [|w IH]; intros x Hx.
  - simpl in *. lia.
  - simpl. rewrite Z_of_byte_of_Z, IH.
    + pose proof (Z.div_mod x 256). lia.
    + replace (8 * Z.of_nat (S w)) with (8 + 8 * Z.of_nat w) in Hx by lia.
      rewrite Z.pow_add_r in Hx by lia. change (2 ^ 8) with 256 in Hx.
      split; [apply Z.div_pos; lia|].
      apply Z.div_lt_upper_bound; lia.
Qed.

Lemma chunks_concat (w : nat) (l : list (list byte)) :
  Forall (λ c, List.length c = w) l →
  chunks w (List.length l) (concat l) = l.
Proof.
  induction 1 as [|c l Hc _ IH]; simpl; [done|].
  rewrite take_app_length' by done. rewrite drop_app_length' by done.
  by rewrite IH.
Qed.

Lemma concat_length_const (w : nat) (l : list (list byte)) :
  Forall (λ c, List.length c = w) l →
  List.length (concat l) = (List.length l * w)%nat.
Proof.
  induction 1 as [|c l Hc _ IH]; simpl; [done|].
  rewrite length_app, IH, Hc. lia.
Qed.

Lemma itemsize_pos (dt : dtype) : (0 < itemsize dt)%nat.
Proof. destruct dt; simpl; lia. Qed.

(** Decoding what [tofile] wrote gives the elements back. *)
Lemma decode_encode (dt : dtype) (data : list Z) :
  Forall (elem_ok dt) data →
  le_value <$> chunks (itemsize dt) (List.length data)
                 (concat (le_bytes (itemsize dt) <$> data)) = data.
Proof.
  intros Hok.
  replace (List.length data) with (List.length (le_bytes (itemsize dt) <$> data))
    by apply length_fmap.
  rewrite chunks_concat.
  - rewrite <- list_fmap_compose. rewrite <- (list_fmap_id data) at 2.
    apply Forall_fmap_ext. eapply Forall_impl; [exact Hok|].
    intros x Hx. simpl. by apply le_value_le_bytes.
  - apply Forall_fmap, Forall_true. intros x. apply le_bytes_length.
Qed.

Lemma encoded_length (dt : dtype) (data : list Z) :
  List.length (concat (le_bytes (itemsize dt) <$> data))
  = (List.length data * itemsize dt)%nat.
Proof.
  rewrite (concat_length_const (itemsize dt)), length_fmap; [done|].
  apply Forall_fmap, Forall_true. intros x. apply le_bytes_length.
Qed.

(** What a successful [write_file] leaves behind. *)
Lemma write_file_return (p : string) (bs : list byte) (fs fs' : filesystem) :
  write_file p bs fs = (Return tt, fs') → fs' = <[p := File bs]> fs.
Proof.
  unfold write_file, mbind, Py_bind, py_bind, py_get, py_lift, py_raise, py_modify.
  destruct (parent_check fs p); [|discriminate].
  destruct (os_path_isdir fs p); [discriminate|]. by intros [= <-].
Qed.

Lemma read_file_insert (p : string) (bs : list byte) (fs : filesystem) :
  read_file (<[p := File bs]> fs) p = Return bs.
Proof. unfold read_file. by rewrite lookup_insert_eq. Qed.

(** [np.fromfile] on a file of exactly the items asked for. *)
Lemma np_fromfile_written (p : string) (dt : dtype) (data : list Z) (fs : filesystem) :
  Forall (elem_ok dt) data →
  np_fromfile (<[p := File (concat (le_bytes (itemsize dt) <$> data))]> fs) p dt
    (Z.of_nat (List.length data)) = Return data.
Proof.
  intros Hok. unfold np_fromfile. rewrite read_file_insert, encoded_length.
  pose proof (itemsize_pos dt) as Hw.
  rewrite Nat.div_mul by lia.
  destruct (Z.ltb_spec (Z.of_nat (List.length data)) 0) as [?|_]; [lia|].
  rewrite Nat2Z.id, Nat.min_id. by rewrite decode_encode.
Qed.

(** C1. Round trip: a matrix of shape [(inst_num, feat_dim)] with
    [inst_num > 0] and [feat_dim > 1], written with [write_feat] and read
    from the same path with the same counts and element type, is read
    back unchanged. *)
Theorem read_feat_write_feat (fs fs' : filesystem) (path : string) (dt : dtype)
    (inst_num feat_dim : Z) (M : ndarray Z) :
  0 < inst_num → 1 < feat_dim →
  is_matrix dt inst_num feat_dim M →
  write_feat path dt M fs = (Return tt, fs') →
  read_feat path inst_num feat_dim dt fs' = (Return M, fs').
Proof.
  intros Hn Hd (data & -> & Hlen & Hok) Hw.
  apply write_file_return in Hw. simpl in Hw. subst fs'.
  unfold read_feat, py_assert, mbind, Py_bind, py_bind, py_get, py_lift, mret,
    Py_ret, py_ret.
  destruct (Z.ltb_spec 0 inst_num) as [_|?]; [|lia].
  destruct (Z.ltb_spec 0 feat_dim) as [_|?]; [|lia].
  destruct (Z.ltb_spec 1 feat_dim) as [_|?]; [|lia].
  simpl. rewrite <- Hlen, np_fromfile_written by done.
  unfold reshape2.
  destruct (Z.eqb_spec inst_num (-1)) as [?|_]; [lia|].
  destruct (Z.leb_spec 0 inst_num) as [_|?]; [|lia].
  destruct (Z.leb_spec 0 feat_dim) as [_|?]; [|lia].
  rewrite Hlen, Z.eqb_refl. reflexivity.
Qed.

Lemma read_feat_write_feat_witness :
  read_feat "feat.bin" 2 2 float32
    (write_feat "feat.bin" float32
       (Mat 2 2 [1065353216; 1073741824; 1077936128; 1082130432]) ∅).2
  = (Return (Mat 2 2 [1065353216; 1073741824; 1077936128; 1082130432]),
     (write_feat "feat.bin" float32
       (Mat 2 2 [1065353216; 1073741824; 1077936128; 1082130432]) ∅).2).
Proof.
  apply (read_feat_write_feat ∅ _ "feat.bin" float32 2 2); [lia | lia | | reflexivity].
  exists [1065353216; 1073741824; 1077936128; 1082130432].
  split; [reflexivity|]. split; [reflexivity|].
  repeat constructor; unfold elem_ok; simpl; lia.
Defined.

(** ** Feature files: a file shorter than the count asked for *)

Lemma chunks_length (w n : nat) : ∀ bs, List.length (chunks w n bs) = n.
Proof. induction n as [|n IH]; intros bs; simpl; [done|]. by rewrite IH. Qed.

Lemma chunks_concat_app (w : nat) (l : list (list byte)) (rest : list byte) :
  Forall (λ c, List.length c = w) l →
  chunks w (List.length l) (concat l ++ rest) = l.
Proof.
  induction 1 as [|c l Hc _ IH]; simpl; [done|].
  rewrite <- (assoc_L (++)).
  rewrite take_app_length' by done. rewrite drop_app_length' by done.
  by rewrite IH.
Qed.

Lemma Z_of_byte_bound (b : byte) : 0 ≤ Z_of_byte b < 256.
Proof.
  unfold Z_of_byte. pose proof (Byte.to_N_bounded b). lia.
Qed.

Lemma byte_of_Z_of_byte (b : byte) (r : Z) : byte_of_Z (Z_of_byte b + 256 * r) = b.
Proof.
  pose proof (Z_of_byte_bound b) as Hb. unfold byte_of_Z.
  replace ((Z_of_byte b + 256 * r) mod 256) with (Z_of_byte b).
  - unfold Z_of_byte. by rewrite N2Z.id, Byte.of_to_N.
  - replace (Z_of_byte b + 256 * r) with (Z_of_byte b + r * 256) by lia.
    rewrite Z.mod_add by lia. by rewrite Z.mod_small.
Qed.

(** Every group of [w] bytes is the encoding of the value it decodes
    to, and that value is an element of the width. *)
Lemma le_bytes_le_value (bs : list byte) :
  le_bytes (List.length bs) (le_value bs) = bs.
Proof.
  induction bs as [|b bs IH]; simpl; [done|].
  pose proof (Z_of_byte_bound b) as Hb.
  rewrite byte_of_Z_of_byte. f_equal.
  replace ((Z_of_byte b + 256 * le_value bs) / 256) with (le_value bs); [done|].
  replace (Z_of_byte b + 256 * le_value bs)
    with (Z_of_byte b + le_value bs * 256) by lia.
  rewrite Z.div_add by lia. rewrite Z.div_small by done. lia.
Qed.

Lemma le_value_bound (bs : list byte) :
  0 ≤ le_value bs < 2 ^ (8 * Z.of_nat (List.length bs)).
Proof.
  induction bs as [|b bs IH]; [simpl; lia|].
  pose proof (Z_of_byte_bound b) as Hb.
  change (le_value (b :: bs)) with (Z_of_byte b + 256 * le_value bs).
  replace (8 * Z.of_nat (List.length (b :: bs)))
    with (8 + 8 * Z.of_nat (List.length bs)) by (simpl; lia).
  rewrite Z.pow_add_r by lia. change (2 ^ 8) with 256. nia.
Qed.

Lemma chunks_Forall_length (w n : nat) : ∀ bs,
  (n * w ≤ List.length bs)%nat → Forall (λ c, List.length c = w) (chunks w n bs).
Proof.
  induction n as [|n IH]; intros bs Hlen; simpl; [constructor|].
  constructor.
  - rewrite length_take. simpl in Hlen. lia.
  - apply IH. rewrite length_drop. simpl in Hlen. lia.
Qed.

Lemma chunks_concat_drop (w n : nat) : ∀ bs,
  concat (chunks w n bs) ++ drop (n * w) bs = bs.
Proof.
  induction n as [|n IH]; intros bs; [done|].
  change (chunks w (S n) bs) with (take w bs :: chunks w n (drop w bs)).
  rewrite concat_cons, <- (assoc_L (++)).
  replace (drop (S n * w) bs) with (drop (n * w) (drop w bs))
    by (rewrite drop_drop; f_equal; lia).
  rewrite IH. apply take_drop.
Qed.

(** Every file is the encoding of a list of elements followed by fewer
    bytes than one element takes. *)
Lemma file_elements (dt : dtype) (bs : list byte) :
  ∃ data rest,
    bs = concat (le_bytes (itemsize dt) <$> data) ++ rest
    ∧ Forall (elem_ok dt) data
    ∧ (List.length rest < itemsize dt)%nat.
Proof.
  pose proof (itemsize_pos dt) as Hw.
  set (w := itemsize dt) in *. set (n := (List.length bs / w)%nat).
  assert (n * w ≤ List.length bs)%nat as Hn.
  { rewrite Nat.mul_comm. apply Nat.Div0.mul_div_le. }
  pose proof (chunks_Forall_length w n bs Hn) as Hc.
  exists (le_value <$> chunks w n bs), (drop (n * w) bs).
  split; [|split].
  - rewrite <- list_fmap_compose.
    replace ((le_bytes w ∘ le_value) <$> chunks w n bs) with (chunks w n bs).
    + symmetry. apply chunks_concat_drop.
    + rewrite <- (list_fmap_id (chunks w n bs)) at 1.
      apply Forall_fmap_ext. eapply Forall_impl; [exact Hc|].
      intros c Hlen. simpl. rewrite <- Hlen at 1. symmetry. apply le_bytes_le_value.
  - apply Forall_fmap. eapply Forall_impl; [exact Hc|].
    intros c Hlen. simpl. unfold elem_ok. fold w. rewrite <- Hlen.
    apply le_value_bound.
  - rewrite length_drop. subst n.
    pose proof (Nat.div_mod_eq (List.length bs) w).
    pose proof (Nat.mod_upper_bound (List.length bs) w). lia.
Qed.

(** [np.fromfile] hands back the items the file has when it has no more
    than [count]. *)
Lemma np_fromfile_short (fs : filesystem) (path : string) (dt : dtype)
    (count : Z) (data : list Z) (rest : list byte) :
  fs !! path = Some (File (concat (le_bytes (itemsize dt) <$> data) ++ rest)) →
  Forall (elem_ok dt) data →
  (List.length rest < itemsize dt)%nat →
  Z.of_nat (List.length data) ≤ count →
  np_fromfile fs path dt count = Return data.
Proof.
  intros Hf Hok Hrest Hcount. unfold np_fromfile, read_file. rewrite Hf.
  destruct (Z.ltb_spec count 0) as [?|_]; [lia|].
  pose proof (itemsize_pos dt) as Hw.
  rewrite length_app, encoded_length.
  rewrite Nat.div_add_l by lia. rewrite (Nat.div_small (List.length rest)) by done.
  rewrite Nat.add_0_r, Nat.min_r by lia.
  replace (List.length data) with (List.length (le_bytes (itemsize dt) <$> data))
    at 1 by apply length_fmap.
  rewrite chunks_concat_app.
  - rewrite <- list_fmap_compose. rewrite <- (list_fmap_id data) at 2.
    f_equal. apply Forall_fmap_ext. eapply Forall_impl; [exact Hok|].
    intros x Hx. simpl. by apply le_value_le_bytes.
  - apply Forall_fmap, Forall_true. intros x. apply le_bytes_length.
Qed.

(** C6, as the code has it.  The content of a file is the encoding of
    the elements it holds, followed by fewer bytes than one element
    takes.  When these are fewer than [inst_num * feat_dim] elements,
    [read_feat] fails for [feat_dim > 1] (the reshape rejects the shorter
    array), and for [feat_dim = 1] it returns the flat vector of exactly
    the elements the file holds, fewer than [inst_num] of them. *)
Theorem read_feat_short_file (fs : filesystem) (path : string) (dt : dtype)
    (inst_num feat_dim : Z) (bs : list byte) :
  0 < inst_num → 0 < feat_dim →
  fs !! path = Some (File bs) →
  Z.of_nat (List.length bs / itemsize dt) < inst_num * feat_dim →
  (∃ data rest,
     bs = concat (le_bytes (itemsize dt) <$> data) ++ rest
     ∧ Forall (elem_ok dt) data
     ∧ (List.length rest < itemsize dt)%nat)
  ∧ ∀ data rest,
      bs = concat (le_bytes (itemsize dt) <$> data) ++ rest →
      Forall (elem_ok dt) data →
      (List.length rest < itemsize dt)%nat →
      Z.of_nat (List.length data) = Z.of_nat (List.length bs / itemsize dt)
      ∧ (1 < feat_dim →
         read_feat path inst_num feat_dim dt fs
         = (Raise (ValueError "cannot reshape array"), fs))
      ∧ (feat_dim = 1 →
         read_feat path inst_num feat_dim dt fs = (Return (Vec data), fs)
         ∧ Z.of_nat (List.length data) < inst_num).
Proof.
  intros Hn Hd Hf Hlt. split; [apply file_elements|].
  intros data rest Hbs Hok Hrest.
  pose proof (itemsize_pos dt) as Hw.
  assert (List.length bs / itemsize dt = List.length data)%nat as Hlen.
  { rewrite Hbs, length_app, encoded_length.
    rewrite Nat.div_add_l by lia. rewrite (Nat.div_small (List.length rest)) by done.
    lia. }
  rewrite Hlen in Hlt. rewrite Hlen. split; [done|].
  assert (np_fromfile fs path dt (inst_num * feat_dim) = Return data) as Hv.
  { apply (np_fromfile_short fs path dt _ data rest); [by rewrite <- Hbs|done|done|lia]. }
  unfold read_feat, py_assert, mbind, Py_bind, py_bind, py_get, py_lift, mret,
    Py_ret, py_ret.
  destruct (Z.ltb_spec 0 inst_num) as [_|?]; [|lia].
  destruct (Z.ltb_spec 0 feat_dim) as [_|?]; [|lia].
  simpl. rewrite Hv. split.
  - intros Hd1. destruct (Z.ltb_spec 1 feat_dim) as [_|?]; [|lia].
    unfold reshape2.
    destruct (Z.eqb_spec inst_num (-1)) as [?|_]; [lia|].
    destruct (Z.eqb_spec (inst_num * feat_dim) (Z.of_nat (List.length data)))
      as [?|_]; [lia|].
    by rewrite andb_false_r.
  - intros ->. simpl. split; [done|lia].
Qed.

Lemma read_feat_short_file_witness :
  let fs : filesystem := <["feat.bin" := File [x00; x00; x80; x3f; x07]]> ∅ in
  read_feat "feat.bin" 3 2 float32 fs = (Raise (ValueError "cannot reshape array"), fs)
  ∧ read_feat "feat.bin" 2 1 float32 fs = (Return (Vec [1065353216]), fs).
Proof.
  intros fs. split.
  - refine (proj1 (proj2 (proj2 (read_feat_short_file fs "feat.bin" float32 3 2
              [x00; x00; x80; x3f; x07] _ _ _ _) [1065353216] [x07] _ _ _)) _).
    + lia.
    + lia.
    + reflexivity.
    + simpl. lia.
    + reflexivity.
    + repeat constructor; unfold elem_ok; simpl; lia.
    + simpl. lia.
    + lia.
  - refine (proj1 (proj2 (proj2 (proj2 (read_feat_short_file fs "feat.bin" float32 2 1
              [x00; x00; x80; x3f; x07] _ _ _ _) [1065353216] [x07] _ _ _)) _)).
    + lia.
    + lia.
    + reflexivity.
    + simpl. lia.
    + reflexivity.
    + repeat constructor; unfold elem_ok; simpl; lia.
    + simpl. lia.
    + reflexivity.
Defined.

(** C6, as stated, fails for [feat_dim = 1]: the file holds one float32
    (the bytes of 1.0), two are asked for, and the call returns the
    one-element vector. *)
Lemma read_feat_short_vector_returns :
  let fs : filesystem := <["feat.bin" := File [x00; x00; x80; x3f]]> ∅ in
  0 < 2 ∧ 0 < 1
  ∧ Z.of_nat (List.length [x00; x00; x80; x3f] / itemsize float32) < 2 * 1
  ∧ read_feat "feat.bin" 2 1 float32 fs = (Return (Vec [1065353216]), fs)
  ∧ ¬ raised (read_feat "feat.bin" 2 1 float32 fs).1.
Proof.
  simpl. repeat split; try lia; try reflexivity.
  intros [e He]. vm_compute in He. discriminate.
Qed.

(** ** More facts about the monad *)

Lemma py_bind_Return_inv {S A B} (c : Py S A) (k : A → Py S B) s r s' :
  (x ← c; k x) s = (Return r, s') →
  ∃ a s1, c s = (Return a, s1) ∧ k a s1 = (Return r, s').
Proof.
  unfold mbind, Py_bind, py_bind. destruct (c s) as [[a|e] s1]; [eauto|discriminate].
Qed.

Lemma py_lift_Return_inv {S A} (o : outcome A) (s s' : S) a :
  py_lift o s = (Return a, s') → o = Return a ∧ s' = s.
Proof. unfold py_lift. by intros [= -> ->]. Qed.

Lemma py_local_Return_inv {S L A} (c : Py L A) (l : L) (s s' : S) r :
  py_local c l s = (Return r, s') → c l = (Return r.1, r.2) ∧ s' = s.
Proof.
  unfold py_local. destruct (c l) as [[a|e] l']; [|discriminate].
  by intros [= <- <-].
Qed.

Lemma py_assert_Return_inv {S} (b : bool) msg (s s' : S) :
  py_assert b msg s = (Return tt, s') → b = true ∧ s' = s.
Proof. destruct b; simpl; [by intros [= ->]|discriminate]. Qed.

Lemma py_for_app {S A} (l1 l2 : list A) (body : A → Py S unit) (s : S) :
  py_for (l1 ++ l2) body s = (py_for l1 body;; py_for l2 body) s.
Proof.
  revert s. induction l1 as [|x l1 IH]; intros s; simpl; [done|].
  unfold mbind, Py_bind, py_bind in *. destruct (body x s) as [[[]|e] s1]; [|done].
  apply IH.
Qed.

Lemma first_failing {A} (P : A → Prop) `{∀ x, Decision (P x)} (l : list A) :
  (∃ x, x ∈ l ∧ ¬ P x) →
  ∃ pre x post, l = pre ++ x :: post ∧ Forall P pre ∧ ¬ P x.
Proof.
  induction l as [|y l IH]; intros (x & Hx & HP).
  - by apply elem_of_nil in Hx.
  - destruct (decide (P y)) as [Hy|Hy].
    + destruct IH as (pre & z & post & -> & Hpre & Hz).
      { exists x. split; [|done]. apply elem_of_cons in Hx as [->|]; done. }
      exists (y :: pre), z, post. split; [done|]. split; [by constructor|done].
    + exists [], y, l. split; [done|]. split; [constructor|done].
Qed.

(** A loop stops with the error of the first element whose body raises,
    when the elements before it run through. *)
Lemma py_for_first_raise {S A} (pre post : list A) (x : A) (body : A → Py S unit)
    (s s1 s2 : S) (e : exn) :
  py_for pre body s = (Return tt, s1) →
  body x s1 = (Raise e, s2) →
  py_for (pre ++ x :: post) body s = (Raise e, s2).
Proof.
  intros Hpre Hx. rewrite py_for_app. unfold mbind, Py_bind, py_bind.
  rewrite Hpre. simpl. unfold mbind, Py_bind, py_bind. by rewrite Hx.
Qed.

(** A loop in which some body raises from every state does not return. *)
Lemma py_for_some_raise {S A} (l : list A) (x : A) (body : A → Py S unit) :
  x ∈ l →
  (∀ s, ∃ e s', body x s = (Raise e, s')) →
  ∀ s, ∃ e s', py_for l body s = (Raise e, s').
Proof.
  intros Hx Hraise. induction l as [|y l IH]; intros s.
  - by apply elem_of_nil in Hx.
  - simpl. unfold mbind, Py_bind, py_bind.
    apply elem_of_cons in Hx as [<-|Hx].
    + destruct (Hraise s) as (e & s' & ->). eauto.
    + destruct (body y s) as [[[]|e] s1]; [|eauto].
      by apply IH.
Qed.

(** ** Checkpoints: the loops over [ignores] *)

Section CheckpointLoops.
Context {Tensor PyObj : Type}.

#[local] Abbreviation ckpt_t := (gmap string (value Tensor PyObj)).

Lemma lookup_without (ignores : list string) : ∀ (sd : gmap string Tensor) (k : string),
  without ignores sd !! k = if decide (k ∈ ignores) then None else sd !! k.
Proof.
  induction ignores as [|x l IH]; intros sd k.
  - case_decide as Hk; [by apply elem_of_nil in Hk|done].
  - change (without (x :: l) sd) with (without l (delete x sd)). rewrite IH.
    repeat case_decide; try done.
    + exfalso. match goal with H : k ∉ x :: l |- _ => apply H end. by right.
    + destruct (decide (k = x)) as [->|Hne]; [apply lookup_delete_eq|].
      match goal with H : k ∈ x :: l |- _ => apply elem_of_cons in H as [?|?] end; done.
    + apply lookup_delete_ne. intros ->.
      match goal with H : k ∉ k :: l |- _ => apply H end. left.
Qed.

Lemma state_dict_of_lookup (ckpt : ckpt_t) (sd : gmap string Tensor) :
  ckpt !! "state_dict" = Some (VStateDict sd) → state_dict_of ckpt = Return sd.
Proof. intros H. unfold state_dict_of, getitem, mbind, outcome_bind. by rewrite H. Qed.

Lemma del_state_dict_item_present (ckpt : ckpt_t) (sd : gmap string Tensor) (x : string) :
  ckpt !! "state_dict" = Some (VStateDict sd) →
  is_Some (sd !! x) →
  del_state_dict_item x ckpt
  = (Return tt, <["state_dict" := VStateDict (delete x sd)]> ckpt).
Proof.
  intros Hsd [t Ht]. unfold del_state_dict_item.
  unfold delitem, mbind, Py_bind, py_bind, py_get, py_lift, py_local, py_modify.
  rewrite (state_dict_of_lookup _ _ Hsd). simpl. by rewrite Ht.
Qed.

(** A loop whose body deletes the names it finds in [keys] removes a
    duplicate-free list of present names. *)
Lemma ignore_loop_present (keys : gset string) (body : string → Py ckpt_t unit) :
  (∀ x, x ∈ keys → body x = del_state_dict_item x) →
  ∀ (ignores : list string) (ckpt : ckpt_t) (sd : gmap string Tensor),
  ckpt !! "state_dict" = Some (VStateDict sd) →
  NoDup ignores →
  (∀ x, x ∈ ignores → x ∈ keys ∧ is_Some (sd !! x)) →
  py_for ignores body ckpt
  = (Return tt, <["state_dict" := VStateDict (without ignores sd)]> ckpt).
Proof.
  intros Hbody. induction ignores as [|x l IH]; intros ckpt sd Hsd Hnd Hin.
  - simpl. unfold py_ret. f_equal. symmetry. by apply insert_id.
  - apply NoDup_cons in Hnd as [Hx Hnd].
    destruct (Hin x) as [Hk Hs]; [left|].
    simpl. unfold mbind, Py_bind, py_bind.
    rewrite Hbody by done. rewrite (del_state_dict_item_present _ _ _ Hsd Hs).
    rewrite (IH _ (delete x sd)); [| apply lookup_insert_eq | done |].
    + by rewrite insert_insert_eq.
    + intros y Hy. destruct (Hin y) as [Hyk Hys]; [by right|]. split; [done|].
      rewrite lookup_delete_ne; [done|]. intros ->. done.
Qed.

Lemma ignore_or_report_missing (keys : gset string) (x : string) :
  x ∉ keys → ∀ s : ckpt_t, ∃ e s', ignore_or_report keys x s = (Raise e, s').
Proof.
  intros Hx s. unfold ignore_or_report. rewrite bool_decide_eq_false_2 by done.
  unfold mbind, Py_bind, py_bind, py_raise.
  destruct (py_for (elements keys) print_shape s) as [[[]|e] s1]; eauto.
Qed.

(** The first loop of [simplify_ckpt] leaves the [state_dict] entry
    alone and nothing else. *)
Lemma keep_loop (l : list string) : ∀ ckpt : ckpt_t,
  NoDup l → (∀ k, k ∈ l → is_Some (ckpt !! k)) →
  ∃ ckpt', py_for l keep_state_dict ckpt = (Return tt, ckpt')
         ∧ ∀ k, ckpt' !! k
                = if decide (k ∈ l ∧ k ≠ "state_dict") then None else ckpt !! k.
Proof.
  induction l as [|x l IH]; intros ckpt Hnd Hin.
  - exists ckpt. split; [done|]. intros k. case_decide as Hk; [|done].
    destruct Hk as [Hk _]. by apply elem_of_nil in Hk.
  - apply NoDup_cons in Hnd as [Hx Hnd].
    simpl. unfold mbind, Py_bind, py_bind, keep_state_dict.
    case_bool_decide as Hsd.
    + destruct (IH ckpt Hnd) as (ckpt' & Hrun & Hl).
      { intros k Hk. apply Hin. by right. }
      exists ckpt'. split; [done|]. intros k. rewrite Hl.
      repeat case_decide; try done; exfalso;
        rewrite ?elem_of_cons in *; intuition congruence.
    + destruct (Hin x) as [v Hv]; [left|].
      unfold delitem, mbind, Py_bind, py_bind, py_get, py_modify. rewrite Hv.
      destruct (IH (delete x ckpt) Hnd) as (ckpt' & Hrun & Hl).
      { intros k Hk. rewrite lookup_delete_ne; [apply Hin; by right|].
        intros ->. done. }
      exists ckpt'. split; [done|]. intros k. rewrite Hl.
      destruct (decide (k = x)) as [->|Hne].
      * rewrite lookup_delete_eq. repeat case_decide; try done; exfalso;
        rewrite ?elem_of_cons in *; intuition congruence.
      * rewrite lookup_delete_ne by done.
        repeat case_decide; try done; exfalso;
        rewrite ?elem_of_cons in *; intuition congruence.
Qed.

Lemma keep_loop_all (ckpt : ckpt_t) (v : value Tensor PyObj) :
  ckpt !! "state_dict" = Some v →
  py_for (map_to_list ckpt).*1 keep_state_dict ckpt
  = (Return tt, {["state_dict" := v]}).
Proof.
  intros Hv.
  destruct (keep_loop (map_to_list ckpt).*1 ckpt) as (ckpt' & Hrun & Hl).
  { apply NoDup_fst_map_to_list. }
  { intros k Hk. apply list_elem_of_fmap in Hk as [[k' v'] [-> Hk]].
    apply elem_of_map_to_list in Hk. eauto. }
  rewrite Hrun. f_equal. apply map_eq. intros k. rewrite Hl.
  destruct (decide (k = "state_dict")) as [->|Hne].
  - rewrite lookup_singleton_eq. case_decide as Hk; [|done]. by destruct Hk.
  - rewrite lookup_singleton_ne by done.
    case_decide as Hk; [done|].
    destruct (ckpt !! k) as [v'|] eqn:Hkv; [|done].
    exfalso. apply Hk. split; [|done].
    apply list_elem_of_fmap. exists (k, v'). split; [done|].
    by apply elem_of_map_to_list.
Qed.

End CheckpointLoops.

(** ** Checkpoints: [load_ckpt] and [simplify_ckpt] *)

Section TorchFacts.
Context {Tensor PyObj Model Optim : Type}.
Context (torch_loads : list byte → outcome (gmap string (value Tensor PyObj))).
Context (torch_dumps : gmap string (value Tensor PyObj) → list byte).
Context (model_load_state_dict : gmap string Tensor → bool → Py Model unit).
Context (optimizer_load_state_dict : value Tensor PyObj → Py Optim unit).

#[local] Abbreviation load_state := model_load_state_dict.
#[local] Abbreviation load_optim := optimizer_load_state_dict.
#[local] Abbreviation ckpt_t := (gmap string (value Tensor PyObj)).

(** C2. A call of [load_ckpt] with a non-empty [ignores] and an optimizer
    fails, whatever the path holds, and leaves model and optimizer as
    they were. *)
Theorem load_ckpt_ignores_excludes_optimizer (fs : filesystem) (path : string)
    (ignores : list string) (strict : bool) (m : Model) (o : Optim) :
  ignores ≠ [] →
  ∃ e, load_ckpt torch_loads load_state load_optim fs path ignores strict
         (Objects m (Some o))
       = (Raise e, Objects m (Some o)).
Proof.
  intros Hne. unfold load_ckpt.
  destruct (os_path_isfile fs path); [|eexists; reflexivity].
  unfold mbind at 1. unfold Py_bind, py_bind, py_lift.
  destruct (torch_load torch_loads fs path) as [ckpt|e]; [|eexists; reflexivity].
  destruct ignores as [|x ignores]; [done|].
  eexists. reflexivity.
Qed.

(** C5, as the code has it.  When [path] is not an existing file,
    [load_ckpt] fails on [assert False], with the message that no
    checkpoint was found at [path]; nothing is loaded. *)
Theorem load_ckpt_no_file (fs : filesystem) (path : string)
    (ignores : list string) (strict : bool) (objs : objects Model Optim) :
  os_path_isfile fs path = false →
  load_ckpt torch_loads load_state load_optim fs path ignores strict objs
  = (Raise (AssertionError ("=> no checkpoint found at '" +:+ path +:+ "'")), objs).
Proof. intros Hf. unfold load_ckpt. by rewrite Hf. Qed.

(** The loop over [ignores] and [load_state_dict] leave the optimizer
    argument as it is. *)
Lemma on_model_optimizer {A} (c : Py Model A) (s s' : objects Model Optim) r :
  on_model c s = (r, s') → optimizer s' = optimizer s.
Proof.
  unfold on_model. destruct (c (model s)) as [r' m']. by intros [= _ <-].
Qed.

(** C4. A call of [load_ckpt] that returns, returns the pair
    [(checkpoint['epoch'], checkpoint['best_prec1'])] exactly when an
    optimizer was passed, and [None] when none was. *)
Theorem load_ckpt_returns_metadata_iff_optimizer (fs : filesystem) (path : string)
    (ignores : list string) (strict : bool) (objs objs' : objects Model Optim)
    (r : option (value Tensor PyObj * value Tensor PyObj)) :
  load_ckpt torch_loads load_state load_optim fs path ignores strict objs
  = (Return r, objs') →
  (is_Some r ↔ optimizer objs ≠ None)
  ∧ (optimizer objs = None → r = None)
  ∧ (optimizer objs ≠ None →
     ∃ ckpt epoch best_prec1,
       torch_load torch_loads fs path = Return ckpt
       ∧ ckpt !! "epoch" = Some epoch
       ∧ ckpt !! "best_prec1" = Some best_prec1
       ∧ r = Some (epoch, best_prec1)).
Proof.
  unfold load_ckpt. destruct (os_path_isfile fs path); [|discriminate].
  intros H.
  apply py_bind_Return_inv in H as (ckpt & s0 & Hload & H).
  apply py_lift_Return_inv in Hload as [Hload ->].
  apply py_bind_Return_inv in H as (self & s0 & Hget & H).
  injection Hget as <- <-.
  apply py_bind_Return_inv in H as (ckpt2 & s1 & Hign & H).
  apply py_bind_Return_inv in H as (sd & s2 & Hsd & H).
  apply py_lift_Return_inv in Hsd as [Hsd ->].
  apply py_bind_Return_inv in H as ([] & s3 & Hmodel & H).
  apply py_bind_Return_inv in H as (self & s4 & Hget & H).
  injection Hget as <- <-.
  apply on_model_optimizer in Hmodel.
  assert (optimizer s1 = optimizer objs ∧ (optimizer objs ≠ None → ckpt2 = ckpt))
    as [Hs1 Hck].
  { destruct (0 <? List.length ignores)%nat.
    - apply py_bind_Return_inv in Hign as ([] & s5 & Has & Hign).
      apply py_assert_Return_inv in Has as [Has ->].
      apply bool_decide_eq_true in Has.
      apply py_bind_Return_inv in Hign as (keys & s5 & Hk & Hign).
      apply py_lift_Return_inv in Hk as [Hk ->].
      apply py_bind_Return_inv in Hign as ([[] ck] & s5 & Hloc & Hign).
      apply py_local_Return_inv in Hloc as [_ ->].
      injection Hign as _ <-. split; [done|]. by intros ?.
    - injection Hign as <- <-. done. }
  rewrite Hmodel, Hs1 in H.
  destruct (optimizer objs) as [opt|] eqn:Hopt; simpl in H.
  - apply py_bind_Return_inv in H as ([] & s5 & Has & H).
    apply py_bind_Return_inv in H as (st & s6 & Hst & H).
    apply py_bind_Return_inv in H as ([] & s7 & Hol & H).
    apply py_bind_Return_inv in H as (epoch & s8 & He & H).
    apply py_lift_Return_inv in He as [He ->].
    apply py_bind_Return_inv in H as (best & s8 & Hb & H).
    apply py_lift_Return_inv in Hb as [Hb ->].
    injection H as <- <-.
    rewrite Hck in He, Hb by done.
    unfold getitem in He, Hb.
    destruct (ckpt !! "epoch") as [e|] eqn:Hel; [|discriminate].
    destruct (ckpt !! "best_prec1") as [b|] eqn:Hbl; [|discriminate].
    injection He as <-. injection Hb as <-.
    split; [split; [done|eauto]|]. split; [done|].
    intros _. exists ckpt, e, b. done.
  - injection H as <- <-. split; [split; [by intros [? ?]|done]|]. split; done.
Qed.

(** *** [load_ckpt] and [simplify_ckpt] on a checkpoint file *)

Section OnFile.
Context (fs : filesystem) (path : string) (bs : list byte) (ckpt : ckpt_t)
  (sd : gmap string Tensor).
Hypothesis Hfile : fs !! path = Some (File bs).
Hypothesis Hloads : torch_loads bs = Return ckpt.
Hypothesis Hsd : ckpt !! "state_dict" = Some (VStateDict sd).

Lemma isfile_path : os_path_isfile fs path = true.
Proof. unfold os_path_isfile. by rewrite Hfile. Qed.

Lemma torch_load_path : torch_load torch_loads fs path = Return ckpt.
Proof. unfold torch_load, read_file. rewrite Hfile. exact Hloads. Qed.

Lemma torch_load_step {S} (s : S) :
  py_lift (torch_load torch_loads fs path) s = (Return ckpt, s).
Proof. unfold py_lift. by rewrite torch_load_path. Qed.

Lemma state_dict_step {S} (c : ckpt_t) (sd' : gmap string Tensor) (s : S) :
  c !! "state_dict" = Some (VStateDict sd') →
  py_lift (state_dict_of c) s = (Return sd', s).
Proof. intros H. unfold py_lift. by rewrite (state_dict_of_lookup _ _ H). Qed.

Lemma keys_step {S} (c : ckpt_t) (sd' : gmap string Tensor) (s : S) :
  c !! "state_dict" = Some (VStateDict sd') →
  py_lift (dom <$> state_dict_of c) s = (Return (dom sd'), s).
Proof. intros H. unfold py_lift. by rewrite (state_dict_of_lookup _ _ H). Qed.

(** Without an optimizer, what follows [load_state_dict] returns [None]. *)
Lemma load_ckpt_tail (c : ckpt_t) (sd' : gmap string Tensor) (ignores : list string)
    (strict : bool) (m : Model) :
  (on_model (model_load_state_dict sd' strict);;
   self ← py_get;
   if negb (bool_decide (optimizer self = None)) then
     py_assert (List.length ignores =? 0)%nat "";;
     state ← py_lift (getitem c "optimizer");
     on_optimizer (optimizer_load_state_dict state);;
     epoch ← py_lift (getitem c "epoch");
     best_prec1 ← py_lift (getitem c "best_prec1");
     mret (Some (epoch, best_prec1))
   else mret None) (Objects m None)
  = (on_model (model_load_state_dict sd' strict);; mret None) (Objects m None).
Proof.
  unfold mbind, Py_bind, py_bind, on_model, py_get. simpl.
  destruct (model_load_state_dict sd' strict m) as [[[]|e] m']; reflexivity.
Qed.

Lemma load_ckpt_present (ignores : list string) (strict : bool) (m : Model) :
  NoDup ignores →
  (∀ x, x ∈ ignores → is_Some (sd !! x)) →
  load_ckpt torch_loads load_state load_optim fs path ignores strict (Objects m None)
  = (on_model (model_load_state_dict (without ignores sd) strict);; mret None)
      (Objects m None).
Proof.
  intros Hnd Hin. unfold load_ckpt. rewrite isfile_path.
  erewrite py_bind_return by apply torch_load_step.
  erewrite py_bind_return by reflexivity.
  destruct ignores as [|x l].
  - erewrite py_bind_return by reflexivity.
    erewrite py_bind_return by (by apply state_dict_step).
    apply load_ckpt_tail.
  - change (0 <? List.length (x :: l))%nat with true. cbv iota.
    erewrite py_bind_return; cycle 1.
    { erewrite py_bind_return by reflexivity.
      erewrite py_bind_return by (by apply keys_step).
      erewrite py_bind_return; cycle 1.
      { unfold py_local.
        rewrite (ignore_loop_present (dom sd) (ignore_or_raise (dom sd)))
          with (sd := sd); [reflexivity| |done|done|].
        - intros y Hy. unfold ignore_or_raise. by rewrite bool_decide_eq_true_2.
        - intros y Hy. split; [|by apply Hin]. by apply elem_of_dom, Hin. }
      reflexivity. }
    erewrite py_bind_return by (apply state_dict_step, lookup_insert_eq).
    apply load_ckpt_tail.
Qed.

Lemma load_ckpt_missing (pre post : list string) (x : string) (strict : bool)
    (m : Model) :
  NoDup pre →
  (∀ y, y ∈ pre → is_Some (sd !! y)) →
  sd !! x = None →
  load_ckpt torch_loads load_state load_optim fs path (pre ++ x :: post) strict
    (Objects m None)
  = (Raise (ValueError ("cannot find " +:+ x +:+ " in load_path")), Objects m None).
Proof.
  intros Hndpre Hpre Hx.
  unfold load_ckpt. rewrite isfile_path.
  erewrite py_bind_return by apply torch_load_step.
  erewrite py_bind_return by reflexivity.
  replace (0 <? List.length (pre ++ x :: post))%nat with true
    by (symmetry; apply Nat.ltb_lt; rewrite length_app; simpl; lia).
  cbv iota.
  erewrite py_bind_raise; [reflexivity|].
  erewrite py_bind_return by reflexivity.
  erewrite py_bind_return by (by apply keys_step).
  erewrite py_bind_raise; [reflexivity|].
  unfold py_local.
  erewrite (py_for_first_raise pre post x); [reflexivity| |].
  - apply (ignore_loop_present (dom sd)) with (sd := sd); try done.
    + intros y Hy. unfold ignore_or_raise. by rewrite bool_decide_eq_true_2.
    + intros y Hy. split; [|by apply Hpre]. by apply elem_of_dom, Hpre.
  - unfold ignore_or_raise. rewrite bool_decide_eq_false_2; [reflexivity|].
    by apply not_elem_of_dom.
Qed.

(** The checkpoint that reaches the loop over [ignores] in
    [simplify_ckpt] has the single key [state_dict]. *)
Lemma simplify_ckpt_unfold (opath : string) (ignores : list string) :
  simplify_ckpt torch_loads torch_dumps path opath ignores fs
  = ('(_, checkpoint) ← py_local
        (py_for ignores (ignore_or_report (dom sd)))
        ({["state_dict" := VStateDict sd]} : ckpt_t);
     torch_save torch_dumps checkpoint (output_path path opath)) fs.
Proof.
  unfold simplify_ckpt.
  erewrite py_bind_return by reflexivity. rewrite isfile_path.
  erewrite py_bind_return by apply torch_load_step.
  match goal with
  | |- context [py_local ?c ckpt] =>
      assert (c ckpt = py_for ignores (ignore_or_report (dom sd))
                         ({["state_dict" := VStateDict sd]} : ckpt_t)) as Hinner
  end.
  { erewrite py_bind_return by apply (keep_loop_all _ _ Hsd).
    change (0 <=? List.length ignores)%nat with true. cbv iota.
    erewrite py_bind_return by reflexivity.
    erewrite py_bind_return by apply keys_step, lookup_singleton_eq.
    reflexivity. }
  unfold mbind, Py_bind, py_bind, py_local in *. by rewrite Hinner.
Qed.

Lemma simplify_ckpt_present (opath : string) (ignores : list string) :
  NoDup ignores →
  (∀ x, x ∈ ignores → is_Some (sd !! x)) →
  simplify_ckpt torch_loads torch_dumps path opath ignores fs
  = torch_save torch_dumps {["state_dict" := VStateDict (without ignores sd)]}
      (output_path path opath) fs.
Proof.
  intros Hnd Hin. rewrite simplify_ckpt_unfold.
  erewrite py_bind_return; cycle 1.
  { unfold py_local.
    rewrite (ignore_loop_present (dom sd) (ignore_or_report (dom sd)))
      with (sd := sd); [reflexivity| | |done|].
    - intros y Hy. unfold ignore_or_report. by rewrite bool_decide_eq_true_2.
    - apply lookup_singleton_eq.
    - intros y Hy. split; [|by apply Hin]. by apply elem_of_dom, Hin. }
  simpl. by rewrite insert_singleton_eq.
Qed.

Lemma simplify_ckpt_missing (opath : string) (ignores : list string) :
  (∃ x, x ∈ ignores ∧ sd !! x = None) →
  ∃ e, simplify_ckpt torch_loads torch_dumps path opath ignores fs = (Raise e, fs).
Proof.
  intros (x & Hx & Hn). rewrite simplify_ckpt_unfold.
  destruct (py_for_some_raise ignores x (ignore_or_report (dom sd)) Hx
              (ignore_or_report_missing (dom sd) x ltac:(by apply not_elem_of_dom))
              ({["state_dict" := VStateDict sd]} : ckpt_t)) as (e & s' & Hr).
  exists e. erewrite py_bind_raise; [reflexivity|].
  unfold py_local. by rewrite Hr.
Qed.

End OnFile.

(** C3, as the code has it.  For a checkpoint file with state dictionary
    [sd] and a duplicate-free [ignores]: when some name of [ignores] is
    not a key of [sd], the list splits at its first such name [x], every
    name before [x] being a key; [load_ckpt] called without an optimizer
    then fails with the [ValueError] that names [x], the first missing
    name, and [simplify_ckpt] fails without writing.  When every name is
    a key, [load_ckpt] hands [sd] without the ignored names to
    [load_state_dict], and [simplify_ckpt] saves it. *)
Theorem ignores_missing_or_removed (fs : filesystem) (path opath : string)
    (bs : list byte) (ckpt : ckpt_t) (sd : gmap string Tensor)
    (ignores : list string) (strict : bool) (m : Model) :
  fs !! path = Some (File bs) →
  torch_loads bs = Return ckpt →
  ckpt !! "state_dict" = Some (VStateDict sd) →
  NoDup ignores →
  ((∃ x, x ∈ ignores ∧ sd !! x = None) →
     ∃ pre x post, ignores = pre ++ x :: post
       ∧ (∀ y, y ∈ pre → is_Some (sd !! y)) ∧ sd !! x = None)
  ∧ (∀ pre x post,
       ignores = pre ++ x :: post →
       (∀ y, y ∈ pre → is_Some (sd !! y)) →
       sd !! x = None →
       load_ckpt torch_loads load_state load_optim fs path ignores strict
         (Objects m None)
       = (Raise (ValueError ("cannot find " +:+ x +:+ " in load_path")),
          Objects m None)
       ∧ ∃ e, simplify_ckpt torch_loads torch_dumps path opath ignores fs
              = (Raise e, fs))
  ∧ ((∀ x, x ∈ ignores → is_Some (sd !! x)) →
     load_ckpt torch_loads load_state load_optim fs path ignores strict (Objects m None)
     = (on_model (model_load_state_dict (without ignores sd) strict);; mret None)
         (Objects m None)
     ∧ simplify_ckpt torch_loads torch_dumps path opath ignores fs
       = torch_save torch_dumps {["state_dict" := VStateDict (without ignores sd)]}
           (output_path path opath) fs
     ∧ ∀ k, without ignores sd !! k = if decide (k ∈ ignores) then None else sd !! k).
Proof.
  intros Hfile Hloads Hsd Hnd. split; [|split].
  - intros Hmiss.
    destruct (first_failing (λ x, is_Some (sd !! x)) ignores)
      as (pre & x & post & Heq & Hpre & Hx).
    { destruct Hmiss as (x & Hx & Hn). exists x. split; [done|].
      rewrite Hn. by intros [? ?]. }
    exists pre, x, post. split; [done|].
    rewrite Forall_forall in Hpre. split; [done|].
    by apply eq_None_not_Some.
  - intros pre x post -> Hpre Hx. split.
    + apply (load_ckpt_missing fs path bs ckpt sd); try done.
      by apply NoDup_app in Hnd as (? & _ & _).
    + apply (simplify_ckpt_missing fs path bs ckpt sd); try done.
      exists x. split; [|done]. apply elem_of_app. right. left.
  - intros Hin. split; [|split].
    + by apply (load_ckpt_present fs path bs ckpt sd).
    + by apply (simplify_ckpt_present fs path bs ckpt sd).
    + apply lookup_without.
Qed.

(** C7, as the code has it.  On a checkpoint file whose state
    dictionary [sd] has every name of [ignores], no name being listed
    twice, [simplify_ckpt] saves the dictionary whose only key is
    [state_dict], bound to [sd] without the ignored names, at [opath], or
    at [path + "_simplified"] when [opath] is empty; the save goes
    through when that path does not end in a slash, its directory is
    there and it does not name a directory. *)
Theorem simplify_ckpt_saves_state_dict_only (fs : filesystem) (path opath : string)
    (bs : list byte) (ckpt : ckpt_t) (sd : gmap string Tensor)
    (ignores : list string) :
  fs !! path = Some (File bs) →
  torch_loads bs = Return ckpt →
  ckpt !! "state_dict" = Some (VStateDict sd) →
  NoDup ignores →
  (∀ x, x ∈ ignores → is_Some (sd !! x)) →
  let out := if bool_decide (opath = "") then path +:+ "_simplified" else opath in
  let simplified : ckpt_t := {["state_dict" := VStateDict (without ignores sd)]} in
  simplify_ckpt torch_loads torch_dumps path opath ignores fs
  = torch_save torch_dumps simplified out fs
  ∧ dom simplified = {["state_dict"]}
  ∧ (∀ k, without ignores sd !! k = if decide (k ∈ ignores) then None else sd !! k)
  ∧ (ends_with_sep out = false →
     parent_check fs out = Return tt → os_path_isdir fs out = false →
     simplify_ckpt torch_loads torch_dumps path opath ignores fs
     = (Return tt, <[out := File (torch_dumps simplified)]> fs)).
Proof.
  intros Hfile Hloads Hsd Hnd Hin out simplified.
  pose proof (simplify_ckpt_present fs path bs ckpt sd Hfile Hloads Hsd opath
                ignores Hnd Hin) as Hrun.
  split; [exact Hrun|]. split; [apply dom_singleton_L|].
  split; [apply lookup_without|].
  intros _ Hparent Hdir. rewrite Hrun.
  unfold torch_save, write_file, output_path. fold out.
  unfold mbind, Py_bind, py_bind, py_get, py_lift, py_modify.
  by rewrite Hparent, Hdir.
Qed.

End TorchFacts.

Lemma load_ckpt_ignores_excludes_optimizer_witness :
  ∃ e, Sample.load_ckpt Sample.disk "ckpt/full.pth.tar" ["fc.weight"] true
         (Objects Sample.model0 (Some "fresh"))
       = (Raise e, Objects Sample.model0 (Some "fresh")).
Proof.
  apply (load_ckpt_ignores_excludes_optimizer Sample.torch_loads
           Sample.model_load_state_dict Sample.optimizer_load_state_dict
           Sample.disk "ckpt/full.pth.tar" ["fc.weight"] true Sample.model0 "fresh").
  discriminate.
Defined.

Lemma load_ckpt_no_file_witness :
  Sample.load_ckpt Sample.disk "ckpt/none.pth.tar" [] true (Objects Sample.model0 None)
  = (Raise (AssertionError "=> no checkpoint found at 'ckpt/none.pth.tar'"),
     Objects Sample.model0 None).
Proof.
  apply (load_ckpt_no_file Sample.torch_loads Sample.model_load_state_dict
           Sample.optimizer_load_state_dict Sample.disk "ckpt/none.pth.tar").
  reflexivity.
Defined.

(** C5, as stated, fails: no file is at the path, and the error raised is
    the assertion error, which no handler of [FileNotFoundError]
    catches. *)
Lemma load_ckpt_no_file_not_FileNotFoundError :
  os_path_isfile Sample.disk "ckpt/none.pth.tar" = false
  ∧ (Sample.load_ckpt Sample.disk "ckpt/none.pth.tar" [] true
       (Objects Sample.model0 None)).1
    = Raise (AssertionError "=> no checkpoint found at 'ckpt/none.pth.tar'")
  ∧ ∀ p, (Sample.load_ckpt Sample.disk "ckpt/none.pth.tar" [] true
            (Objects Sample.model0 None)).1
         ≠ Raise (FileNotFoundError p).
Proof. split; [reflexivity|]. split; [reflexivity|]. intros p. discriminate. Qed.

Lemma load_ckpt_returns_metadata_iff_optimizer_witness :
  (is_Some (Some (VInt 7, VObj "93.5") : option (Sample.val * Sample.val))
   ↔ Some "fresh" ≠ None)
  ∧ (∃ ckpt epoch best_prec1,
       torch_load Sample.torch_loads Sample.disk "ckpt/full.pth.tar" = Return ckpt
       ∧ ckpt !! "epoch" = Some epoch
       ∧ ckpt !! "best_prec1" = Some best_prec1
       ∧ Some (VInt 7, VObj "93.5") = Some (epoch, best_prec1)).
Proof.
  destruct (load_ckpt_returns_metadata_iff_optimizer Sample.torch_loads
              Sample.model_load_state_dict Sample.optimizer_load_state_dict
              Sample.disk "ckpt/full.pth.tar" [] true
              (Objects Sample.model0 (Some "fresh"))
              (Sample.load_ckpt Sample.disk "ckpt/full.pth.tar" [] true
                 (Objects Sample.model0 (Some "fresh"))).2
              (Some (VInt 7, VObj "93.5")))
    as (Hiff & _ & Hmeta).
  { vm_compute. reflexivity. }
  split; [exact Hiff|]. apply Hmeta. discriminate.
Defined.

Lemma ignores_missing_or_removed_witness :
  Sample.load_ckpt Sample.disk "ckpt/full.pth.tar" ["fc.weight"; "zz"; "yy"] true
    (Objects Sample.model0 None)
  = (Raise (ValueError ("cannot find " +:+ "zz" +:+ " in load_path")),
     Objects Sample.model0 None)
  ∧ (∃ e, Sample.simplify_ckpt "ckpt/full.pth.tar" "" ["fc.weight"; "zz"; "yy"]
            Sample.disk
          = (Raise e, Sample.disk)).
Proof.
  refine (proj1 (proj2 (ignores_missing_or_removed Sample.torch_loads
            Sample.torch_dumps
            Sample.model_load_state_dict Sample.optimizer_load_state_dict
            Sample.disk "ckpt/full.pth.tar" "" [x00] Sample.full
            (<["fc.weight" := [1; 2]]> (<["base.conv" := [3]]> ∅))
            ["fc.weight"; "zz"; "yy"] true Sample.model0 _ _ _ _))
            ["fc.weight"] "zz" ["yy"] _ _ _).
  - reflexivity.
  - reflexivity.
  - reflexivity.
  - apply (bool_decide_unpack _). vm_compute. reflexivity.
  - reflexivity.
  - intros y Hy. apply list_elem_of_singleton in Hy as ->. eexists. reflexivity.
  - reflexivity.
Defined.

(** C3, as stated, fails: the name ["zz"] is not a key of the state
    dictionary, an optimizer is passed, and [load_ckpt] stops at its
    assertion; the error does not name the missing key. *)
Lemma load_ckpt_missing_ignore_with_optimizer :
  torch_load Sample.torch_loads Sample.disk "ckpt/full.pth.tar" = Return Sample.full
  ∧ Sample.full !! "state_dict"
    = Some (VStateDict (<["fc.weight" := [1; 2]]> (<["base.conv" := [3]]> ∅)))
  ∧ (<["fc.weight" := [1; 2]]> (<["base.conv" := [3]]> ∅) : gmap string (list Z)) !! "zz"
    = None
  ∧ Sample.load_ckpt Sample.disk "ckpt/full.pth.tar" ["zz"] true
      (Objects Sample.model0 (Some "fresh"))
    = (Raise (AssertionError ""), Objects Sample.model0 (Some "fresh")).
Proof. repeat split; reflexivity. Qed.

(** In [simplify_ckpt] the error for a missing name can be overtaken:
    ["fc.weight"] is removed first, and the report printed for ["zz"]
    looks the removed key up again. *)
Example simplify_ckpt_reports_removed_key :
  Sample.simplify_ckpt "ckpt/full.pth.tar" "out.pth" ["fc.weight"; "zz"] Sample.disk
  = (Raise (KeyError "fc.weight"), Sample.disk)
  ∧ Sample.simplify_ckpt "ckpt/full.pth.tar" "out.pth" ["zz"] Sample.disk
    = (Raise (ValueError "cannot find zz in load_path"), Sample.disk).
Proof. split; reflexivity. Qed.

(** A name listed twice is deleted once and missed the second time. *)
Example load_ckpt_duplicate_ignore :
  (Sample.load_ckpt Sample.disk "ckpt/full.pth.tar" ["fc.weight"; "fc.weight"] false
     (Objects Sample.model0 None)).1
  = Raise (KeyError "fc.weight").
Proof. reflexivity. Qed.

Lemma simplify_ckpt_saves_state_dict_only_witness :
  simplify_ckpt Sample.torch_loads dump_names "ckpt/full.pth.tar" "" ["fc.weight"]
    Sample.disk
  = (Return tt,
     <["ckpt/full.pth.tar_simplified" :=
         File (list_byte_of_string "state_dict:base.conv")]> Sample.disk).
Proof.
  refine (proj2 (proj2 (proj2 (simplify_ckpt_saves_state_dict_only
            Sample.torch_loads dump_names
            Sample.disk "ckpt/full.pth.tar" "" [x00] Sample.full
            (<["fc.weight" := [1; 2]]> (<["base.conv" := [3]]> ∅))
            ["fc.weight"] _ _ _ _ _))) _ _ _).
  - reflexivity.
  - reflexivity.
  - reflexivity.
  - apply NoDup_singleton.
  - intros x Hx. apply list_elem_of_singleton in Hx as ->. eexists. reflexivity.
  - reflexivity.
  - reflexivity.
  - reflexivity.
Defined.

(** C7, as stated, fails when a name is listed twice: the file is there
    and its state dictionary has every name of [ignores], but the second
    occurrence of ["fc.weight"] finds the key deleted, the call raises
    [KeyError], and nothing is written. *)
Lemma simplify_ckpt_repeated_name_writes_nothing :
  let sd : gmap string (list Z) := <["fc.weight" := [1; 2]]> (<["base.conv" := [3]]> ∅) in
  os_path_isfile Sample.disk "ckpt/full.pth.tar" = true
  ∧ torch_load Sample.torch_loads Sample.disk "ckpt/full.pth.tar" = Return Sample.full
  ∧ Sample.full !! "state_dict" = Some (VStateDict sd)
  ∧ (∀ x, x ∈ ["fc.weight"; "fc.weight"] → is_Some (sd !! x))
  ∧ Sample.simplify_ckpt "ckpt/full.pth.tar" "out.pth" ["fc.weight"; "fc.weight"]
      Sample.disk
    = (Raise (KeyError "fc.weight"), Sample.disk)
  ∧ Sample.disk !! "out.pth" = None.
Proof.
  intros sd. repeat split; try reflexivity.
  intros x Hx. apply elem_of_cons in Hx as [->|Hx]; [by eexists|].
  apply list_elem_of_singleton in Hx as ->. by eexists.
Qed.

(** The saved checkpoint on the sample disk: one key, and the weights
    without the ignored name. *)
Example simplify_ckpt_sample_run :
  (Sample.simplify_ckpt "ckpt/full.pth.tar" "" ["fc.weight"] Sample.disk).2
    !! "ckpt/full.pth.tar_simplified"
  = Some (File (Sample.torch_dumps
                  {["state_dict" := VStateDict (<["base.conv" := [3]]> ∅)]})).
Proof. reflexivity. Qed.

(** ** normalize *)

Section NormalizeFacts.
Context {F : Type} (fzero : F) (fadd fmul fdiv : F → F → F) (fsqrt : F → F).


(** On a vector the axis plays no part: every element is divided by the
    norm of the vector. *)
Lemma normalize_vector (v : list F) (axis : Z) :
  normalize fzero fadd fmul fdiv fsqrt (Vec v) axis
  = Return (Some (Vec ((λ x, fdiv x (l2norm fzero fadd fmul fsqrt v)) <$> v))).
Proof. reflexivity. Qed.

(** On a matrix, an axis other than 0 and 1 matches neither branch: the
    call returns [None] and raises nothing. *)
Lemma normalize_other_axis (rows cols : nat) (d : list F) (axis : Z) :
  axis ≠ 0 → axis ≠ 1 →
  normalize fzero fadd fmul fdiv fsqrt (Mat rows cols d) axis = Return None.
Proof.
  intros H0 H1. simpl.
  destruct (Z.eqb_spec axis 0) as [?|_]; [done|].
  destruct (Z.eqb_spec axis 1) as [?|_]; [done|]. reflexivity.
Qed.

(** With axis 1 each element is divided by the norm of its row, and with
    axis 0 by the norm of its column. *)
Lemma normalize_axis1_lookup (rows cols : nat) (d : list F) (p : nat) (x : F) :
  d !! p = Some x → (p / cols < rows)%nat →
  ∃ d', normalize fzero fadd fmul fdiv fsqrt (Mat rows cols d) 1
        = Return (Some (Mat rows cols d'))
      ∧ d' !! p = Some (fdiv x (l2norm fzero fadd fmul fsqrt (row_of cols d (p / cols)))).
Proof.
  intros Hp Hlt. eexists. split; [reflexivity|].
  rewrite list_lookup_imap, Hp. simpl. do 2 f_equal.
  unfold norms_axis1. rewrite list_lookup_fmap, lookup_seq_lt by done. reflexivity.
Qed.

Lemma normalize_axis0_lookup (rows cols : nat) (d : list F) (p : nat) (x : F) :
  d !! p = Some x → (0 < cols)%nat →
  ∃ d', normalize fzero fadd fmul fdiv fsqrt (Mat rows cols d) 0
        = Return (Some (Mat rows cols d'))
      ∧ d' !! p
        = Some (fdiv x (l2norm fzero fadd fmul fsqrt
                          (col_of fzero rows cols d (p mod cols)))).
Proof.
  intros Hp Hlt. eexists. split; [reflexivity|].
  rewrite list_lookup_imap, Hp. simpl. do 2 f_equal.
  unfold norms_axis0. rewrite list_lookup_fmap, lookup_seq_lt; [reflexivity|].
  apply Nat.mod_upper_bound. lia.
Qed.

(** C9, checked on the code: a two-dimensional input with an axis that is
    neither 0 nor 1 (here 2) is not rejected with a type error; the call
    returns [None]. *)
Theorem normalize_axis2_returns_None (a b c d : F) :
  normalize fzero fadd fmul fdiv fsqrt (Mat 2 2 [a; b; c; d]) 2 = Return None
  ∧ ∀ msg, normalize fzero fadd fmul fdiv fsqrt (Mat 2 2 [a; b; c; d]) 2
           ≠ Raise (TypeError msg).
Proof. split; [reflexivity|]. intros msg. discriminate. Qed.

End NormalizeFacts.

(** Rows [3 4] and [6 8] have norms 5 and 10. *)
Example normalize_rows :
  Sample.normalize (Mat 2 2 [3; 4; 6; 8]%Q) 1
  = Return (Some (Mat 2 2 [3 # 5; 4 # 5; 6 # 10; 8 # 10]%Q))
  ∧ Sample.normalize (Mat 2 2 [3; 4; 4; 3]%Q) 0
    = Return (Some (Mat 2 2 [3 # 5; 4 # 5; 4 # 5; 3 # 5]%Q))
  ∧ Sample.normalize (Vec [3; 4]%Q) 7 = Return (Some (Vec [3 # 5; 4 # 5]%Q)).
Proof. repeat split; reflexivity. Qed.

(** ** save_imgs *)

Section SaveImgsFacts.
Context {Image : Type} (jpeg_encode : Image → outcome (list byte)).

Lemma load_global_axis : load_global "axis" = Raise (NameError "axis").
Proof. reflexivity. Qed.

(** C10, checked on the code: [save_imgs] never completes.  Whatever the
    images, the folder and the file system, the call ends in an
    exception; when the loop itself raises nothing, it is the
    [NameError] for [axis] raised by the [else] clause of the loop. *)
Theorem save_imgs_never_returns (imgs : list Image) (ofolder : string)
    (fs : filesystem) :
  ∃ e fs', save_imgs jpeg_encode imgs ofolder fs = (Raise e, fs').
Proof.
  unfold save_imgs. unfold mbind at 1. unfold Py_bind, py_bind.
  match goal with
  | |- context [py_for ?l ?b fs] => destruct (py_for l b fs) as [[[]|e] fs']
  end.
  - exists (NameError "axis"), fs'. reflexivity.
  - exists e, fs'. reflexivity.
Qed.

End SaveImgsFacts.

(** Two images for the folder [out]: both files are written, the folder
    is created, and the call still raises.  An empty list is treated the
    same way. *)
Example save_imgs_two_images :
  let r := Sample.save_imgs [[x01]; [x02]] "out" ∅ in
  r.1 = Raise (NameError "axis")
  ∧ r.2 !! "out" = Some Dir
  ∧ r.2 !! "out/0.jpg" = Some (File [x01])
  ∧ r.2 !! "out/1.jpg" = Some (File [x02])
  ∧ Sample.save_imgs [] "out" ∅ = (Raise (NameError "axis"), ∅).
Proof. repeat split; reflexivity. Qed.

(** * Further properties *)

(** ** AverageMeter: degenerate bound and warm-up *)

Section MeterEdges.
Context {V : Type} (zero : V) (np_mean : list V → V).

(** X1. A meter whose bound is zero or negative and whose history is
    empty cannot be updated: the value appended is deleted at once,
    [history[-1]] raises [IndexError], and the meter is left as it was.
    So no sequence of updates gets past its first element. *)
Theorem AverageMeter_nonpositive_length (m : AverageMeter.t V) (v : V) (vs : list V) :
  AverageMeter.length m ≤ 0 →
  AverageMeter.history m = [] →
  AverageMeter.updates np_mean (v :: vs) m
  = (Raise (IndexError "list index out of range"), m).
Proof.
  intros HL Hh. destruct m as [L h x a]. simpl in *. subst h.
  unfold AverageMeter.updates. simpl.
  unfold AverageMeter.update.
  unfold mbind, Py_bind, py_bind, py_modify, py_get, py_lift, mret, Py_ret, py_ret,
    AverageMeter.set_history, AverageMeter.last_item. simpl.
  destruct (Z.gtb_spec (Z.of_nat 1) L) as [_|?]; [|lia]. reflexivity.
Qed.

(** X2. While the window is not full, nothing is evicted: after at most
    [length] updates of a fresh meter the history is the list of all the
    values pushed, [val] is the last of them and [avg] is [np.mean] of
    all of them. *)
Theorem AverageMeter_warm_up (len : Z) (vs : list V) :
  vs ≠ [] →
  Z.of_nat (List.length vs) ≤ len →
  ∃ m : AverageMeter.t V,
    AverageMeter.updates np_mean vs (AverageMeter.init zero len) = (Return tt, m)
    ∧ AverageMeter.history m = vs
    ∧ last vs = Some (AverageMeter.val m)
    ∧ AverageMeter.avg m = np_mean vs.
Proof.
  intros Hne Hlen.
  assert (1 ≤ len) as H1.
  { destruct vs; [done|]. simpl in Hlen. lia. }
  destruct (updates_run np_mean vs (AverageMeter.init zero len))
    as (m & Hrun & HL & Hh & Hlast).
  { done. } { simpl. lia. }
  simpl in Hh. replace (List.length vs - Z.to_nat len)%nat with 0%nat in Hh by lia.
  destruct (Hlast Hne) as [Hv Ha].
  exists m. rewrite Ha, Hh. done.
Qed.

End MeterEdges.

Lemma AverageMeter_nonpositive_length_witness :
  AverageMeter.updates AverageMeter.Qmean [1; 2]%Q (AverageMeter.init 0%Q (-3))
  = (Raise (IndexError "list index out of range"), AverageMeter.init 0%Q (-3)).
Proof.
  apply (AverageMeter_nonpositive_length AverageMeter.Qmean
           (AverageMeter.init 0%Q (-3)) 1%Q [2%Q]); [simpl; lia | reflexivity].
Defined.

Lemma AverageMeter_warm_up_witness :
  ∃ m : AverageMeter.t Q,
    AverageMeter.updates AverageMeter.Qmean [4; 6]%Q (AverageMeter.init 0%Q 5)
      = (Return tt, m)
    ∧ AverageMeter.history m = [4; 6]%Q
    ∧ last [4; 6]%Q = Some (AverageMeter.val m)
    ∧ AverageMeter.avg m = AverageMeter.Qmean [4; 6]%Q.
Proof.
  apply (AverageMeter_warm_up 0%Q AverageMeter.Qmean 5 [4; 6]%Q);
    [discriminate | simpl; lia].
Defined.

(** ** Feature files: arguments, prefixes and the sentinel *)

(** [np.fromfile] on a file that starts with the encoding of [data]:
    asking for [len(data)] items yields [data], whatever follows. *)
Lemma np_fromfile_prefix (fs : filesystem) (p : string) (dt : dtype)
    (data : list Z) (rest : list byte) :
  fs !! p = Some (File (concat (le_bytes (itemsize dt) <$> data) ++ rest)) →
  Forall (elem_ok dt) data →
  np_fromfile fs p dt (Z.of_nat (List.length data)) = Return data.
Proof.
  intros Hf Hok. unfold np_fromfile, read_file. rewrite Hf.
  destruct (Z.ltb_spec (Z.of_nat (List.length data)) 0) as [?|_]; [lia|].
  pose proof (itemsize_pos dt) as Hw.
  rewrite length_app, encoded_length, Nat2Z.id.
  assert (List.length data
          ≤ (List.length data * itemsize dt + List.length rest) / itemsize dt)%nat.
  { rewrite Nat.div_add_l by lia. lia. }
  rewrite Nat.min_l by done.
  replace (List.length data) with (List.length (le_bytes (itemsize dt) <$> data))
    at 1 by apply length_fmap.
  rewrite chunks_concat_app.
  - rewrite <- list_fmap_compose. rewrite <- (list_fmap_id data) at 2.
    f_equal. apply Forall_fmap_ext. eapply Forall_impl; [exact Hok|].
    intros x Hx. simpl. by apply le_value_le_bytes.
  - apply Forall_fmap, Forall_true. intros x. apply le_bytes_length.
Qed.

Lemma read_feat_prefix (fs : filesystem) (path : string) (dt : dtype)
    (inst_num feat_dim : Z) (data : list Z) (rest : list byte) :
  0 < inst_num → 0 < feat_dim →
  fs !! path = Some (File (concat (le_bytes (itemsize dt) <$> data) ++ rest)) →
  Forall (elem_ok dt) data →
  Z.of_nat (List.length data) = inst_num * feat_dim →
  read_feat path inst_num feat_dim dt fs
  = (Return (if 1 <? feat_dim
             then Mat (Z.to_nat inst_num) (Z.to_nat feat_dim) data
             else Vec data), fs).
Proof.
  intros Hn Hd Hf Hok Hlen.
  unfold read_feat, py_assert, mbind, Py_bind, py_bind, py_get, py_lift, mret,
    Py_ret, py_ret.
  destruct (Z.ltb_spec 0 inst_num) as [_|?]; [|lia].
  destruct (Z.ltb_spec 0 feat_dim) as [_|?]; [|lia].
  simpl. rewrite <- Hlen, (np_fromfile_prefix _ _ _ _ rest) by done.
  destruct (Z.ltb_spec 1 feat_dim) as [_|?]; [|reflexivity].
  unfold reshape2.
  destruct (Z.eqb_spec inst_num (-1)) as [?|_]; [lia|].
  destruct (Z.leb_spec 0 inst_num) as [_|?]; [|lia].
  destruct (Z.leb_spec 0 feat_dim) as [_|?]; [|lia].
  rewrite Hlen, Z.eqb_refl. reflexivity.
Qed.

(** X3. [read_feat] rejects its arguments before it touches the file: an
    instance count that is neither positive nor [-1] (zero included), or
    a feature dimension that is not positive, fails the assertion,
    whatever the path holds. *)
Theorem read_feat_bad_arguments (fs : filesystem) (path : string) (dt : dtype)
    (inst_num feat_dim : Z) :
  (inst_num ≤ 0 ∧ inst_num ≠ -1) ∨ feat_dim ≤ 0 →
  read_feat path inst_num feat_dim dt fs = (Raise (AssertionError ""), fs).
Proof.
  intros H. unfold read_feat, py_assert, mbind, Py_bind, py_bind.
  destruct (Z.ltb_spec 0 inst_num), (Z.eqb_spec inst_num (-1)),
    (Z.ltb_spec 0 feat_dim); simpl; try reflexivity; lia.
Qed.

Lemma read_feat_bad_arguments_witness :
  read_feat "feat.bin" 0 4 float32 ∅ = (Raise (AssertionError ""), ∅).
Proof. apply (read_feat_bad_arguments ∅ "feat.bin" float32 0 4). left. lia. Defined.

(** X4. [read_feat] reads a prefix: from a file that starts with the
    encoding of [inst_num * feat_dim] elements it returns exactly those,
    as a matrix for [feat_dim > 1] and as a flat vector for
    [feat_dim = 1], and ignores whatever bytes follow. *)
Theorem read_feat_ignores_trailing_bytes (fs : filesystem) (path : string)
    (dt : dtype) (inst_num feat_dim : Z) (data : list Z) (rest : list byte) :
  0 < inst_num → 0 < feat_dim →
  fs !! path = Some (File (concat (le_bytes (itemsize dt) <$> data) ++ rest)) →
  Forall (elem_ok dt) data →
  Z.of_nat (List.length data) = inst_num * feat_dim →
  read_feat path inst_num feat_dim dt fs
  = (Return (if 1 <? feat_dim
             then Mat (Z.to_nat inst_num) (Z.to_nat feat_dim) data
             else Vec data), fs).
Proof. apply read_feat_prefix. Qed.

Lemma read_feat_ignores_trailing_bytes_witness :
  read_feat "feat.bin" 1 2 float16
    (<["feat.bin" := File [x00; x3c; x00; x40; x00; x42; xff]]> ∅)
  = (Return (Mat 1 2 [15360; 16384]),
     <["feat.bin" := File [x00; x3c; x00; x40; x00; x42; xff]]> ∅).
Proof.
  apply (read_feat_ignores_trailing_bytes
           (<["feat.bin" := File [x00; x3c; x00; x40; x00; x42; xff]]> ∅)
           "feat.bin" float16 1 2 [15360; 16384] [x00; x42; xff]);
    [lia | lia | reflexivity | | reflexivity].
  repeat constructor; unfold elem_ok; simpl; lia.
Defined.

(** X5. With [feat_dim = 1] the shape is not restored: an array of [n]
    elements, be it a vector or an [(n, 1)] matrix, written with
    [write_feat] is read back by [read_feat(path, n, 1)] as the flat
    vector of the same elements. *)
Theorem read_feat_write_feat_flat (fs fs' : filesystem) (path : string) (dt : dtype)
    (a : ndarray Z) :
  data_of a ≠ [] →
  Forall (elem_ok dt) (data_of a) →
  write_feat path dt a fs = (Return tt, fs') →
  read_feat path (Z.of_nat (List.length (data_of a))) 1 dt fs'
  = (Return (Vec (data_of a)), fs').
Proof.
  intros Hne Hok Hw. apply write_file_return in Hw. subst fs'.
  assert (0 < Z.of_nat (List.length (data_of a))).
  { destruct (data_of a); [done|simpl; lia]. }
  rewrite (read_feat_prefix _ path dt _ 1 (data_of a) []); try done; try lia.
  by rewrite app_nil_r, lookup_insert_eq.
Qed.

Lemma read_feat_write_feat_flat_witness :
  read_feat "feat.bin" 2 1 float32
    (write_feat "feat.bin" float32 (Mat 2 1 [1065353216; 1073741824]) ∅).2
  = (Return (Vec [1065353216; 1073741824]),
     (write_feat "feat.bin" float32 (Mat 2 1 [1065353216; 1073741824]) ∅).2).
Proof.
  apply (read_feat_write_feat_flat ∅ _ "feat.bin" float32
           (Mat 2 1 [1065353216; 1073741824])); [discriminate | | reflexivity].
  repeat constructor; unfold elem_ok; simpl; lia.
Defined.

(** [np.fromfile] with a negative count on a file that holds exactly the
    encoding of [data]. *)
Lemma np_fromfile_all (p : string) (dt : dtype) (data : list Z) (fs : filesystem) :
  Forall (elem_ok dt) data →
  np_fromfile (<[p := File (concat (le_bytes (itemsize dt) <$> data))]> fs) p dt (-1)
  = Return data.
Proof.
  intros Hok. unfold np_fromfile. rewrite read_file_insert, encoded_length.
  pose proof (itemsize_pos dt) as Hw.
  rewrite Nat.div_mul by lia. simpl. by rewrite decode_encode.
Qed.

(** X6. The sentinel [inst_num = -1] reads the whole file and infers the
    number of rows: a matrix of shape [(n, feat_dim)] with
    [feat_dim > 1], empty ones included, written with [write_feat] is
    read back by [read_feat(path, -1, feat_dim)] with its shape. *)
Theorem read_feat_all_write_feat (fs fs' : filesystem) (path : string) (dt : dtype)
    (n feat_dim : Z) (M : ndarray Z) :
  0 ≤ n → 1 < feat_dim →
  is_matrix dt n feat_dim M →
  write_feat path dt M fs = (Return tt, fs') →
  read_feat path (-1) feat_dim dt fs' = (Return M, fs').
Proof.
  intros Hn Hd (data & -> & Hlen & Hok) Hw.
  apply write_file_return in Hw. simpl in Hw. subst fs'.
  unfold read_feat, py_assert, mbind, Py_bind, py_bind, py_get, py_lift, mret,
    Py_ret, py_ret.
  destruct (Z.ltb_spec 0 feat_dim) as [_|?]; [|lia].
  destruct (Z.ltb_spec 1 feat_dim) as [_|?]; [|lia].
  simpl. rewrite np_fromfile_all by done.
  unfold reshape2. simpl.
  destruct (Z.ltb_spec 0 feat_dim) as [_|?]; [|lia].
  rewrite Hlen, Z.mod_mul, Z.div_mul by lia. reflexivity.
Qed.

Lemma read_feat_all_write_feat_witness :
  read_feat "feat.bin" (-1) 2 float64
    (write_feat "feat.bin" float64 (Mat 1 2 [4607182418800017408; 0]) ∅).2
  = (Return (Mat 1 2 [4607182418800017408; 0]),
     (write_feat "feat.bin" float64 (Mat 1 2 [4607182418800017408; 0]) ∅).2).
Proof.
  apply (read_feat_all_write_feat ∅ _ "feat.bin" float64 1 2);
    [lia | lia | | reflexivity].
  exists [4607182418800017408; 0]. split; [reflexivity|]. split; [reflexivity|].
  repeat constructor; unfold elem_ok; simpl; lia.
Defined.



(** ** Checkpoints: further behaviour of the loops *)

Section CheckpointLoopEdges.
Context {Tensor PyObj : Type}.

#[local] Abbreviation ckpt_t := (gmap string (value Tensor PyObj)).

Lemma del_state_dict_item_absent (ckpt : ckpt_t) (sd : gmap string Tensor) (x : string) :
  ckpt !! "state_dict" = Some (VStateDict sd) →
  sd !! x = None →
  del_state_dict_item x ckpt = (Raise (KeyError x), ckpt).
Proof.
  intros Hsd Hx. unfold del_state_dict_item.
  unfold delitem, mbind, Py_bind, py_bind, py_get, py_lift, py_local, py_raise.
  rewrite (state_dict_of_lookup _ _ Hsd). simpl. by rewrite Hx.
Qed.

Lemma print_shape_run (c : ckpt_t) (sd : gmap string Tensor) (k : string) :
  c !! "state_dict" = Some (VStateDict sd) →
  print_shape k c
  = (if (str_find k "base" <? 0) && bool_decide (sd !! k = None)
     then Raise (KeyError k) else Return tt, c).
Proof.
  intros Hsd. unfold print_shape.
  destruct (str_find k "base" <? 0); [|reflexivity].
  unfold mbind, Py_bind, py_bind, py_get, py_lift.
  rewrite (state_dict_of_lookup _ _ Hsd). unfold getitem.
  destruct (sd !! k) eqn:Hk; reflexivity.
Qed.

(** The report runs through when every key it looks up is still there. *)
Lemma print_loop_through (l : list string) (c : ckpt_t) (sd : gmap string Tensor) :
  c !! "state_dict" = Some (VStateDict sd) →
  (∀ k, k ∈ l → str_find k "base" < 0 → is_Some (sd !! k)) →
  py_for l print_shape c = (Return tt, c).
Proof.
  intros Hsd. induction l as [|k l IH]; intros Hl; [reflexivity|].
  simpl. unfold mbind, Py_bind, py_bind. rewrite (print_shape_run _ _ _ Hsd).
  destruct (Z.ltb_spec (str_find k "base") 0) as [Hlt|Hge]; simpl.
  - destruct (Hl k) as [t Ht]; [left|done|].
    rewrite bool_decide_eq_false_2 by (by rewrite Ht).
    apply IH. intros k' Hk'. apply Hl. by right.
  - apply IH. intros k' Hk'. apply Hl. by right.
Qed.

(** It stops with [KeyError] at a key that was deleted and whose name
    does not contain [base], when there is one. *)
Lemma print_loop_stale (l : list string) (c : ckpt_t) (sd : gmap string Tensor) :
  c !! "state_dict" = Some (VStateDict sd) →
  (∃ k, k ∈ l ∧ str_find k "base" < 0 ∧ sd !! k = None) →
  ∃ k, k ∈ l ∧ str_find k "base" < 0 ∧ sd !! k = None
     ∧ py_for l print_shape c = (Raise (KeyError k), c).
Proof.
  intros Hsd. induction l as [|k l IH]; intros (k0 & Hk0 & Hlt0 & Hn0).
  - by apply elem_of_nil in Hk0.
  - simpl. unfold mbind, Py_bind, py_bind. rewrite (print_shape_run _ _ _ Hsd).
    destruct ((str_find k "base" <? 0) && bool_decide (sd !! k = None)) eqn:Hb.
    + apply andb_true_iff in Hb as [Hlt Hn].
      apply Z.ltb_lt in Hlt. apply bool_decide_eq_true in Hn.
      exists k. split; [left|]. done.
    + destruct IH as (k1 & Hk1 & Hlt1 & Hn1 & Hrun).
      { exists k0. split; [|done].
        apply elem_of_cons in Hk0 as [->|?]; [|done].
        apply Z.ltb_lt in Hlt0. rewrite Hlt0 in Hb. simpl in Hb.
        apply bool_decide_eq_false in Hb. done. }
      exists k1. split; [by right|]. done.
Qed.

(** The first loop of [simplify_ckpt] on a checkpoint that has no
    [state_dict] entry leaves none. *)
Lemma keep_loop_no_state_dict (ckpt : ckpt_t) :
  ckpt !! "state_dict" = None →
  ∃ ckpt', py_for (map_to_list ckpt).*1 keep_state_dict ckpt = (Return tt, ckpt')
         ∧ ckpt' !! "state_dict" = None.
Proof.
  intros Hn.
  destruct (keep_loop (map_to_list ckpt).*1 ckpt) as (ckpt' & Hrun & Hl).
  { apply NoDup_fst_map_to_list. }
  { intros k Hk. apply list_elem_of_fmap in Hk as [[k' v'] [-> Hk]].
    apply elem_of_map_to_list in Hk. eauto. }
  exists ckpt'. split; [done|]. rewrite Hl. by case_decide.
Qed.

(** The loop over [ignores] of both functions, run on a list whose
    duplicate-free prefix [pre] is present: the prefix is removed and the
    loop goes on with the body of the next name. *)
Lemma ignore_loop_split (keys : gset string) (body : string → Py ckpt_t unit)
    (pre post : list string) (x : string) (c : ckpt_t) (sd : gmap string Tensor) :
  (∀ y, y ∈ keys → body y = del_state_dict_item y) →
  c !! "state_dict" = Some (VStateDict sd) →
  NoDup pre →
  (∀ y, y ∈ pre → y ∈ keys ∧ is_Some (sd !! y)) →
  ∀ e s, body x (<["state_dict" := VStateDict (without pre sd)]> c) = (Raise e, s) →
  py_for (pre ++ x :: post) body c = (Raise e, s).
Proof.
  intros Hbody Hsd Hnd Hin e s Hx.
  eapply py_for_first_raise; [|exact Hx].
  by apply (ignore_loop_present keys).
Qed.

End CheckpointLoopEdges.

(** ** Checkpoints: error and edge behaviour *)

Section TorchEdges.
Context {Tensor PyObj Model Optim : Type}.
Context (torch_loads : list byte → outcome (gmap string (value Tensor PyObj))).
Context (torch_dumps : gmap string (value Tensor PyObj) → list byte).
Context (load_state : gmap string Tensor → bool → Py Model unit).
Context (load_optim : value Tensor PyObj → Py Optim unit).

#[local] Abbreviation ckpt_t := (gmap string (value Tensor PyObj)).

(** X8. A checkpoint that lacks the keys [load_ckpt] reads after
    [load_state_dict] fails late: with an optimizer and no [optimizer]
    entry the call raises [KeyError('optimizer')] when the model has
    already been loaded, and with no [epoch] entry it raises
    [KeyError('epoch')] when the optimizer has been restored too. *)
Theorem load_ckpt_missing_metadata (fs : filesystem) (path : string)
    (bs : list byte) (ckpt : ckpt_t) (sd : gmap string Tensor) (strict : bool)
    (m m' : Model) (o : Optim) :
  fs !! path = Some (File bs) →
  torch_loads bs = Return ckpt →
  ckpt !! "state_dict" = Some (VStateDict sd) →
  load_state sd strict m = (Return tt, m') →
  (ckpt !! "optimizer" = None →
   load_ckpt torch_loads load_state load_optim fs path [] strict (Objects m (Some o))
   = (Raise (KeyError "optimizer"), Objects m' (Some o)))
  ∧ (∀ state o',
       ckpt !! "optimizer" = Some state →
       load_optim state o = (Return tt, o') →
       ckpt !! "epoch" = None →
       load_ckpt torch_loads load_state load_optim fs path [] strict
         (Objects m (Some o))
       = (Raise (KeyError "epoch"), Objects m' (Some o'))).
Proof.
  intros Hfile Hloads Hsd Hm.
  assert (
    load_ckpt torch_loads load_state load_optim fs path [] strict (Objects m (Some o))
    = (state ← py_lift (getitem ckpt "optimizer");
       on_optimizer (load_optim state);;
       epoch ← py_lift (getitem ckpt "epoch");
       best_prec1 ← py_lift (getitem ckpt "best_prec1");
       mret (Some (epoch, best_prec1))) (Objects m' (Some o))) as Hrun.
  { unfold load_ckpt. rewrite (isfile_path _ _ _ Hfile).
    erewrite py_bind_return by apply (torch_load_step _ _ _ _ _ Hfile Hloads).
    erewrite py_bind_return by reflexivity.
    erewrite py_bind_return by reflexivity.
    erewrite py_bind_return by (by apply state_dict_step).
    erewrite py_bind_return; cycle 1.
    { unfold on_model. simpl. rewrite Hm. reflexivity. }
    erewrite py_bind_return by reflexivity.
    simpl. erewrite py_bind_return by reflexivity. reflexivity. }
  split.
  - intros Hopt. rewrite Hrun.
    erewrite py_bind_raise; [reflexivity|].
    unfold py_lift, getitem. by rewrite Hopt.
  - intros state o' Hopt Hol Hep. rewrite Hrun.
    erewrite py_bind_return; cycle 1.
    { unfold py_lift, getitem. rewrite Hopt. reflexivity. }
    erewrite py_bind_return; cycle 1.
    { unfold on_optimizer. simpl. rewrite Hol. reflexivity. }
    erewrite py_bind_raise; [reflexivity|].
    unfold py_lift, getitem. by rewrite Hep.
Qed.

(** X9. A name listed twice in [ignores] is deleted by its first
    occurrence and makes the second one fail: [load_ckpt] (without an
    optimizer) raises [KeyError] for that name before the model is
    touched, and [simplify_ckpt] raises it without writing. *)
Theorem ignores_duplicate_name (fs : filesystem) (path : string) (bs : list byte)
    (ckpt : ckpt_t) (sd : gmap string Tensor) (pre post : list string)
    (x opath : string) (strict : bool) (m : Model) :
  fs !! path = Some (File bs) →
  torch_loads bs = Return ckpt →
  ckpt !! "state_dict" = Some (VStateDict sd) →
  NoDup pre →
  (∀ y, y ∈ pre → is_Some (sd !! y)) →
  x ∈ pre →
  load_ckpt torch_loads load_state load_optim fs path (pre ++ x :: post) strict
    (Objects m None)
  = (Raise (KeyError x), Objects m None)
  ∧ simplify_ckpt torch_loads torch_dumps path opath (pre ++ x :: post) fs
    = (Raise (KeyError x), fs).
Proof.
  intros Hfile Hloads Hsd Hnd Hin Hx.
  assert (∀ y, y ∈ pre → y ∈ dom sd ∧ is_Some (sd !! y)) as Hin'.
  { intros y Hy. split; [|by apply Hin]. by apply elem_of_dom, Hin. }
  assert (without pre sd !! x = None) as Hgone.
  { rewrite lookup_without. by case_decide. }
  split.
  - unfold load_ckpt. rewrite (isfile_path _ _ _ Hfile).
    erewrite py_bind_return by apply (torch_load_step _ _ _ _ _ Hfile Hloads).
    erewrite py_bind_return by reflexivity.
    replace (0 <? List.length (pre ++ x :: post))%nat with true
      by (symmetry; apply Nat.ltb_lt; rewrite length_app; simpl; lia).
    cbv iota.
    erewrite py_bind_raise; [reflexivity|].
    erewrite py_bind_return by reflexivity.
    erewrite py_bind_return by (by apply keys_step).
    erewrite py_bind_raise; [reflexivity|].
    unfold py_local.
    erewrite (ignore_loop_split (dom sd) (ignore_or_raise (dom sd)) pre post x);
      [reflexivity| |done|done|done|].
    + intros y Hy. unfold ignore_or_raise. by rewrite bool_decide_eq_true_2.
    + unfold ignore_or_raise.
      rewrite bool_decide_eq_true_2 by (by apply Hin').
      apply del_state_dict_item_absent with (sd := without pre sd);
        [apply lookup_insert_eq|done].
  - rewrite (simplify_ckpt_unfold _ _ _ _ _ _ sd Hfile Hloads Hsd).
    erewrite py_bind_raise; [reflexivity|].
    unfold py_local.
    erewrite (ignore_loop_split (dom sd) (ignore_or_report (dom sd)) pre post x
                _ sd); [reflexivity| | |done|done|].
    + intros y Hy. unfold ignore_or_report. by rewrite bool_decide_eq_true_2.
    + apply lookup_singleton_eq.
    + unfold ignore_or_report.
      rewrite bool_decide_eq_true_2 by (by apply Hin').
      apply del_state_dict_item_absent with (sd := without pre sd);
        [apply lookup_insert_eq|done].
Qed.

(** X10. A file that loads to a dictionary without a [state_dict] entry:
    [load_ckpt] (called without an optimizer, or without [ignores])
    raises [KeyError('state_dict')] and leaves model and optimizer as
    they were; [simplify_ckpt], which has deleted every key by then,
    raises the same error and writes nothing. *)
Theorem checkpoint_without_state_dict (fs : filesystem) (path : string)
    (bs : list byte) (ckpt : ckpt_t) (ignores : list string) (opath : string)
    (strict : bool) (objs : objects Model Optim) :
  fs !! path = Some (File bs) →
  torch_loads bs = Return ckpt →
  ckpt !! "state_dict" = None →
  (optimizer objs = None ∨ ignores = [] →
   load_ckpt torch_loads load_state load_optim fs path ignores strict objs
   = (Raise (KeyError "state_dict"), objs))
  ∧ simplify_ckpt torch_loads torch_dumps path opath ignores fs
    = (Raise (KeyError "state_dict"), fs).
Proof.
  intros Hfile Hloads Hn.
  assert (∀ c : ckpt_t, c !! "state_dict" = None →
            state_dict_of c = Raise (KeyError "state_dict")) as Hsdof.
  { intros c Hc. unfold state_dict_of, getitem, mbind, outcome_bind. by rewrite Hc. }
  split.
  - intros Hcase. unfold load_ckpt. rewrite (isfile_path _ _ _ Hfile).
    erewrite py_bind_return by apply (torch_load_step _ _ _ _ _ Hfile Hloads).
    erewrite py_bind_return by reflexivity.
    destruct ignores as [|x l].
    + erewrite py_bind_return by reflexivity.
      erewrite py_bind_raise; [reflexivity|].
      unfold py_lift. by rewrite Hsdof.
    + destruct Hcase as [Hopt|?]; [|done].
      change (0 <? List.length (x :: l))%nat with true. cbv iota.
      erewrite py_bind_raise; [reflexivity|].
      erewrite py_bind_return; cycle 1.
      { rewrite Hopt. reflexivity. }
      erewrite py_bind_raise; [reflexivity|].
      unfold py_lift. by rewrite Hsdof.
  - destruct (keep_loop_no_state_dict ckpt Hn) as (ckpt' & Hkeep & Hn').
    unfold simplify_ckpt.
    erewrite py_bind_return by reflexivity. rewrite (isfile_path _ _ _ Hfile).
    erewrite py_bind_return by apply (torch_load_step _ _ _ _ _ Hfile Hloads).
    erewrite py_bind_raise; [reflexivity|].
    unfold py_local.
    erewrite py_bind_return by exact Hkeep.
    change (0 <=? List.length ignores)%nat with true. cbv iota.
    erewrite py_bind_return by reflexivity.
    erewrite py_bind_raise; [reflexivity|].
    unfold py_lift. by rewrite Hsdof.
Qed.

(** X11. The error of [simplify_ckpt] for a name that is not found.
    When the names before the first missing one are removed, the report
    that precedes the error looks up every key of the original set whose
    name does not contain [base]: if all removed names contain [base]
    (or none was removed) the call raises the [ValueError] that names the
    missing one; otherwise it raises [KeyError] for a removed key and the
    missing name is not reported.  Nothing is written either way. *)
Theorem simplify_ckpt_missing_name_error (fs : filesystem) (path : string)
    (bs : list byte) (ckpt : ckpt_t) (sd : gmap string Tensor)
    (pre post : list string) (x opath : string) :
  fs !! path = Some (File bs) →
  torch_loads bs = Return ckpt →
  ckpt !! "state_dict" = Some (VStateDict sd) →
  NoDup pre →
  (∀ y, y ∈ pre → is_Some (sd !! y)) →
  sd !! x = None →
  ((∀ k, k ∈ pre → 0 ≤ str_find k "base") →
   simplify_ckpt torch_loads torch_dumps path opath (pre ++ x :: post) fs
   = (Raise (ValueError ("cannot find " +:+ x +:+ " in load_path")), fs))
  ∧ ((∃ k, k ∈ pre ∧ str_find k "base" < 0) →
     ∃ k, k ∈ pre ∧ str_find k "base" < 0
        ∧ simplify_ckpt torch_loads torch_dumps path opath (pre ++ x :: post) fs
          = (Raise (KeyError k), fs)).
Proof.
  intros Hfile Hloads Hsd Hnd Hin Hx.
  assert (∀ y, y ∈ pre → y ∈ dom sd ∧ is_Some (sd !! y)) as Hin'.
  { intros y Hy. split; [|by apply Hin]. by apply elem_of_dom, Hin. }
  assert (x ∉ dom sd) as Hxd by (by apply not_elem_of_dom).
  set (c := (<["state_dict" := VStateDict (without pre sd)]>
               {["state_dict" := VStateDict sd]} : ckpt_t)).
  assert (c !! "state_dict" = Some (VStateDict (without pre sd))) as Hc
    by apply lookup_insert_eq.
  assert (∀ e s, ignore_or_report (dom sd) x c = (Raise e, s) →
            simplify_ckpt torch_loads torch_dumps path opath (pre ++ x :: post) fs
            = (Raise e, fs)) as Hrun.
  { intros e s He.
    rewrite (simplify_ckpt_unfold _ _ _ _ _ _ sd Hfile Hloads Hsd).
    erewrite py_bind_raise; [reflexivity|].
    unfold py_local.
    erewrite (ignore_loop_split (dom sd) (ignore_or_report (dom sd)) pre post x
                _ sd); [reflexivity| | |done|done|exact He].
    - intros y Hy. unfold ignore_or_report. by rewrite bool_decide_eq_true_2.
    - apply lookup_singleton_eq. }
  split.
  - intros Hbase. eapply Hrun.
    unfold ignore_or_report. rewrite bool_decide_eq_false_2 by done.
    erewrite py_bind_return; [reflexivity|].
    apply (print_loop_through _ _ _ Hc).
    intros k Hk Hlt. rewrite lookup_without.
    case_decide as Hkp.
    + specialize (Hbase k Hkp). lia.
    + apply elem_of_dom. by apply elem_of_elements in Hk.
  - intros (k0 & Hk0 & Hlt0).
    destruct (print_loop_stale (elements (dom sd)) c (without pre sd) Hc)
      as (k & Hk & Hlt & Hgone & Hloop).
    { exists k0. split; [apply elem_of_elements; by apply Hin'|].
      split; [done|]. rewrite lookup_without. by case_decide. }
    exists k. split; [|split; [done|]].
    + rewrite lookup_without in Hgone. case_decide as Hkp; [done|].
      apply elem_of_elements, elem_of_dom in Hk. rewrite Hgone in Hk.
      by destruct Hk.
    + eapply Hrun. unfold ignore_or_report. rewrite bool_decide_eq_false_2 by done.
      erewrite py_bind_raise; [reflexivity|exact Hloop].
Qed.

End TorchEdges.

(** ** Checkpoints: what [simplify_ckpt] leaves alone, and how it composes *)

Lemma write_file_other (p q : string) (bs : list byte) (fs : filesystem) :
  q ≠ p → (write_file p bs fs).2 !! q = fs !! q.
Proof.
  intros Hne. unfold write_file, mbind, Py_bind, py_bind, py_get, py_lift, py_raise,
    py_modify.
  destruct (parent_check fs p); [|reflexivity].
  destruct (os_path_isdir fs p); [reflexivity|]. simpl.
  by rewrite lookup_insert_ne.
Qed.

Lemma write_file_creatable (p : string) (bs : list byte) (fs : filesystem) :
  parent_check fs p = Return tt → os_path_isdir fs p = false →
  write_file p bs fs = (Return tt, <[p := File bs]> fs).
Proof.
  intros Hp Hd. unfold write_file, mbind, Py_bind, py_bind, py_get, py_lift, py_modify.
  by rewrite Hp, Hd.
Qed.

Lemma py_local_state {S L A} (c : Py L A) (l : L) (s : S) : (py_local c l s).2 = s.
Proof. unfold py_local. by destruct (c l) as [[a|e] l']. Qed.

Section SimplifyFacts.
Context {Tensor PyObj Model Optim : Type}.
Context (torch_loads : list byte → outcome (gmap string (value Tensor PyObj))).
Context (torch_dumps : gmap string (value Tensor PyObj) → list byte).
Context (load_state : gmap string Tensor → bool → Py Model unit).
Context (load_optim : value Tensor PyObj → Py Optim unit).

#[local] Abbreviation ckpt_t := (gmap string (value Tensor PyObj)).

(** X12. [simplify_ckpt] touches one path only: whatever the arguments
    and whether it returns or raises, every entry of the file system
    other than the output path is as before.  In particular the
    checkpoint it reads is kept unless the output is directed onto it. *)
Theorem simplify_ckpt_only_writes_output (fs : filesystem) (path opath : string)
    (ignores : list string) (p : string) :
  p ≠ output_path path opath →
  (simplify_ckpt torch_loads torch_dumps path opath ignores fs).2 !! p = fs !! p.
Proof.
  intros Hne. unfold simplify_ckpt.
  unfold mbind at 1. unfold Py_bind, py_bind, py_get.
  destruct (os_path_isfile fs path); [|reflexivity].
  unfold mbind at 1. unfold Py_bind, py_bind, py_lift.
  destruct (torch_load torch_loads fs path) as [ckpt|e]; [|reflexivity].
  unfold mbind at 1. unfold Py_bind, py_bind.
  match goal with
  | |- context [py_local ?c ckpt fs] =>
      pose proof (py_local_state c ckpt fs) as Hst;
      destruct (py_local c ckpt fs) as [[[[] ck]|e] s]
  end; simpl in Hst; subst s; [|reflexivity].
  unfold torch_save. by apply write_file_other.
Qed.

Lemma simplify_ckpt_result (fs : filesystem) (path opath : string) (bs : list byte)
    (ckpt : ckpt_t) (sd : gmap string Tensor) (ignores : list string) :
  fs !! path = Some (File bs) →
  torch_loads bs = Return ckpt →
  ckpt !! "state_dict" = Some (VStateDict sd) →
  NoDup ignores →
  (∀ x, x ∈ ignores → is_Some (sd !! x)) →
  parent_check fs (output_path path opath) = Return tt →
  os_path_isdir fs (output_path path opath) = false →
  simplify_ckpt torch_loads torch_dumps path opath ignores fs
  = (Return tt,
     <[output_path path opath :=
         File (torch_dumps {["state_dict" := VStateDict (without ignores sd)]})]> fs).
Proof.
  intros Hfile Hloads Hsd Hnd Hin Hparent Hnodir.
  rewrite (simplify_ckpt_present _ _ _ _ _ _ _ Hfile Hloads Hsd) by done.
  unfold torch_save. by apply write_file_creatable.
Qed.

(** X13. Loading the simplified file gives the model what loading the
    original with the same [ignores] gives it: when the output path can
    be created and the serialisation reads back what it saved,
    [load_ckpt] (no optimizer, no [ignores]) on the output of
    [simplify_ckpt] behaves as [load_ckpt] with [ignores] on the
    original checkpoint. *)
Theorem load_ckpt_after_simplify_ckpt (fs : filesystem) (path opath : string)
    (bs : list byte) (ckpt : ckpt_t) (sd : gmap string Tensor)
    (ignores : list string) (strict : bool) (m : Model) :
  fs !! path = Some (File bs) →
  torch_loads bs = Return ckpt →
  ckpt !! "state_dict" = Some (VStateDict sd) →
  NoDup ignores →
  (∀ x, x ∈ ignores → is_Some (sd !! x)) →
  parent_check fs (output_path path opath) = Return tt →
  os_path_isdir fs (output_path path opath) = false →
  torch_loads (torch_dumps {["state_dict" := VStateDict (without ignores sd)]})
  = Return {["state_dict" := VStateDict (without ignores sd)]} →
  load_ckpt torch_loads load_state load_optim
    (simplify_ckpt torch_loads torch_dumps path opath ignores fs).2
    (output_path path opath) [] strict (Objects m None)
  = load_ckpt torch_loads load_state load_optim fs path ignores strict (Objects m None).
Proof.
  intros Hfile Hloads Hsd Hnd Hin Hparent Hnodir Hcodec.
  rewrite (simplify_ckpt_result fs path opath bs ckpt sd ignores) by done. simpl.
  rewrite (load_ckpt_present torch_loads load_state load_optim fs path bs ckpt sd
             Hfile Hloads Hsd ignores strict m Hnd Hin).
  rewrite (load_ckpt_present torch_loads load_state load_optim _
             (output_path path opath) _ _ (without ignores sd)
             (lookup_insert_eq _ _ _) Hcodec (lookup_singleton_eq _ _)
             [] strict m).
  - reflexivity.
  - constructor.
  - intros x Hx. by apply elem_of_nil in Hx.
Qed.

(** X14. Simplifying twice adds nothing: under the same conditions,
    [simplify_ckpt] run on its own output (with no [ignores]) saves the
    very checkpoint the first run saved. *)
Theorem simplify_ckpt_twice (fs : filesystem) (path opath opath2 : string)
    (bs : list byte) (ckpt : ckpt_t) (sd : gmap string Tensor)
    (ignores : list string) :
  fs !! path = Some (File bs) →
  torch_loads bs = Return ckpt →
  ckpt !! "state_dict" = Some (VStateDict sd) →
  NoDup ignores →
  (∀ x, x ∈ ignores → is_Some (sd !! x)) →
  parent_check fs (output_path path opath) = Return tt →
  os_path_isdir fs (output_path path opath) = false →
  torch_loads (torch_dumps {["state_dict" := VStateDict (without ignores sd)]})
  = Return {["state_dict" := VStateDict (without ignores sd)]} →
  simplify_ckpt torch_loads torch_dumps (output_path path opath) opath2 []
    (simplify_ckpt torch_loads torch_dumps path opath ignores fs).2
  = torch_save torch_dumps {["state_dict" := VStateDict (without ignores sd)]}
      (output_path (output_path path opath) opath2)
      (simplify_ckpt torch_loads torch_dumps path opath ignores fs).2.
Proof.
  intros Hfile Hloads Hsd Hnd Hin Hparent Hnodir Hcodec.
  rewrite (simplify_ckpt_result fs path opath bs ckpt sd ignores) by done. simpl.
  rewrite (simplify_ckpt_present torch_loads torch_dumps _ (output_path path opath)
             _ _ (without ignores sd)
             (lookup_insert_eq _ _ _) Hcodec (lookup_singleton_eq _ _) opath2 []).
  - reflexivity.
  - constructor.
  - intros x Hx. by apply elem_of_nil in Hx.
Qed.

End SimplifyFacts.

Lemma load_ckpt_missing_metadata_witness :
  Sample.load_ckpt Sample.disk "ckpt/small.pth.tar" [] false
    (Objects Sample.model0 (Some "fresh"))
  = (Raise (KeyError "optimizer"),
     Objects (<["fc.weight" := [1; 2]]> (<["base.conv" := [0]]> ∅)) (Some "fresh")).
Proof.
  refine (proj1 (load_ckpt_missing_metadata Sample.torch_loads
            Sample.model_load_state_dict Sample.optimizer_load_state_dict
            Sample.disk "ckpt/small.pth.tar" [x01] Sample.weights_only
            (<["fc.weight" := [1; 2]]> ∅) false Sample.model0
            (<["fc.weight" := [1; 2]]> (<["base.conv" := [0]]> ∅)) "fresh"
            _ _ _ _) _); reflexivity.
Defined.

Lemma ignores_duplicate_name_witness :
  Sample.load_ckpt Sample.disk "ckpt/full.pth.tar" ["fc.weight"; "fc.weight"] true
    (Objects Sample.model0 None)
  = (Raise (KeyError "fc.weight"), Objects Sample.model0 None)
  ∧ Sample.simplify_ckpt "ckpt/full.pth.tar" "" ["fc.weight"; "fc.weight"] Sample.disk
    = (Raise (KeyError "fc.weight"), Sample.disk).
Proof.
  apply (ignores_duplicate_name Sample.torch_loads Sample.torch_dumps
           Sample.model_load_state_dict Sample.optimizer_load_state_dict
           Sample.disk "ckpt/full.pth.tar" [x00] Sample.full
           (<["fc.weight" := [1; 2]]> (<["base.conv" := [3]]> ∅))
           ["fc.weight"] [] "fc.weight" "" true Sample.model0).
  - reflexivity.
  - reflexivity.
  - reflexivity.
  - apply NoDup_singleton.
  - intros y Hy. apply list_elem_of_singleton in Hy as ->. eexists. reflexivity.
  - apply list_elem_of_singleton. reflexivity.
Defined.

Lemma checkpoint_without_state_dict_witness :
  simplify_ckpt (λ _, Return (∅ : gmap string Sample.val)) Sample.torch_dumps
    "ckpt/full.pth.tar" "" ["fc.weight"] Sample.disk
  = (Raise (KeyError "state_dict"), Sample.disk).
Proof.
  refine (proj2 (checkpoint_without_state_dict
            (λ _, Return (∅ : gmap string Sample.val)) Sample.torch_dumps
            Sample.model_load_state_dict Sample.optimizer_load_state_dict
            Sample.disk "ckpt/full.pth.tar" [x00] ∅ ["fc.weight"] "" true
            (Objects Sample.model0 None) _ _ _)); reflexivity.
Defined.

Lemma simplify_ckpt_missing_name_error_witness :
  ∃ k, k ∈ ["fc.weight"] ∧ str_find k "base" < 0
     ∧ Sample.simplify_ckpt "ckpt/full.pth.tar" "" ["fc.weight"; "zz"] Sample.disk
       = (Raise (KeyError k), Sample.disk).
Proof.
  refine (proj2 (simplify_ckpt_missing_name_error Sample.torch_loads
            Sample.torch_dumps Sample.disk "ckpt/full.pth.tar" [x00] Sample.full
            (<["fc.weight" := [1; 2]]> (<["base.conv" := [3]]> ∅))
            ["fc.weight"] [] "zz" "" _ _ _ _ _ _) _).
  - reflexivity.
  - reflexivity.
  - reflexivity.
  - apply NoDup_singleton.
  - intros y Hy. apply list_elem_of_singleton in Hy as ->. eexists. reflexivity.
  - reflexivity.
  - exists "fc.weight". split; [apply list_elem_of_singleton; reflexivity|].
    vm_compute. reflexivity.
Defined.

Lemma simplify_ckpt_only_writes_output_witness :
  (Sample.simplify_ckpt "ckpt/full.pth.tar" "" ["fc.weight"] Sample.disk).2
    !! "ckpt/full.pth.tar"
  = Sample.disk !! "ckpt/full.pth.tar".
Proof.
  apply (simplify_ckpt_only_writes_output Sample.torch_loads Sample.torch_dumps
           Sample.disk "ckpt/full.pth.tar" "" ["fc.weight"] "ckpt/full.pth.tar").
  vm_compute. discriminate.
Defined.

Lemma load_ckpt_after_simplify_ckpt_witness :
  Sample.load_ckpt
    (Sample.simplify_ckpt "ckpt/full.pth.tar" "" ["base.conv"] Sample.disk).2
    (output_path "ckpt/full.pth.tar" "") [] false (Objects Sample.model0 None)
  = Sample.load_ckpt Sample.disk "ckpt/full.pth.tar" ["base.conv"] false
      (Objects Sample.model0 None).
Proof.
  apply (load_ckpt_after_simplify_ckpt Sample.torch_loads Sample.torch_dumps
           Sample.model_load_state_dict Sample.optimizer_load_state_dict
           Sample.disk "ckpt/full.pth.tar" "" [x00] Sample.full
           (<["fc.weight" := [1; 2]]> (<["base.conv" := [3]]> ∅))
           ["base.conv"] false Sample.model0).
  - reflexivity.
  - reflexivity.
  - reflexivity.
  - apply NoDup_singleton.
  - intros y Hy. apply list_elem_of_singleton in Hy as ->. eexists. reflexivity.
  - reflexivity.
  - reflexivity.
  - vm_compute. reflexivity.
Defined.

Lemma simplify_ckpt_twice_witness :
  Sample.simplify_ckpt (output_path "ckpt/full.pth.tar" "") "ckpt/again.pth" []
    (Sample.simplify_ckpt "ckpt/full.pth.tar" "" ["base.conv"] Sample.disk).2
  = torch_save Sample.torch_dumps
      {["state_dict" :=
          VStateDict (without ["base.conv"]
                        (<["fc.weight" := [1; 2]]> (<["base.conv" := [3]]> ∅)))]}
      (output_path (output_path "ckpt/full.pth.tar" "") "ckpt/again.pth")
      (Sample.simplify_ckpt "ckpt/full.pth.tar" "" ["base.conv"] Sample.disk).2.
Proof.
  apply (simplify_ckpt_twice Sample.torch_loads Sample.torch_dumps
           Sample.disk "ckpt/full.pth.tar" "" "ckpt/again.pth" [x00] Sample.full
           (<["fc.weight" := [1; 2]]> (<["base.conv" := [3]]> ∅)) ["base.conv"]).
  - reflexivity.
  - reflexivity.
  - reflexivity.
  - apply NoDup_singleton.
  - intros y Hy. apply list_elem_of_singleton in Hy as ->. eexists. reflexivity.
  - reflexivity.
  - reflexivity.
  - vm_compute. reflexivity.
Defined.

(** ** Paths: [os.path.join] and [os.path.dirname] on plain names *)

Lemma contains_sep_app (a b : string) :
  contains_sep (a +:+ b) = contains_sep a || contains_sep b.
Proof.
  induction a as [|c a IH]; simpl; [done|]. rewrite IH. by rewrite orb_assoc.
Qed.

Lemma pretty_N_char_not_sep (x : N) : bool_decide (pretty_N_char x = sep) = false.
Proof. unfold pretty_N_char. by repeat case_match. Qed.

Lemma contains_sep_pretty_N_go (x : N) : ∀ s,
  contains_sep (pretty_N_go x s) = contains_sep s.
Proof.
  induction (N.lt_wf_0 x) as [x _ IH]; intros s.
  destruct (decide (x = 0)%N) as [->|Hx]; [by rewrite pretty_N_go_0|].
  rewrite pretty_N_go_step by lia. rewrite IH by (apply N.div_lt; lia).
  simpl. by rewrite pretty_N_char_not_sep.
Qed.

Lemma contains_sep_pretty_nat_N (x : N) : contains_sep (pretty x) = false.
Proof.
  unfold pretty, pretty_N. case_decide; [done|]. by rewrite contains_sep_pretty_N_go.
Qed.

Lemma contains_sep_pretty_nat (i : nat) : contains_sep (pretty i) = false.
Proof. apply (contains_sep_pretty_nat_N (N.of_nat i)). Qed.

Lemma contains_sep_jpg (i : nat) : contains_sep (pretty i +:+ ".jpg") = false.
Proof. by rewrite contains_sep_app, contains_sep_pretty_nat. Qed.

Lemma rsplit_sep_plain (b : string) :
  contains_sep b = false → rsplit_sep b = (EmptyString, b).
Proof.
  induction b as [|c b IH]; simpl; [done|]. intros H.
  apply orb_false_iff in H as [Hc Hb]. rewrite IH by done. simpl.
  by rewrite Hc.
Qed.

Lemma rsplit_sep_join (a b : string) :
  contains_sep b = false →
  rsplit_sep (a +:+ String sep b) = (a +:+ String sep EmptyString, b).
Proof.
  intros Hb. induction a as [|c a IH]; simpl.
  - rewrite rsplit_sep_plain by done. reflexivity.
  - rewrite IH. rewrite bool_decide_eq_false_2 by (destruct a; simpl; discriminate).
    reflexivity.
Qed.

Lemma starts_with_sep_plain (b : string) :
  contains_sep b = false → starts_with_sep b = false.
Proof. destruct b as [|c b]; simpl; [done|]. by intros [? _]%orb_false_iff. Qed.

Lemma starts_with_sep_rev_app (s : string) : ∀ acc,
  s ≠ EmptyString →
  starts_with_sep (String.rev_app s acc) = starts_with_sep (String.rev_app s "").
Proof.
  induction s as [|c s IH]; intros acc Hne; [done|]. simpl.
  destruct s as [|d s]; [done|].
  rewrite (IH (String c acc)) by done. by rewrite (IH (String c "")) by done.
Qed.

Lemma ends_with_sep_cons (c : ascii) (s : string) :
  ends_with_sep (String c s)
  = if bool_decide (s = EmptyString) then bool_decide (c = sep) else ends_with_sep s.
Proof.
  unfold ends_with_sep, String.rev. simpl.
  destruct s as [|d s]; [done|].
  rewrite bool_decide_eq_false_2 by done. by apply starts_with_sep_rev_app.
Qed.

(** A non-empty name that does not end in ['/'] is not made of slashes
    only, and stripping the slash appended to it gives it back. *)
Lemma all_sep_snoc_no_trailing (a : string) :
  a ≠ EmptyString → ends_with_sep a = false →
  all_sep (a +:+ String sep EmptyString) = false
  ∧ rstrip_sep (a +:+ String sep EmptyString) = a.
Proof.
  induction a as [|c a IH]; [done|]. intros _ Hend.
  rewrite ends_with_sep_cons in Hend. simpl.
  destruct a as [|d a].
  - simpl in *. by rewrite Hend.
  - rewrite bool_decide_eq_false_2 in Hend by done.
    destruct IH as [Hall Hstrip]; [done|done|].
    rewrite Hall, Hstrip. rewrite andb_false_r. split; [done|].
    by rewrite bool_decide_eq_false_2.
Qed.

Lemma os_path_join_plain (a b : string) :
  a ≠ EmptyString → ends_with_sep a = false → contains_sep b = false →
  os_path_join a b = a +:+ String sep b.
Proof.
  intros Ha Hend Hb. unfold os_path_join.
  rewrite starts_with_sep_plain by done.
  rewrite bool_decide_eq_false_2 by done. by rewrite Hend.
Qed.

Lemma os_path_split_join (a b : string) :
  a ≠ EmptyString → ends_with_sep a = false → contains_sep b = false →
  os_path_split (os_path_join a b) = (a, b).
Proof.
  intros Ha Hend Hb. rewrite os_path_join_plain by done.
  unfold os_path_split. rewrite rsplit_sep_join by done.
  destruct (all_sep_snoc_no_trailing a Ha Hend) as [Hall Hstrip].
  rewrite Hall, Hstrip.
  rewrite bool_decide_eq_false_2 by (destruct a; simpl; discriminate). reflexivity.
Qed.

Lemma img_path_dirname (ofolder : string) (i : nat) :
  ofolder ≠ EmptyString → ends_with_sep ofolder = false →
  os_path_dirname (img_path ofolder i) = ofolder.
Proof.
  intros Ha Hend. unfold os_path_dirname, img_path.
  by rewrite os_path_split_join by (done || apply contains_sep_jpg).
Qed.

Lemma string_app_length (a b : string) :
  String.length (a +:+ b) = (String.length a + String.length b)%nat.
Proof. induction a as [|c a IH]; simpl; [done|]. by rewrite IH. Qed.

Lemma string_app_inj_l (a b c : string) : a +:+ b = a +:+ c → b = c.
Proof. induction a as [|x a IH]; simpl; [done|]. intros [= H]. by apply IH. Qed.

Lemma img_path_inj (ofolder : string) (i j : nat) :
  ofolder ≠ EmptyString → ends_with_sep ofolder = false →
  img_path ofolder i = img_path ofolder j → i = j.
Proof.
  intros Ha Hend. unfold img_path.
  rewrite !os_path_join_plain by (done || apply contains_sep_jpg).
  intros H. apply string_app_inj_l in H. injection H as H.
  assert (∀ a b : string, a +:+ ".jpg" = b +:+ ".jpg" → a = b) as Hinj.
  { clear. intros a b H.
    assert (String.length a = String.length b) as Hlen.
    { apply (f_equal String.length) in H. rewrite !string_app_length in H. lia. }
    revert b H Hlen. induction a as [|x a IH]; intros [|y b] H Hlen;
      simpl in *; try done.
    injection H as -> H. f_equal. apply IH; [done|lia]. }
  apply Hinj in H. by apply (inj pretty) in H.
Qed.

Lemma img_path_ne_folder (ofolder : string) (i : nat) :
  ofolder ≠ EmptyString → ends_with_sep ofolder = false →
  img_path ofolder i ≠ ofolder.
Proof.
  intros Ha Hend. unfold img_path.
  rewrite os_path_join_plain by (done || apply contains_sep_jpg).
  intros H. apply (f_equal String.length) in H.
  rewrite string_app_length in H. simpl in H. lia.
Qed.

(** ** save_imgs: what is written before the exception *)

Section SaveImgsRun.
Context {Image : Type} (jpeg_encode : Image → outcome (list byte)).
Context (enc : Image → list byte) (ofolder : string).
Hypothesis Hname : ofolder ≠ EmptyString.
Hypothesis Hend : ends_with_sep ofolder = false.

Lemma with_images_other (imgs : list Image) : ∀ (k : nat) (fs : filesystem) (p : string),
  (∀ i, (i < List.length imgs)%nat → p ≠ img_path ofolder (k + i)) →
  with_images enc ofolder k imgs fs !! p = fs !! p.
Proof.
  induction imgs as [|img rest IH]; intros k fs p Hp; [reflexivity|].
  simpl. rewrite IH.
  - apply lookup_insert_ne. intros Heq. apply (Hp 0%nat); [simpl; lia|].
    by rewrite Nat.add_0_r.
  - intros i Hi. replace (S k + i)%nat with (k + S i)%nat by lia.
    apply Hp. simpl. lia.
Qed.

Lemma with_images_lookup (imgs : list Image) :
  ∀ (k : nat) (fs : filesystem) (i : nat) (img : Image),
  imgs !! i = Some img →
  with_images enc ofolder k imgs fs !! img_path ofolder (k + i) = Some (File (enc img)).
Proof.
  induction imgs as [|x rest IH]; intros k fs i img Hi; [done|].
  destruct i as [|i]; simpl in *.
  - injection Hi as ->. rewrite Nat.add_0_r. rewrite with_images_other.
    + apply lookup_insert_eq.
    + intros j _ Heq. apply img_path_inj in Heq; [lia|done|done].
  - replace (k + S i)%nat with (S k + i)%nat by lia. by apply IH.
Qed.

(** One turn of the loop when the folder is there. *)
Lemma save_imgs_step (i : nat) (img : Image) (fs : filesystem) :
  fs !! ofolder = Some Dir →
  jpeg_encode img = Return (enc img) →
  fs !! img_path ofolder i ≠ Some Dir →
  (fs0 ← py_get;
   (if negb (os_path_exists fs0 (os_path_dirname (img_path ofolder i)))
    then os_makedirs (os_path_dirname (img_path ofolder i))
    else mret tt);;
   img_save jpeg_encode img (img_path ofolder i)) fs
  = (Return tt, <[img_path ofolder i := File (enc img)]> fs).
Proof.
  intros Hdir Henc Hnodir.
  erewrite py_bind_return by reflexivity.
  rewrite img_path_dirname by done.
  unfold os_path_exists. rewrite Hdir. simpl.
  erewrite py_bind_return by reflexivity.
  unfold img_save. erewrite py_bind_return; cycle 1.
  { unfold py_lift. rewrite Henc. reflexivity. }
  apply write_file_creatable.
  - unfold parent_check. rewrite img_path_dirname by done.
    rewrite bool_decide_eq_false_2.
    + rewrite bool_decide_eq_false_2 by done. by rewrite Hdir.
    + intros Heq. pose proof (img_path_ne_folder ofolder i Hname Hend) as Hne.
      unfold img_path in *. rewrite os_path_join_plain in Heq
        by (done || apply contains_sep_jpg). by destruct ofolder.
  - unfold os_path_isdir. destruct (fs !! img_path ofolder i) as [[|bs]|]; done.
Qed.

Lemma save_imgs_loop (imgs : list Image) : ∀ (k : nat) (fs : filesystem),
  fs !! ofolder = Some Dir →
  (∀ img, img ∈ imgs → jpeg_encode img = Return (enc img)) →
  (∀ i, (i < List.length imgs)%nat → fs !! img_path ofolder (k + i) ≠ Some Dir) →
  py_for (imap (λ i x, ((k + i)%nat, x)) imgs) (λ '(i, img),
    let opath := os_path_join ofolder (pretty i +:+ ".jpg") in
    fs0 ← py_get;
    (if negb (os_path_exists fs0 (os_path_dirname opath))
     then os_makedirs (os_path_dirname opath)
     else mret tt);;
    img_save jpeg_encode img opath) fs
  = (Return tt, with_images enc ofolder k imgs fs).
Proof.
  induction imgs as [|img rest IH]; intros k fs Hdir Henc Hnodir; [reflexivity|].
  simpl. rewrite Nat.add_0_r.
  erewrite py_bind_return; cycle 1.
  { apply (save_imgs_step k img fs Hdir).
    - apply Henc. left.
    - specialize (Hnodir 0%nat). rewrite Nat.add_0_r in Hnodir.
      apply Hnodir. simpl. lia. }
  rewrite (imap_ext _ (λ i x, ((S k + i)%nat, x))); cycle 1.
  { intros i x _. simpl. f_equal. lia. }
  apply IH.
  - rewrite lookup_insert_ne; [done|]. by apply img_path_ne_folder.
  - intros x Hx. apply Henc. by right.
  - intros i Hi. rewrite lookup_insert_ne.
    + replace (S k + i)%nat with (k + S i)%nat by lia. apply Hnodir. simpl. lia.
    + intros Heq. apply img_path_inj in Heq; [lia|done|done].
Qed.

End SaveImgsRun.

Section SaveImgsEdges.
Context {Image : Type} (jpeg_encode : Image → outcome (list byte)).

(** X15. With a folder that is there (a non-empty name without a trailing
    slash), images that encode and no directory in the way, [save_imgs]
    stores image number [i] at [ofolder/i.jpg] for every image of the
    list, changes nothing else, and only then raises the [NameError] of
    its [else] clause. *)
Theorem save_imgs_writes_then_raises (enc : Image → list byte) (imgs : list Image)
    (ofolder : string) (fs : filesystem) :
  ofolder ≠ EmptyString →
  ends_with_sep ofolder = false →
  fs !! ofolder = Some Dir →
  (∀ img, img ∈ imgs → jpeg_encode img = Return (enc img)) →
  (∀ i, (i < List.length imgs)%nat → fs !! img_path ofolder i ≠ Some Dir) →
  ∃ fs',
    save_imgs jpeg_encode imgs ofolder fs = (Raise (NameError "axis"), fs')
    ∧ (∀ i img, imgs !! i = Some img →
         fs' !! img_path ofolder i = Some (File (enc img)))
    ∧ (∀ p, (∀ i, (i < List.length imgs)%nat → p ≠ img_path ofolder i) →
         fs' !! p = fs !! p).
Proof.
  intros Hname Hend Hdir Henc Hnodir.
  exists (with_images enc ofolder 0 imgs fs). split; [|split].
  - unfold save_imgs, enumerate.
    erewrite py_bind_return; [reflexivity|].
    apply (save_imgs_loop jpeg_encode enc ofolder Hname Hend imgs 0 fs); done.
  - intros i img Hi.
    apply (with_images_lookup enc ofolder Hname Hend imgs 0 fs i img Hi).
  - intros p Hp. by apply (with_images_other enc ofolder).
Qed.

(** X16. With the empty string as folder and at least one image,
    [save_imgs] writes nothing: the directory part of ["0.jpg"] is empty,
    [os.path.exists('')] is false, and [os.makedirs('')] raises
    [FileNotFoundError]. *)
Theorem save_imgs_empty_folder (img : Image) (imgs : list Image) (fs : filesystem) :
  fs !! EmptyString = None →
  save_imgs jpeg_encode (img :: imgs) "" fs = (Raise (FileNotFoundError ""), fs).
Proof.
  intros Hfs. unfold save_imgs, enumerate. simpl.
  erewrite py_bind_raise; [reflexivity|].
  erewrite py_bind_raise; [reflexivity|].
  erewrite py_bind_return by reflexivity.
  erewrite py_bind_raise; [reflexivity|].
  change (os_path_dirname (os_path_join "" (pretty 0%nat +:+ ".jpg"))) with "".
  unfold os_path_exists. rewrite Hfs. simpl.
  unfold os_makedirs. simpl.
  erewrite py_bind_return by reflexivity.
  erewrite py_bind_return by reflexivity.
  unfold os_mkdir. erewrite py_bind_return by reflexivity.
  unfold os_path_exists. rewrite Hfs.
  erewrite py_bind_raise; reflexivity.
Qed.

End SaveImgsEdges.

Lemma save_imgs_writes_then_raises_witness :
  ∃ fs',
    Sample.save_imgs [[x01]; [x02]] "out" (<["out" := Dir]> ∅)
    = (Raise (NameError "axis"), fs')
    ∧ (∀ i img, [[x01]; [x02]] !! i = Some img →
         fs' !! img_path "out" i = Some (File img))
    ∧ (∀ p, (∀ i, (i < 2)%nat → p ≠ img_path "out" i) →
         fs' !! p = (<["out" := Dir]> ∅ : filesystem) !! p).
Proof.
  apply (save_imgs_writes_then_raises Return (λ img, img) [[x01]; [x02]] "out"
           (<["out" := Dir]> ∅)).
  - discriminate.
  - reflexivity.
  - reflexivity.
  - reflexivity.
  - intros i Hi. destruct i as [|[|i]]; [vm_compute; discriminate..|simpl in Hi; lia].
Defined.

Lemma save_imgs_empty_folder_witness :
  Sample.save_imgs [[x01]; [x02]] "" ∅ = (Raise (FileNotFoundError ""), ∅).
Proof. apply (save_imgs_empty_folder Return [x01] [[x02]] ∅). reflexivity. Defined.

(** ** mkdir_if_no_exist *)

Lemma adds_dirs_only_refl (fs : filesystem) : adds_dirs_only fs fs.
Proof. intros p. by left. Qed.

Lemma adds_dirs_only_trans (fs1 fs2 fs3 : filesystem) :
  adds_dirs_only fs1 fs2 → adds_dirs_only fs2 fs3 → adds_dirs_only fs1 fs3.
Proof.
  intros H12 H23 p. destruct (H12 p) as [Ha|[Ha Hb]], (H23 p) as [Hc|[Hc Hd]].
  - left. congruence.
  - right. split; congruence.
  - right. split; congruence.
  - congruence.
Qed.

Lemma os_mkdir_adds (name : string) (fs : filesystem) :
  adds_dirs_only fs (os_mkdir name fs).2.
Proof.
  unfold os_mkdir, mbind, Py_bind, py_bind, py_get, py_raise, py_lift, py_modify.
  unfold os_path_exists. destruct (fs !! name) eqn:Hn; simpl.
  { apply adds_dirs_only_refl. }
  destruct (parent_check fs name); simpl; [|apply adds_dirs_only_refl].
  intros p. destruct (decide (p = name)) as [->|Hne].
  - right. by rewrite lookup_insert_eq.
  - left. by rewrite lookup_insert_ne.
Qed.

Lemma os_makedirs_aux_adds (fuel : nat) : ∀ (name : string) (fs : filesystem),
  adds_dirs_only fs (os_makedirs_aux fuel name fs).2.
Proof.
  induction fuel as [|fuel IH]; intros name fs; simpl.
  - destruct (os_path_split name) as [head tail].
    destruct (if bool_decide (tail = "") then os_path_split head else (head, tail))
      as [head' tail'].
    unfold mbind, Py_bind, py_bind, py_get, py_raise, mret, Py_ret, py_ret.
    destruct (negb (bool_decide (head' = "")) && negb (bool_decide (tail' = ""))
              && negb (os_path_exists fs head')); simpl.
    + apply adds_dirs_only_refl.
    + apply os_mkdir_adds.
  - destruct (os_path_split name) as [head tail].
    destruct (if bool_decide (tail = "") then os_path_split head else (head, tail))
      as [head' tail'].
    unfold mbind, Py_bind, py_bind, py_get, py_raise, mret, Py_ret, py_ret.
    destruct (negb (bool_decide (head' = "")) && negb (bool_decide (tail' = ""))
              && negb (os_path_exists fs head')); simpl.
    + pose proof (IH head' fs) as Hrec.
      destruct (os_makedirs_aux fuel head' fs) as [[[]|e] fs1]; simpl in *.
      * destruct (bool_decide (tail' = ".")); simpl; [done|].
        eapply adds_dirs_only_trans; [exact Hrec|apply os_mkdir_adds].
      * destruct e; simpl; try done.
        destruct (bool_decide (tail' = ".")); simpl; [done|].
        eapply adds_dirs_only_trans; [exact Hrec|apply os_mkdir_adds].
    + apply os_mkdir_adds.
Qed.

Lemma py_for_adds {A} (body : A → Py filesystem unit) (l : list A) :
  (∀ x fs, adds_dirs_only fs (body x fs).2) →
  ∀ fs, adds_dirs_only fs (py_for l body fs).2.
Proof.
  intros Hbody. induction l as [|x l IH]; intros fs; simpl.
  - apply adds_dirs_only_refl.
  - unfold mbind, Py_bind, py_bind. pose proof (Hbody x fs) as Hx.
    destruct (body x fs) as [[[]|e] fs1]; simpl in *; [|done].
    eapply adds_dirs_only_trans; [exact Hx|apply IH].
Qed.

(** X17. [mkdir_if_no_exist] only ever adds directories: whatever its
    arguments, and also when it raises part-way, every entry that was
    there is unchanged and every new entry is a directory. *)
Theorem mkdir_if_no_exist_adds_dirs_only (path : string) (subdirs : list string)
    (fs : filesystem) :
  adds_dirs_only fs (mkdir_if_no_exist path subdirs fs).2.
Proof.
  unfold mkdir_if_no_exist. case_bool_decide; [apply adds_dirs_only_refl|].
  apply py_for_adds. intros sd fs0.
  unfold mbind, Py_bind, py_bind, py_get.
  destruct (negb (os_path_exists fs0 (os_path_dirname (os_path_join path sd))));
    simpl; [apply os_makedirs_aux_adds|apply adds_dirs_only_refl].
Qed.

(** X18. [mkdir_if_no_exist] tests with [os.path.exists] only: when
    [path] is empty, or when every target
    [dirname(join(path, sd))] already has an entry (a directory or a
    regular file alike), it returns without changing anything. *)
Theorem mkdir_if_no_exist_present (path : string) (subdirs : list string)
    (fs : filesystem) :
  path = EmptyString
  ∨ (∀ sd, sd ∈ subdirs →
       is_Some (fs !! os_path_dirname (os_path_join path sd))) →
  mkdir_if_no_exist path subdirs fs = (Return tt, fs).
Proof.
  intros [->|Hall]; [reflexivity|].
  unfold mkdir_if_no_exist. case_bool_decide; [reflexivity|].
  induction subdirs as [|sd l IH]; [reflexivity|].
  simpl. erewrite py_bind_return; cycle 1.
  { erewrite py_bind_return by reflexivity.
    unfold os_path_exists. destruct (Hall sd) as [n ->]; [left|]. reflexivity. }
  apply IH. intros x Hx. apply Hall. by right.
Qed.

Lemma mkdir_if_no_exist_present_witness :
  mkdir_if_no_exist "data" [""; "train/x.bin"]
    (<["data" := File []]> (<["data/train" := Dir]> ∅))
  = (Return tt, <["data" := File []]> (<["data/train" := Dir]> ∅)).
Proof.
  apply (mkdir_if_no_exist_present "data" [""; "train/x.bin"]
           (<["data" := File []]> (<["data/train" := Dir]> ∅))).
  right. intros sd Hsd.
  apply elem_of_cons in Hsd as [->|Hsd]; [eexists; reflexivity|].
  apply list_elem_of_singleton in Hsd as ->. eexists. reflexivity.
Defined.

Lemma rsplit_sep_tail_plain (p h t : string) :
  rsplit_sep p = (h, t) → contains_sep t = false.
Proof.
  revert h t. induction p as [|c p IH]; intros h t; simpl.
  - by intros [= <- <-].
  - destruct (rsplit_sep p) as [h' t'] eqn:Hp. specialize (IH h' t' eq_refl).
    case_bool_decide.
    + case_bool_decide as Hc.
      * by intros [= <- <-].
      * intros [= <- <-]. simpl. by rewrite bool_decide_eq_false_2.
    + by intros [= <- <-].
Qed.

Lemma rsplit_sep_empty_head (p t : string) : rsplit_sep p = (EmptyString, t) → t = p.
Proof.
  revert t. induction p as [|c p IH]; intros t; simpl.
  - by intros [= <-].
  - destruct (rsplit_sep p) as [h' t'] eqn:Hp.
    case_bool_decide as Hh.
    + subst h'. case_bool_decide; [discriminate|].
      intros [= <-]. f_equal. by apply IH.
    + discriminate.
Qed.

(** The last component of a non-empty name that does not end in ['/']
    is not empty. *)
Lemma rsplit_sep_tail_nonempty (p : string) :
  p ≠ EmptyString → ends_with_sep p = false → (rsplit_sep p).2 ≠ EmptyString.
Proof.
  induction p as [|c p IH]; [done|]. intros _ Hend.
  rewrite ends_with_sep_cons in Hend. simpl.
  destruct (rsplit_sep p) as [h t] eqn:Hp.
  destruct p as [|d p].
  - simpl in Hp. injection Hp as <- <-. simpl in *. by rewrite Hend.
  - rewrite bool_decide_eq_false_2 in Hend by done.
    specialize (IH ltac:(done) Hend). simpl in IH.
    case_bool_decide as Hh; [|done].
    subst h. apply rsplit_sep_empty_head in Hp. subst t.
    by case_bool_decide.
Qed.

(** [os.makedirs] of a missing name whose parent is there makes the one
    directory. *)
Lemma os_makedirs_leaf (name : string) (fs : filesystem) :
  name ≠ EmptyString → ends_with_sep name = false →
  fs !! name = None →
  parent_check fs name = Return tt →
  os_makedirs name fs = (Return tt, <[name := Dir]> fs).
Proof.
  intros Hne Hend Hnone Hparent.
  assert (os_mkdir name fs = (Return tt, <[name := Dir]> fs)) as Hmk.
  { unfold os_mkdir. erewrite py_bind_return by reflexivity.
    unfold os_path_exists. rewrite Hnone.
    erewrite py_bind_return; [reflexivity|]. unfold py_lift. by rewrite Hparent. }
  pose proof (rsplit_sep_tail_nonempty name Hne Hend) as Htail.
  unfold parent_check, os_path_dirname in Hparent.
  rewrite bool_decide_eq_false_2 in Hparent by done.
  unfold os_makedirs.
  assert (∀ fuel, os_makedirs_aux fuel name fs = os_mkdir name fs) as Haux.
  { intros fuel.
    assert ((os_path_split name).2 ≠ EmptyString) as Htail'.
    { unfold os_path_split. destruct (rsplit_sep name) as [h t].
      by destruct (negb (bool_decide (h = "")) && negb (all_sep h)). }
    destruct (os_path_split name) as [head tail] eqn:Hsplit. simpl in *.
    assert (negb (bool_decide (head = "")) && negb (bool_decide (tail = ""))
            && negb (os_path_exists fs head) = false) as Hcond.
    { case_bool_decide as Hh; [done|]. simpl.
      rewrite bool_decide_eq_false_2 by done. simpl.
      unfold os_path_exists. by destruct (fs !! head) as [[|?]|]. }
    destruct fuel; simpl; rewrite Hsplit;
      rewrite (bool_decide_eq_false_2 (tail = "")) by done;
      erewrite py_bind_return by reflexivity;
      rewrite Hcond; by erewrite py_bind_return by reflexivity. }
  by rewrite Haux.
Qed.

(** X19. Called with the default [subdirs], [mkdir_if_no_exist(path)] on
    a missing [path] (a name without a trailing slash) whose parent is a
    directory, or that has no directory part, creates exactly the
    directory [path]. *)
Theorem mkdir_if_no_exist_creates (path : string) (fs : filesystem) :
  path ≠ EmptyString → ends_with_sep path = false →
  fs !! path = None →
  parent_check fs path = Return tt →
  mkdir_if_no_exist path [""] fs = (Return tt, <[path := Dir]> fs).
Proof.
  intros Hne Hend Hnone Hparent.
  unfold mkdir_if_no_exist. rewrite bool_decide_eq_false_2 by done. simpl.
  assert (os_path_dirname (os_path_join path "") = path) as ->.
  { unfold os_path_dirname. by rewrite os_path_split_join. }
  erewrite py_bind_return; [reflexivity|].
  erewrite py_bind_return by reflexivity.
  unfold os_path_exists. rewrite Hnone. simpl. by apply os_makedirs_leaf.
Qed.

Lemma mkdir_if_no_exist_creates_witness :
  mkdir_if_no_exist "data/feat" [""] (<["data" := Dir]> ∅)
  = (Return tt, <["data/feat" := Dir]> (<["data" := Dir]> ∅)).
Proof.
  apply (mkdir_if_no_exist_creates "data/feat" (<["data" := Dir]> ∅));
    [discriminate | reflexivity | reflexivity | reflexivity].
Defined.

(** ** bin_loader *)

Lemma outcome_map_Return {A B} (f : A → outcome B) (l : list A) (ys : list B) :
  outcome_map f l = Return ys ↔ Forall2 (λ x y, f x = Return y) l ys.
Proof.
  revert ys. induction l as [|x l IH]; intros ys; simpl.
  - split.
    + intros [= <-]. constructor.
    + intros H. by inversion H.
  - unfold mbind, outcome_bind. split.
    + destruct (f x) as [y|e] eqn:Hx; [|discriminate].
      destruct (outcome_map f l) as [ys'|e] eqn:Hl; [|discriminate].
      intros [= <-]. constructor; [done|]. by apply IH.
    + intros H. inversion H as [|x' y l' ys' Hx Hl]; subst.
      rewrite Hx. apply IH in Hl. by rewrite Hl.
Qed.

Section BinLoaderFacts.
Context {PILImage Label : Type}.
Context (pickle_load_pair : bool → list byte → outcome (list (list byte) * list Label)).
Context (image_open_rgb : list byte → outcome PILImage).

(** X20. [bin_loader] returns [(imgs, lbs)] exactly when the interpreter
    is Python 2 or 3, the file unpickles to a pair [(bins, lbs)] with
    [len(bins) == 2 * len(lbs)], and every element of [bins] decodes,
    [imgs] being the decoded images in the same order; so every result
    has two images for each label. *)
Theorem bin_loader_returns_iff (py_major : Z) (fs : filesystem) (path : string)
    (imgs : list PILImage) (lbs : list Label) :
  bin_loader pickle_load_pair image_open_rgb py_major fs path = Return (imgs, lbs)
  ↔ ∃ bs bins,
      fs !! path = Some (File bs)
      ∧ (py_major = 2 ∨ py_major = 3)
      ∧ pickle_load_pair (py_major =? 3) bs = Return (bins, lbs)
      ∧ List.length bins = (2 * List.length lbs)%nat
      ∧ Forall2 (λ b img, image_open_rgb b = Return img) bins imgs
      ∧ List.length imgs = (2 * List.length lbs)%nat.
Proof.
  unfold bin_loader, read_file, mbind, outcome_bind. split.
  - destruct (fs !! path) as [[|bs]|] eqn:Hf; try discriminate.
    intros H. exists bs.
    assert ((py_major = 2 ∨ py_major = 3)
            ∧ (if py_major =? 2 then pickle_load_pair false bs
               else if py_major =? 3 then pickle_load_pair true bs
                    else Raise (OSError "Only support python 2 or 3"))
              = pickle_load_pair (py_major =? 3) bs) as [Hver Heq].
    { destruct (Z.eqb_spec py_major 2) as [->|H2]; [split; [by left|done]|].
      destruct (Z.eqb_spec py_major 3) as [->|H3]; [split; [by right|done]|].
      discriminate H. }
    rewrite Heq in H.
    destruct (pickle_load_pair (py_major =? 3) bs) as [[bins lbs']|e] eqn:Hload;
      [|discriminate H].
    exists bins.
    destruct (Nat.eqb_spec (List.length bins) (2 * List.length lbs')) as [Hlen|?];
      [|discriminate H].
    destruct (outcome_map (pil_loader image_open_rgb) bins) as [a|e] eqn:Hmap;
      [|discriminate H].
    injection H as -> ->.
    apply outcome_map_Return in Hmap.
    repeat split; try done.
    apply Forall2_length in Hmap. lia.
  - intros (bs & bins & Hf & Hver & Hload & Hlen & Hdec & _).
    rewrite Hf.
    assert ((if py_major =? 2 then pickle_load_pair false bs
             else if py_major =? 3 then pickle_load_pair true bs
                  else Raise (OSError "Only support python 2 or 3"))
            = Return (bins, lbs)) as ->.
    { destruct Hver as [-> | ->]; exact Hload. }
    rewrite Hlen, Nat.eqb_refl.
    apply (outcome_map_Return (pil_loader image_open_rgb)) in Hdec. by rewrite Hdec.
Qed.

(** X21. When the pair in the file does not have two images for each
    label, [bin_loader] fails its assertion, before any image is decoded
    (so also when none would decode). *)
Theorem bin_loader_count_mismatch (py_major : Z) (fs : filesystem) (path : string)
    (bs : list byte) (bins : list (list byte)) (lbs : list Label) :
  fs !! path = Some (File bs) →
  py_major = 2 ∨ py_major = 3 →
  pickle_load_pair (py_major =? 3) bs = Return (bins, lbs) →
  List.length bins ≠ (2 * List.length lbs)%nat →
  bin_loader pickle_load_pair image_open_rgb py_major fs path
  = Raise (AssertionError "").
Proof.
  intros Hf Hver Hload Hlen.
  unfold bin_loader, read_file, mbind, outcome_bind. rewrite Hf.
  assert ((if py_major =? 2 then pickle_load_pair false bs
           else if py_major =? 3 then pickle_load_pair true bs
                else Raise (OSError "Only support python 2 or 3"))
          = Return (bins, lbs)) as ->.
  { destruct Hver as [-> | ->]; exact Hload. }
  by destruct (Nat.eqb_spec (List.length bins) (2 * List.length lbs)).
Qed.

End BinLoaderFacts.

Lemma bin_loader_returns_iff_witness :
  bin_loader (λ _ bs, Return ((λ b, [b]) <$> bs, [7])) Return 3
    (<["pairs.bin" := File [x01; x02]]> ∅) "pairs.bin"
  = Return ([[x01]; [x02]], [7]).
Proof.
  apply (bin_loader_returns_iff (λ _ bs, Return ((λ b, [b]) <$> bs, [7])) Return 3
           (<["pairs.bin" := File [x01; x02]]> ∅) "pairs.bin" [[x01]; [x02]] [7]).
  exists [x01; x02], [[x01]; [x02]].
  repeat split; try reflexivity; [by right | repeat constructor].
Defined.

Lemma bin_loader_count_mismatch_witness :
  bin_loader (λ _ bs, Return ((λ b, [b]) <$> bs, [7]))
    (λ _, Raise (OSError "cannot identify image file") : outcome (list byte)) 2
    (<["pairs.bin" := File [x01; x02; x03]]> ∅) "pairs.bin"
  = Raise (AssertionError "").
Proof.
  apply (bin_loader_count_mismatch (λ _ bs, Return ((λ b, [b]) <$> bs, [7]))
           (λ _, Raise (OSError "cannot identify image file")) 2
           (<["pairs.bin" := File [x01; x02; x03]]> ∅) "pairs.bin"
           [x01; x02; x03] [[x01]; [x02]; [x03]] [7]);
    [reflexivity | by left | reflexivity | simpl; lia].
Defined.

(** ** save_ckpt: names *)

Lemma contains_sep_pretty_Z (z : Z) : contains_sep (pretty z) = false.
Proof.
  destruct z as [|p|p]; [done| |].
  - apply (contains_sep_pretty_nat_N (N.pos p)).
  - change (pretty (Z.neg p)) with ("-" +:+ pretty (N.pos p)).
    rewrite contains_sep_app. by rewrite (contains_sep_pretty_nat_N (N.pos p)).
Qed.

Lemma contains_sep_basename (p : string) : contains_sep (os_path_basename p) = false.
Proof.
  unfold os_path_basename. destruct (rsplit_sep p) as [h t] eqn:Hp.
  by apply (rsplit_sep_tail_plain p h t).
Qed.

Lemma contains_sep_ckpt_name (ckpt : string) (epoch : Z) :
  contains_sep (ckpt_name ckpt epoch) = false.
Proof.
  unfold ckpt_name.
  by rewrite !contains_sep_app, contains_sep_basename, contains_sep_pretty_Z.
Qed.

Lemma contains_digit_app (a b : string) :
  contains_digit (a +:+ b) = contains_digit a || contains_digit b.
Proof.
  induction a as [|c a IH]; simpl; [done|]. rewrite IH. by rewrite orb_assoc.
Qed.

Lemma contains_digit_pretty_N_go (x : N) : ∀ s,
  contains_digit s = true ∨ (0 < x)%N → contains_digit (pretty_N_go x s) = true.
Proof.
  induction (N.lt_wf_0 x) as [x _ IH]; intros s Hs.
  destruct (decide (x = 0)%N) as [->|Hx].
  - rewrite pretty_N_go_0. destruct Hs; [done|lia].
  - rewrite pretty_N_go_step by lia. apply IH; [apply N.div_lt; lia|].
    left. simpl. apply orb_true_iff. left.
    unfold pretty_N_char. by repeat case_match.
Qed.

Lemma contains_digit_pretty_N (x : N) : contains_digit (pretty x) = true.
Proof.
  unfold pretty, pretty_N. case_decide; [done|].
  apply contains_digit_pretty_N_go. right. lia.
Qed.

Lemma contains_digit_pretty_Z (z : Z) : contains_digit (pretty z) = true.
Proof.
  destruct z as [|p|p]; [done| |].
  - apply (contains_digit_pretty_N (N.pos p)).
  - change (pretty (Z.neg p)) with ("-" +:+ pretty (N.pos p)).
    rewrite contains_digit_app, (contains_digit_pretty_N (N.pos p)).
    apply orb_true_r.
Qed.

Lemma string_app_assoc (a b c : string) : (a +:+ b) +:+ c = a +:+ (b +:+ c).
Proof.
  induction a as [|x a IH]; [done|].
  change (String x ((a +:+ b) +:+ c) = String x (a +:+ (b +:+ c))). by f_equal.
Qed.

(** Joining a plain name onto a folder puts it after a prefix that
    depends on the folder only. *)
Lemma os_path_join_prefix (a x : string) :
  contains_sep x = false →
  os_path_join a x
  = (if bool_decide (a = EmptyString) || ends_with_sep a
     then a else a +:+ String sep EmptyString) +:+ x.
Proof.
  intros Hx. unfold os_path_join. rewrite starts_with_sep_plain by done.
  destruct (bool_decide (a = EmptyString) || ends_with_sep a); [done|].
  by rewrite string_app_assoc.
Qed.

Lemma best_link_ne_ckpt_file (ckpt : string) (epoch : Z) :
  best_link ckpt ≠ ckpt_file ckpt epoch.
Proof.
  unfold best_link, ckpt_file.
  rewrite (os_path_join_prefix _ "model_best.pth.tar") by done.
  rewrite (os_path_join_prefix _ (ckpt_name ckpt epoch))
    by apply contains_sep_ckpt_name.
  intros H. apply string_app_inj_l in H.
  apply (f_equal contains_digit) in H. unfold ckpt_name in H.
  rewrite !contains_digit_app, contains_digit_pretty_Z in H.
  change (contains_digit "model_best.pth.tar") with false in H.
  change (contains_digit "_epoch_") with false in H.
  rewrite orb_true_l, orb_false_l, orb_true_r in H. discriminate H.
Qed.

(** ** save_ckpt: the file and the link *)

Lemma resolve_not_link (fuel : nat) (l : linkfs) (p : string) :
  links l !! p = None → resolve fuel l p = Some p.
Proof. intros H. destruct fuel; simpl; by rewrite H. Qed.

Lemma parent_check_insert_file (fs : filesystem) (b p : string) (bs : list byte) :
  parent_check fs b = Return tt →
  os_path_isdir fs p = false →
  parent_check (<[p := File bs]> fs) b = Return tt.
Proof.
  unfold parent_check, os_path_isdir. intros Hb Hp.
  case_bool_decide; [done|]. case_bool_decide; [done|].
  destruct (decide (os_path_dirname b = p)) as [Heq|Hne].
  - rewrite Heq in Hb. destruct (fs !! p) as [[|?]|]; done.
  - by rewrite lookup_insert_ne.
Qed.

Lemma parent_check_delete_file (fs : filesystem) (b : string) (bs : list byte) :
  parent_check fs b = Return tt →
  fs !! b = Some (File bs) →
  parent_check (delete b fs) b = Return tt.
Proof.
  unfold parent_check. intros Hb Hf.
  case_bool_decide; [done|]. case_bool_decide; [done|].
  destruct (decide (os_path_dirname b = b)) as [Heq|Hne].
  - rewrite Heq, Hf in Hb. done.
  - by rewrite lookup_delete_ne.
Qed.

Lemma resolve_same_links (fuel : nat) (l l' : linkfs) :
  links l = links l' → ∀ p, resolve fuel l p = resolve fuel l' p.
Proof.
  intros Heq. induction fuel as [|fuel IH]; intros p; simpl; rewrite Heq.
  - done.
  - destruct (links l' !! p); [apply IH|done].
Qed.

(** Saving a file makes no path stop existing. *)
Lemma lfs_exists_after_write (l : linkfs) (p q : string) (bs : list byte) :
  lfs_exists l q = true →
  lfs_exists (LinkFs (<[p := File bs]> (nodes l)) (links l)) q = true.
Proof.
  unfold lfs_exists.
  rewrite (resolve_same_links 40 (LinkFs (<[p := File bs]> (nodes l)) (links l)) l)
    by done.
  destruct (resolve 40 l q) as [r|]; [|done].
  unfold os_path_exists. simpl.
  destruct (decide (p = r)) as [->|Hne].
  - by rewrite lookup_insert_eq.
  - by rewrite lookup_insert_ne.
Qed.

Section SaveCkptFacts.
Context {Tensor PyObj Model Optim : Type}.
Context (torch_loads : list byte → outcome (gmap string (value Tensor PyObj))).
Context (torch_dumps : gmap string (value Tensor PyObj) → list byte).
Context (load_state : gmap string Tensor → bool → Py Model unit).
Context (load_optim : value Tensor PyObj → Py Optim unit).

#[local] Abbreviation ckpt_t := (gmap string (value Tensor PyObj)).

(** The part of [save_ckpt] that comes before the link: with the folder
    there, the checkpoint is saved at [ckpt_file]. *)
Lemma save_ckpt_write (state : ckpt_t) (ckpt : string) (epoch : Z) (l : linkfs)
    (k : Py linkfs unit) :
  os_path_dirname ckpt = EmptyString ∨ lfs_exists l (os_path_dirname ckpt) = true →
  links l !! ckpt_file ckpt epoch = None →
  parent_check (nodes l) (ckpt_file ckpt epoch) = Return tt →
  os_path_isdir (nodes l) (ckpt_file ckpt epoch) = false →
  (l0 ← py_get;
   (if negb (bool_decide (os_path_dirname ckpt = EmptyString))
       && negb (lfs_exists l0 (os_path_dirname ckpt))
    then lfs_makedirs (os_path_dirname ckpt)
    else mret tt);;
   lfs_write (ckpt_file ckpt epoch) (torch_dumps state);;
   k) l
  = k (LinkFs (<[ckpt_file ckpt epoch := File (torch_dumps state)]> (nodes l))
         (links l)).
Proof.
  intros Hfolder Hlink Hparent Hnodir.
  erewrite py_bind_return by reflexivity.
  erewrite py_bind_return; cycle 1.
  { destruct Hfolder as [-> | ->]; [reflexivity|]. by rewrite andb_false_r. }
  erewrite py_bind_return; [reflexivity|].
  unfold lfs_write. erewrite py_bind_return by reflexivity.
  rewrite resolve_not_link by done.
  unfold on_nodes. by rewrite write_file_creatable.
Qed.

(** X22. With the folder of [ckpt] there (or no folder part) and nothing
    in the way, [save_ckpt(state, ckpt, epoch, False)] stores the
    serialised state at [folder/basename_epoch_N.pth.tar] and changes
    nothing else: no other file, and no link. *)
Theorem save_ckpt_saves_versioned_file (state : ckpt_t) (ckpt : string) (epoch : Z)
    (l : linkfs) :
  os_path_dirname ckpt = EmptyString ∨ lfs_exists l (os_path_dirname ckpt) = true →
  links l !! ckpt_file ckpt epoch = None →
  parent_check (nodes l) (ckpt_file ckpt epoch) = Return tt →
  os_path_isdir (nodes l) (ckpt_file ckpt epoch) = false →
  save_ckpt torch_dumps state ckpt epoch false l
  = (Return tt,
     LinkFs (<[ckpt_file ckpt epoch := File (torch_dumps state)]> (nodes l))
       (links l)).
Proof.
  intros Hfolder Hlink Hparent Hnodir.
  exact (save_ckpt_write state ckpt epoch l (mret tt) Hfolder Hlink Hparent Hnodir).
Qed.


(** X24. With [is_best] the link [folder/model_best.pth.tar] ends up
    pointing at the file name just saved: a regular file or a live link
    found there is removed first, no other link changes, and no file
    other than the new checkpoint and a regular file in the place of
    the link is touched. *)
Theorem save_ckpt_moves_best_link (state : ckpt_t) (ckpt : string) (epoch : Z)
    (l : linkfs) :
  os_path_dirname ckpt = EmptyString ∨ lfs_exists l (os_path_dirname ckpt) = true →
  links l !! ckpt_file ckpt epoch = None →
  parent_check (nodes l) (ckpt_file ckpt epoch) = Return tt →
  os_path_isdir (nodes l) (ckpt_file ckpt epoch) = false →
  parent_check (nodes l) (best_link ckpt) = Return tt →
  nodes l !! best_link ckpt ≠ Some Dir →
  links l !! best_link ckpt = None
  ∨ (nodes l !! best_link ckpt = None ∧ lfs_exists l (best_link ckpt) = true) →
  save_ckpt torch_dumps state ckpt epoch true l
  = (Return tt,
     LinkFs (delete (best_link ckpt)
               (<[ckpt_file ckpt epoch := File (torch_dumps state)]> (nodes l)))
       (<[best_link ckpt := ckpt_name ckpt epoch]> (links l))).
Proof.
  intros Hfolder Hlink Hparent Hnodir Hbparent Hbnodir Hbest.
  pose proof (best_link_ne_ckpt_file ckpt epoch) as Hne.
  unfold save_ckpt. fold (ckpt_name ckpt epoch). fold (ckpt_file ckpt epoch).
  fold (best_link ckpt).
  rewrite (save_ckpt_write state ckpt epoch l) by done.
  set (fs1 := <[ckpt_file ckpt epoch := File (torch_dumps state)]> (nodes l)).
  assert (fs1 !! best_link ckpt = nodes l !! best_link ckpt) as Hfs1
    by (by apply lookup_insert_ne).
  assert (parent_check fs1 (best_link ckpt) = Return tt) as Hp1
    by (by apply parent_check_insert_file).
  erewrite py_bind_return by reflexivity.
  destruct Hbest as [Hnolink|[Hnonode Hlive]].
  - (* no link at the place *)
    unfold lfs_exists. rewrite resolve_not_link by done. simpl.
    unfold os_path_exists. rewrite Hfs1.
    destruct (nodes l !! best_link ckpt) as [[|bs]|] eqn:Hb; [done| |].
    + (* a regular file *)
      erewrite py_bind_return; cycle 1.
      { unfold lfs_unlink. erewrite py_bind_return by reflexivity. simpl.
        rewrite Hnolink, Hfs1. reflexivity. }
      unfold lfs_symlink. erewrite py_bind_return by reflexivity.
      unfold lfs_lexists, os_path_exists. simpl.
      rewrite lookup_delete_eq, Hnolink. simpl.
      rewrite ?bool_decide_eq_false_2 by (by intros [? ?]).
      erewrite py_bind_return; cycle 1.
      { unfold py_lift. simpl.
        rewrite (parent_check_delete_file fs1 _ bs); [reflexivity|done|done]. }
      reflexivity.
    + (* nothing *)
      erewrite py_bind_return by reflexivity.
      unfold lfs_symlink. erewrite py_bind_return by reflexivity.
      unfold lfs_lexists, os_path_exists. simpl. rewrite Hfs1, Hnolink. simpl.
      rewrite ?bool_decide_eq_false_2 by (by intros [? ?]).
      erewrite py_bind_return; cycle 1.
      { unfold py_lift. simpl. rewrite Hp1. reflexivity. }
      unfold py_modify. simpl. f_equal. f_equal.
      symmetry. apply delete_id. by rewrite Hfs1.
  - (* a live link *)
    assert (lfs_exists (LinkFs fs1 (links l)) (best_link ckpt) = true) as Hlive1
      by (by apply lfs_exists_after_write).
    rewrite Hlive1.
    destruct (links l !! best_link ckpt) as [old|] eqn:Hold.
    2:{ unfold lfs_exists in Hlive. rewrite resolve_not_link in Hlive by done.
        unfold os_path_exists in Hlive. by rewrite Hnonode in Hlive. }
    erewrite py_bind_return; cycle 1.
    { unfold lfs_unlink. erewrite py_bind_return by reflexivity. simpl.
      rewrite Hold. reflexivity. }
    unfold lfs_symlink. erewrite py_bind_return by reflexivity.
    unfold lfs_lexists, os_path_exists. simpl.
    rewrite Hfs1, Hnonode, lookup_delete_eq. simpl.
    rewrite ?bool_decide_eq_false_2 by (by intros [? ?]).
    erewrite py_bind_return; cycle 1.
    { unfold py_lift. simpl. rewrite Hp1. reflexivity. }
    unfold py_modify. simpl. f_equal. f_equal.
    + symmetry. apply delete_id. by rewrite Hfs1.
    + apply insert_delete_eq.
Qed.


(** X26. Saving and loading back: on the checkpoint that
    [save_ckpt] stored, when the serialisation reads back what it wrote,
    [load_ckpt] with a duplicate-free [ignores] among the keys of the
    state dictionary hands the saved state dictionary without the
    ignored names to [load_state_dict]. *)
Theorem load_ckpt_after_save_ckpt (state : ckpt_t) (sd : gmap string Tensor)
    (ckpt : string) (epoch : Z) (l : linkfs) (ignores : list string)
    (strict : bool) (m : Model) :
  os_path_dirname ckpt = EmptyString ∨ lfs_exists l (os_path_dirname ckpt) = true →
  links l !! ckpt_file ckpt epoch = None →
  parent_check (nodes l) (ckpt_file ckpt epoch) = Return tt →
  os_path_isdir (nodes l) (ckpt_file ckpt epoch) = false →
  torch_loads (torch_dumps state) = Return state →
  state !! "state_dict" = Some (VStateDict sd) →
  NoDup ignores →
  (∀ x, x ∈ ignores → is_Some (sd !! x)) →
  load_ckpt torch_loads load_state load_optim
    (nodes (save_ckpt torch_dumps state ckpt epoch false l).2)
    (ckpt_file ckpt epoch) ignores strict (Objects m None)
  = (on_model (load_state (without ignores sd) strict);; mret None) (Objects m None).
Proof.
  intros Hfolder Hlink Hparent Hnodir Hcodec Hsd Hnd Hin.
  change (save_ckpt torch_dumps state ckpt epoch false l)
    with ((l0 ← py_get;
           (if negb (bool_decide (os_path_dirname ckpt = EmptyString))
               && negb (lfs_exists l0 (os_path_dirname ckpt))
            then lfs_makedirs (os_path_dirname ckpt)
            else mret tt);;
           lfs_write (ckpt_file ckpt epoch) (torch_dumps state);;
           mret tt) l).
  rewrite (save_ckpt_write state ckpt epoch l (mret tt)) by done. simpl.
  apply (load_ckpt_present torch_loads load_state load_optim _ _
           (torch_dumps state) state sd); try done.
  apply lookup_insert_eq.
Qed.

End SaveCkptFacts.

Lemma save_ckpt_saves_versioned_file_witness :
  save_ckpt Sample.torch_dumps Sample.full "ckpt/res50" 3 false sample_linkfs
  = (Return tt,
     LinkFs (<[ckpt_file "ckpt/res50" 3 := File (Sample.torch_dumps Sample.full)]>
               (nodes sample_linkfs))
       (links sample_linkfs)).
Proof.
  apply (save_ckpt_saves_versioned_file Sample.torch_dumps Sample.full "ckpt/res50" 3
           sample_linkfs); [by right | reflexivity | reflexivity | reflexivity].
Defined.


Lemma save_ckpt_moves_best_link_witness :
  save_ckpt Sample.torch_dumps Sample.full "ckpt/res50" 3 true sample_linkfs
  = (Return tt,
     LinkFs (delete (best_link "ckpt/res50")
               (<[ckpt_file "ckpt/res50" 3 := File (Sample.torch_dumps Sample.full)]>
                  (nodes sample_linkfs)))
       (<[best_link "ckpt/res50" := ckpt_name "ckpt/res50" 3]> (links sample_linkfs))).
Proof.
  apply (save_ckpt_moves_best_link Sample.torch_dumps Sample.full "ckpt/res50" 3
           sample_linkfs).
  - by right.
  - reflexivity.
  - reflexivity.
  - reflexivity.
  - reflexivity.
  - discriminate.
  - right. split; reflexivity.
Defined.


Lemma load_ckpt_after_save_ckpt_witness :
  Sample.load_ckpt
    (nodes (save_ckpt Sample.torch_dumps Sample.weights_only "ckpt/res50" 3 false
              sample_linkfs).2)
    (ckpt_file "ckpt/res50" 3) [] false (Objects Sample.model0 None)
  = (on_model (Sample.model_load_state_dict
                 (without [] (<["fc.weight" := [1; 2]]> ∅)) false);;
     mret None) (Objects Sample.model0 None).
Proof.
  apply (load_ckpt_after_save_ckpt Sample.torch_loads Sample.torch_dumps
           Sample.model_load_state_dict Sample.optimizer_load_state_dict
           Sample.weights_only (<["fc.weight" := [1; 2]]> ∅) "ckpt/res50" 3
           sample_linkfs [] false Sample.model0).
  - by right.
  - reflexivity.
  - reflexivity.
  - reflexivity.
  - reflexivity.
  - reflexivity.
  - constructor.
  - intros x Hx. by apply elem_of_nil in Hx.
Defined.

(** The names on a concrete call: the file is named after the base name
    and the epoch, and the link holds the bare file name. *)
Example save_ckpt_names :
  ckpt_file "ckpt/res50" 3 = "ckpt/res50_epoch_3.pth.tar"
  ∧ best_link "ckpt/res50" = "ckpt/model_best.pth.tar"
  ∧ links (save_ckpt Sample.torch_dumps Sample.full "ckpt/res50" 3 true
             sample_linkfs).2 !! "ckpt/model_best.pth.tar"
    = Some "res50_epoch_3.pth.tar"
  ∧ ckpt_file "res50" (-2) = "res50_epoch_-2.pth.tar".
Proof. repeat split; reflexivity. Qed.
